(** * MFA intent pipeline: classification-to-decision core

    A shallow embedding of the TypeScript sources

      - [src/intents/types.ts]      (module [Types])
      - [src/intents/gates.ts]      (module [Gates])
      - [src/intents/validate.ts]   (module [Validate])
      - [src/intents/multi.ts]      (module [Multi])
      - [src/time/businessHours.ts] (module [BusinessHours])
      - [src/pipeline/classifyExtract.ts] (module [Pipeline])

    followed by the properties of the specification, proved or refuted
    on these definitions.

    Modelling conventions.

    - A JavaScript [number] is an exact rational ([Q]).  The code under
      study only compares numbers and, in [multi.ts], sums and divides
      them; comparison of two doubles agrees with comparison of the
      values they denote, sums and quotients are exact here.
    - A JavaScript [string] is a [string] of Rocq, one character per code
      unit, code units below 256 (Latin-1).  [toLowerCase], [trim],
      [includes], [substring] are written out on that alphabet.
    - [null] and [undefined] of an optional field are [None].
    - [throw] is the [inl] of a sum whose left side carries the message
      of the thrown [Error].
    - The mutable module-level configuration ([gateConfig],
      [businessHours], [holidays]) is an explicit argument. *)

From Stdlib Require Import List Bool Arith ZArith QArith Qabs Lia.
From Stdlib Require Import Sorted Permutation Lqa.
From Stdlib Require Import Strings.String Strings.Ascii.
Import ListNotations.

Local Close Scope Q_scope.
Local Open Scope nat_scope.
Local Open Scope list_scope.
Local Open Scope string_scope.

(* ===================================================================== *)
(** ** JavaScript built-ins used by the sources *)
(* ===================================================================== *)

Module JS.

(** Characters that are not printable in a literal. *)
Definition chr (n : nat) : string := String (ascii_of_nat n) EmptyString.
Definition dquote : string := chr 34.
Definition uuml : string := chr 252.

(** [String.prototype.toLowerCase] on code units below 256: the ASCII
    capitals and the Latin-1 capitals (0xC0..0xDE without the
    multiplication sign 0xD7) move up by 32, everything else stays. *)
Definition lower_ascii (c : ascii) : ascii :=
  let n := nat_of_ascii c in
  if (((65 <=? n) && (n <=? 90))
      || ((192 <=? n) && (n <=? 222) && negb (n =? 215)))%nat
  then ascii_of_nat (n + 32) else c.

Fixpoint toLowerCase (s : string) : string :=
  match s with
  | EmptyString => EmptyString
  | String c r => String (lower_ascii c) (toLowerCase r)
  end.

(** [s.startsWith(p)] *)
Definition startsWith (s p : string) : bool := String.prefix p s.

(** [s.includes(sub)] *)
Fixpoint includes (s sub : string) : bool :=
  if String.prefix sub s then true
  else match s with
       | EmptyString => false
       | String _ r => includes r sub
       end.

(** White space of [String.prototype.trim] below 256: TAB, LF, VT, FF,
    CR, SPACE and NBSP. *)
Definition is_space (c : ascii) : bool :=
  let n := nat_of_ascii c in
  (((9 <=? n) && (n <=? 13)) || (n =? 32) || (n =? 160))%nat.

Fixpoint trimStart (s : string) : string :=
  match s with
  | EmptyString => EmptyString
  | String c r => if is_space c then trimStart r else s
  end.

Fixpoint rev_string (s acc : string) : string :=
  match s with
  | EmptyString => acc
  | String c r => rev_string r (String c acc)
  end.

Definition trimEnd (s : string) : string :=
  rev_string (trimStart (rev_string s EmptyString)) EmptyString.

Definition trim (s : string) : string := trimEnd (trimStart s).

(** [arr.join(sep)] *)
Definition join (sep : string) (l : list string) : string :=
  String.concat sep l.

(** [s.substring(0, n)] *)
Definition substring0 (n : nat) (s : string) : string :=
  String.substring 0 n s.

(** Truthiness of a [string | null | undefined] value. *)
Definition truthy (v : option string) : bool :=
  match v with
  | None => false
  | Some s => negb (String.eqb s EmptyString)
  end.

(** Number comparisons. *)
Definition geb (a b : Q) : bool := Qle_bool b a.
Definition gtb (a b : Q) : bool := negb (Qle_bool a b).
Definition ltb (a b : Q) : bool := negb (Qle_bool b a).

(** [Math.max(...l)]; [None] stands for [-Infinity], the value on the
    empty list. *)
Definition max2 (a b : Q) : Q := if Qle_bool a b then b else a.

Definition Math_max (l : list Q) : option Q :=
  match l with
  | [] => None
  | x :: r => Some (fold_left max2 r x)
  end.

(** [v > b] for a value that may be [-Infinity]. *)
Definition gtb_opt (v : option Q) (b : Q) : bool :=
  match v with
  | None => false
  | Some a => gtb a b
  end.

End JS.

(* ===================================================================== *)
(** ** src/intents/types.ts *)
(* ===================================================================== *)

Module Types.

Inductive IntentType : Type :=
| termin_anfragen
| termin_verschieben
| termin_absagen
| rezept_anfordern
| arbeitsunfaehigkeit
| befundauskunft
| allgemeine_info
| notfall
| laborbefund
| ueberweisung.

Inductive NextAction : Type :=
| slots_vervollstaendigen
| termin_vorschlagen
| rueckfrage_senden
| eskalieren
| notfall_protokoll
| sofort_termin.

Inductive PriorityLevel : Type := prio_normal | prio_urgent | prio_emergency.
Inductive Sentiment : Type := positiv | neutral | negativ.
Inductive Dringlichkeit : Type := hoch | normal | niedrig.
Inductive Versicherung : Type := gesetzlich | privat.

(** The string each enumeration value is at run time. *)
Definition intent_name (i : IntentType) : string :=
  match i with
  | termin_anfragen => "termin_anfragen"
  | termin_verschieben => "termin_verschieben"
  | termin_absagen => "termin_absagen"
  | rezept_anfordern => "rezept_anfordern"
  | arbeitsunfaehigkeit => "arbeitsunfaehigkeit"
  | befundauskunft => "befundauskunft"
  | allgemeine_info => "allgemeine_info"
  | notfall => "notfall"
  | laborbefund => "laborbefund"
  | ueberweisung => "ueberweisung"
  end.

Definition next_action_name (a : NextAction) : string :=
  match a with
  | slots_vervollstaendigen => "slots_vervollstaendigen"
  | termin_vorschlagen => "termin_vorschlagen"
  | rueckfrage_senden => "rueckfrage_senden"
  | eskalieren => "eskalieren"
  | notfall_protokoll => "notfall_protokoll"
  | sofort_termin => "sofort_termin"
  end.

Definition dringlichkeit_name (d : Dringlichkeit) : string :=
  match d with hoch => "hoch" | normal => "normal" | niedrig => "niedrig" end.

Definition versicherung_name (v : Versicherung) : string :=
  match v with gesetzlich => "gesetzlich" | privat => "privat" end.

Definition intent_eqb (a b : IntentType) : bool :=
  String.eqb (intent_name a) (intent_name b).

Definition next_action_eqb (a b : NextAction) : bool :=
  String.eqb (next_action_name a) (next_action_name b).

Record IntentSlots : Type := mkSlots {
  datum : option string;
  zeit : option string;
  dringlichkeit : option Dringlichkeit;
  grund : option string;
  person_name : option string;
  geburtsdatum : option string;
  versicherung : option Versicherung;
  medikament : option string;
  symptome : option string;
  kontakt : option string;
  freie_form : option string
}.

Record IntentItem : Type := mkItem {
  intent : IntentType;
  confidence : Q;
  slots : IntentSlots;
  next_action : NextAction;
  notes : string
}.

Record EmailMeta : Type := mkMeta {
  received_at_iso : option string;
  priority_indicator : option PriorityLevel
}.

Record Overall : Type := mkOverall {
  top_intent : IntentType;
  max_confidence : Q;
  multi_intent : bool;
  sentiment : option Sentiment;
  requires_human : bool
}.

(** [email_meta.language] has the single value ["de"] and is left out. *)
Record IntentResponse : Type := mkResponse {
  email_meta : EmailMeta;
  items : list IntentItem;
  overall : Overall
}.

Definition INTENT_TYPES : list IntentType :=
  [ termin_anfragen; termin_verschieben; termin_absagen; rezept_anfordern;
    arbeitsunfaehigkeit; befundauskunft; allgemeine_info; notfall;
    laborbefund; ueberweisung ].

Definition NEXT_ACTIONS : list NextAction :=
  [ slots_vervollstaendigen; termin_vorschlagen; rueckfrage_senden;
    eskalieren; notfall_protokoll; sofort_termin ].

Definition EMERGENCY_KEYWORDS : list string :=
  [ "notfall"; "dringend"; "sofort"; "akut"; "schmerzen"; "atemnot";
    "brustschmerzen"; "herzinfarkt"; "schlaganfall"; "bewusstlos";
    "blutung"; "vergiftung"; "unfall"; "sturz"; "kollaps" ].

(** [slots[name]] for a property name given as a string; a name that
    is no property of the record gives [undefined] (names inherited
    from [Object.prototype] are not considered). *)
Definition get_slot (s : IntentSlots) (name : string) : option string :=
  if String.eqb name "datum" then datum s
  else if String.eqb name "zeit" then zeit s
  else if String.eqb name "dringlichkeit"
       then option_map dringlichkeit_name (dringlichkeit s)
  else if String.eqb name "grund" then grund s
  else if String.eqb name "person_name" then person_name s
  else if String.eqb name "geburtsdatum" then geburtsdatum s
  else if String.eqb name "versicherung"
       then option_map versicherung_name (versicherung s)
  else if String.eqb name "medikament" then medikament s
  else if String.eqb name "symptome" then symptome s
  else if String.eqb name "kontakt" then kontakt s
  else if String.eqb name "freie_form" then freie_form s
  else None.

End Types.

(* ===================================================================== *)
(** ** src/intents/gates.ts *)
(* ===================================================================== *)

Module Gates.
Import Types.

Inductive Urgency : Type := high | critical.

Inductive GateDecision : Type :=
| AUTO_PROCESS (items : list IntentItem) (confidence : Q) (reason : string)
| ASK_CONFIRM (items : list IntentItem) (reason : string) (confidence : Q)
              (missingSlots : option (list string))
| ESCALATE (items : list IntentItem) (reason : string) (confidence : Q)
| EMERGENCY (items : list IntentItem) (reason : string) (urgency : Urgency).

Record GateConfig : Type := mkGateConfig {
  autoProcessThreshold : Q;
  confirmThreshold : Q;
  escalateThreshold : Q;
  emergencyKeywords : list string;
  requiredSlots : list (string * list string)
}.

Definition DEFAULT_CONFIG : GateConfig := {|
  autoProcessThreshold := (85 # 100)%Q;
  confirmThreshold := (5 # 10)%Q;
  escalateThreshold := (5 # 10)%Q;
  emergencyKeywords := EMERGENCY_KEYWORDS;
  requiredSlots :=
    [ ("termin_anfragen", ["datum"; "zeit"]);
      ("termin_verschieben", ["datum"]);
      ("termin_absagen", []);
      ("rezept_anfordern", ["medikament"]);
      ("arbeitsunfaehigkeit", ["grund"]);
      ("befundauskunft", []);
      ("laborbefund", []);
      ("ueberweisung", ["grund"]);
      ("notfall", []);
      ("allgemeine_info", []) ]
|}.

(** [obj[key]] on an object used as a table. *)
Fixpoint lookup {A : Type} (key : string) (o : list (string * A)) : option A :=
  match o with
  | [] => None
  | (k, v) :: r => if String.eqb k key then Some v else lookup key r
  end.

(** [gateConfig.requiredSlots[item.intent] || []] *)
Definition required_of (cfg : GateConfig) (i : IntentType) : list string :=
  match lookup (intent_name i) (requiredSlots cfg) with
  | Some l => l
  | None => []
  end.

(** [!slotValue || (typeof slotValue === 'string' && slotValue.trim() === '')] *)
Definition slot_missing (v : option string) : bool :=
  negb (JS.truthy v)
  || match v with
     | Some s => String.eqb (JS.trim s) EmptyString
     | None => false
     end.

(** [Set.prototype.add] on a set kept in insertion order. *)
Definition set_add (x : string) (s : list string) : list string :=
  if existsb (String.eqb x) s then s else s ++ [x].

Definition missing_of_item (cfg : GateConfig) (acc : list string)
           (item : IntentItem) : list string :=
  fold_left
    (fun acc requiredSlot =>
       if slot_missing (get_slot (slots item) requiredSlot)
       then set_add requiredSlot acc else acc)
    (required_of cfg (intent item)) acc.

Definition findMissingSlots (cfg : GateConfig) (items : list IntentItem)
  : list string :=
  fold_left (missing_of_item cfg) items [].

Definition is_emergency_item (item : IntentItem) : bool :=
  intent_eqb (intent item) notfall
  || next_action_eqb (next_action item) notfall_protokoll.

Definition critical_keywords : list string :=
  [ "herzinfarkt"; "schlaganfall"; "bewusstlos"; "atemnot" ].

Definition keyword_item (found : list string) (originalText : string)
  : IntentItem := {|
  intent := notfall;
  confidence := (9 # 10)%Q;
  slots := {|
    datum := None;
    zeit := None;
    dringlichkeit := Some hoch;
    grund := Some ("Notfall-Keywords erkannt: " ++ JS.join ", " found);
    person_name := None;
    geburtsdatum := None;
    versicherung := None;
    medikament := None;
    symptome := Some (JS.join ", " found);
    kontakt := None;
    freie_form := Some (JS.substring0 200 originalText)
  |};
  next_action := notfall_protokoll;
  notes := "Automatische Notfall-Erkennung durch Keywords: "
           ++ JS.join ", " found
|}.

Definition found_keywords (cfg : GateConfig) (originalText : string)
  : list string :=
  let lowerText := JS.toLowerCase originalText in
  filter (fun keyword => JS.includes lowerText (JS.toLowerCase keyword))
         (emergencyKeywords cfg).

Definition checkForEmergency (cfg : GateConfig) (resp : IntentResponse)
           (originalText : option string) : option GateDecision :=
  let emergencyItems := filter is_emergency_item (items resp) in
  if negb (Nat.eqb (List.length emergencyItems) 0) then
    let highestConfidence := JS.Math_max (map confidence emergencyItems) in
    Some (EMERGENCY emergencyItems "Notfall-Intent erkannt"
            (if JS.gtb_opt highestConfidence (8 # 10)%Q then critical else high))
  else
    match originalText with
    | Some text =>
      if JS.truthy originalText then
        let found := found_keywords cfg text in
        if negb (Nat.eqb (List.length found) 0) then
          Some (EMERGENCY [keyword_item found text]
                  ("Notfall-Keywords erkannt: " ++ JS.join ", " found)
                  (if existsb
                        (fun kw => existsb (String.eqb kw) critical_keywords)
                        found
                   then critical else high))
        else None
      else None
    | None => None
    end.

Definition gate (cfg : GateConfig) (resp : IntentResponse)
           (originalText : option string) : GateDecision :=
  match checkForEmergency cfg resp originalText with
  | Some emergencyDecision => emergencyDecision
  | None =>
    if requires_human (overall resp) then
      ESCALATE (items resp) "LLM empfiehlt menschliche Bearbeitung"
               (max_confidence (overall resp))
    else
      let c := max_confidence (overall resp) in
      if JS.geb c (autoProcessThreshold cfg) then
        let missingSlots := findMissingSlots cfg (items resp) in
        if Nat.eqb (List.length missingSlots) 0 then
          AUTO_PROCESS (items resp) c
            ("Hohe Konfidenz und alle Slots verf" ++ JS.uuml ++ "gbar")
        else
          ASK_CONFIRM (items resp)
            "Hohe Konfidenz, aber fehlende Informationen" c
            (Some missingSlots)
      else if JS.geb c (confirmThreshold cfg) then
        let missingSlots := findMissingSlots cfg (items resp) in
        ASK_CONFIRM (items resp) "Mittlere Sicherheit bei der Erkennung" c
          (if Nat.ltb 0 (List.length missingSlots)
           then Some missingSlots else None)
      else
        ESCALATE (items resp) "Niedrige Sicherheit bei der Erkennung" c
  end.

End Gates.

(* ===================================================================== *)
(** ** Thrown values and the result of a call that may throw *)
(* ===================================================================== *)

Module Exn.

(** What the code under study throws or catches.  The first three are
    instances of [Error]; [NonError] is any other thrown value, given by
    what [String(value)] yields (a value whose conversion to a string
    itself throws is not considered). *)
Inductive Thrown : Type :=
| Error (msg : string)
| SyntaxError (msg : string)
| ZodError (msg : string)
| NonError (str : string).

(** [error instanceof Error ? error.message : String(error)] *)
Definition message_of (e : Thrown) : string :=
  match e with
  | Error m => m
  | SyntaxError m => m
  | ZodError m => m
  | NonError s => s
  end.

Definition result (A : Type) : Type := (Thrown + A)%type.

Definition ret {A : Type} (a : A) : result A := inr a.
Definition throw {A : Type} (e : Thrown) : result A := inl e.

Definition bind {A B : Type} (m : result A) (k : A -> result B) : result B :=
  match m with
  | inl e => inl e
  | inr a => k a
  end.

Fixpoint mapM {A B : Type} (f : A -> result B) (l : list A) : result (list B) :=
  match l with
  | [] => ret []
  | x :: r => bind (f x) (fun y => bind (mapM f r) (fun ys => ret (y :: ys)))
  end.

End Exn.

Notation "x <- m ;; k" := (Exn.bind m (fun x => k))
  (at level 61, m at next level, right associativity).

(* ===================================================================== *)
(** ** src/intents/validate.ts *)
(* ===================================================================== *)

Module Validate.
Import Types Exn.

#[local] Set Warnings "-register-all".

(** The value [JSON.parse] returns.  A number too large for a double is
    read by [JSON.parse] as [Infinity]; every number of the schema below
    is bounded, so any rational above the bound stands for it. *)
Inductive json : Type :=
| JNull
| JBool (b : bool)
| JNum (q : Q)
| JStr (s : string)
| JArr (elems : list json)
| JObj (fields : list (string * json)).

(** The two library calls of [parseIntentJSON]: [jsonrepair(txt)] and
    [JSON.parse(repaired)], each of which returns or throws. *)
Record Lib : Type := mkLib {
  jsonrepair : string -> result string;
  JSON_parse : string -> result json
}.

(** [obj[key]]; [None] is [undefined]. *)
Fixpoint field (key : string) (o : list (string * json)) : option json :=
  match o with
  | [] => None
  | (k, v) :: r => if String.eqb k key then Some v else field key r
  end.

Definition issue {A : Type} (path what : string) : result A :=
  throw (ZodError (path ++ ": " ++ what)).

(** [z.string().nullable()] *)
Definition z_string_nullable (path : string) (v : option json)
  : result (option string) :=
  match v with
  | Some (JStr s) => ret (Some s)
  | Some JNull => ret None
  | Some _ => issue path "Expected string"
  | None => issue path "Required"
  end.

(** [z.string()] *)
Definition z_string (path : string) (v : option json) : result string :=
  match v with
  | Some (JStr s) => ret s
  | Some _ => issue path "Expected string"
  | None => issue path "Required"
  end.

(** [z.boolean()] *)
Definition z_boolean (path : string) (v : option json) : result bool :=
  match v with
  | Some (JBool b) => ret b
  | Some _ => issue path "Expected boolean"
  | None => issue path "Required"
  end.

(** [z.number().min(0).max(1)] *)
Definition z_number_0_1 (path : string) (v : option json) : result Q :=
  match v with
  | Some (JNum q) =>
    if negb (JS.geb q 0%Q) then issue path "Number must be greater than or equal to 0"
    else if negb (JS.geb 1%Q q) then issue path "Number must be less than or equal to 1"
    else ret q
  | Some _ => issue path "Expected number"
  | None => issue path "Required"
  end.

Fixpoint find_enum {A : Type} (name : A -> string) (values : list A) (s : string)
  : option A :=
  match values with
  | [] => None
  | a :: r => if String.eqb (name a) s then Some a else find_enum name r s
  end.

(** [z.enum(values)] *)
Definition z_enum {A : Type} (name : A -> string) (values : list A)
           (path : string) (v : option json) : result A :=
  match v with
  | Some (JStr s) =>
    match find_enum name values s with
    | Some a => ret a
    | None => issue path "Invalid enum value"
    end
  | Some _ => issue path "Invalid enum value"
  | None => issue path "Required"
  end.

(** [z.enum(values).nullable()] *)
Definition z_enum_nullable {A : Type} (name : A -> string) (values : list A)
           (path : string) (v : option json) : result (option A) :=
  match v with
  | Some JNull => ret None
  | _ => a <- z_enum name values path v ;; ret (Some a)
  end.

(** [z.literal("de")] *)
Definition z_literal_de (path : string) (v : option json) : result unit :=
  match v with
  | Some (JStr s) => if String.eqb s "de" then ret tt
                     else issue path "Invalid literal value"
  | Some _ => issue path "Invalid literal value"
  | None => issue path "Required"
  end.

(** [z.object({...})]: the value has to be an object that is no array. *)
Definition z_object (path : string) (v : option json)
  : result (list (string * json)) :=
  match v with
  | Some (JObj o) => ret o
  | Some _ => issue path "Expected object"
  | None => issue path "Required"
  end.

Definition priority_name (p : PriorityLevel) : string :=
  match p with
  | prio_normal => "normal"
  | prio_urgent => "urgent"
  | prio_emergency => "emergency"
  end.

Definition sentiment_name (s : Sentiment) : string :=
  match s with
  | positiv => "positiv"
  | neutral => "neutral"
  | negativ => "negativ"
  end.

(** [const Slots = z.object({...})] *)
Definition Slots (path : string) (v : option json) : result IntentSlots :=
  o <- z_object path v ;;
  f_datum <- z_string_nullable (path ++ ".datum") (field "datum" o) ;;
  f_zeit <- z_string_nullable (path ++ ".zeit") (field "zeit" o) ;;
  f_dringlichkeit <- z_enum_nullable dringlichkeit_name [hoch; normal; niedrig]
                       (path ++ ".dringlichkeit") (field "dringlichkeit" o) ;;
  f_grund <- z_string_nullable (path ++ ".grund") (field "grund" o) ;;
  f_person_name <- z_string_nullable (path ++ ".person_name")
                     (field "person_name" o) ;;
  f_geburtsdatum <- z_string_nullable (path ++ ".geburtsdatum")
                      (field "geburtsdatum" o) ;;
  f_versicherung <- z_enum_nullable versicherung_name [gesetzlich; privat]
                      (path ++ ".versicherung") (field "versicherung" o) ;;
  f_medikament <- z_string_nullable (path ++ ".medikament")
                    (field "medikament" o) ;;
  f_symptome <- z_string_nullable (path ++ ".symptome") (field "symptome" o) ;;
  f_kontakt <- z_string_nullable (path ++ ".kontakt") (field "kontakt" o) ;;
  f_freie_form <- z_string_nullable (path ++ ".freie_form")
                    (field "freie_form" o) ;;
  ret {| datum := f_datum; zeit := f_zeit; dringlichkeit := f_dringlichkeit;
         grund := f_grund; person_name := f_person_name;
         geburtsdatum := f_geburtsdatum; versicherung := f_versicherung;
         medikament := f_medikament; symptome := f_symptome;
         kontakt := f_kontakt; freie_form := f_freie_form |}.

(** [const IntentItem = z.object({...})] *)
Definition IntentItemSchema (v : json) : result IntentItem :=
  o <- z_object "items[]" (Some v) ;;
  f_intent <- z_enum intent_name INTENT_TYPES "items[].intent"
                (field "intent" o) ;;
  f_confidence <- z_number_0_1 "items[].confidence" (field "confidence" o) ;;
  f_slots <- Slots "items[].slots" (field "slots" o) ;;
  f_next_action <- z_enum next_action_name NEXT_ACTIONS "items[].next_action"
                     (field "next_action" o) ;;
  f_notes <- z_string "items[].notes" (field "notes" o) ;;
  ret {| intent := f_intent; confidence := f_confidence; slots := f_slots;
         next_action := f_next_action; notes := f_notes |}.

(** [z.array(IntentItem).min(1)] *)
Definition z_items (v : option json) : result (list IntentItem) :=
  match v with
  | Some (JArr elems) =>
    parsed <- mapM IntentItemSchema elems ;;
    if Nat.ltb (List.length elems) 1
    then issue "items" "Array must contain at least 1 element(s)"
    else ret parsed
  | Some _ => issue "items" "Expected array"
  | None => issue "items" "Required"
  end.

(** [IntentResponseSchema.parse(obj)] *)
Definition IntentResponseSchema (obj : json) : result IntentResponse :=
  o <- z_object "" (Some obj) ;;
  m <- z_object "email_meta" (field "email_meta" o) ;;
  _ <- z_literal_de "email_meta.language" (field "language" m) ;;
  f_received <- z_string_nullable "email_meta.received_at_iso"
                  (field "received_at_iso" m) ;;
  f_priority <- z_enum_nullable priority_name
                  [prio_normal; prio_urgent; prio_emergency]
                  "email_meta.priority_indicator"
                  (field "priority_indicator" m) ;;
  f_items <- z_items (field "items" o) ;;
  ov <- z_object "overall" (field "overall" o) ;;
  f_top <- z_enum intent_name INTENT_TYPES "overall.top_intent"
             (field "top_intent" ov) ;;
  f_max <- z_number_0_1 "overall.max_confidence" (field "max_confidence" ov) ;;
  f_multi <- z_boolean "overall.multi_intent" (field "multi_intent" ov) ;;
  f_sentiment <- z_enum_nullable sentiment_name [positiv; neutral; negativ]
                   "overall.sentiment" (field "sentiment" ov) ;;
  f_human <- z_boolean "overall.requires_human" (field "requires_human" ov) ;;
  ret {| email_meta := {| received_at_iso := f_received;
                          priority_indicator := f_priority |};
         items := f_items;
         overall := {| top_intent := f_top; max_confidence := f_max;
                       multi_intent := f_multi; sentiment := f_sentiment;
                       requires_human := f_human |} |}.

(** What [console.warn] and [console.error] receive. *)
Inductive LogEntry : Type :=
| warn_repair_failed (e : Thrown)
| warn_max_confidence (declared : Q) (actual : option Q)
| warn_multi_intent (declared actual : bool)
| error_parsing (e : Thrown)
| error_raw_input (fragment : string).

(** [new Set(l)], in insertion order. *)
Definition new_Set (l : list IntentType) : list IntentType :=
  fold_left (fun s x => if existsb (intent_eqb x) s then s else (s ++ [x])%list) l [].

(** [Math.abs(a - b) > 0.01], where [b] may be [-Infinity]. *)
Definition differs_by_more_than_001 (a : Q) (b : option Q) : bool :=
  match b with
  | None => true
  | Some m => JS.gtb (Qabs.Qabs (a - m)) (1 # 100)%Q
  end.

(** [validatePlausibility(response)]: throws, or returns with the
    warnings it has written. *)
Definition validatePlausibility (response : IntentResponse)
  : result (list LogEntry) :=
  let topIntentExists :=
    existsb (fun item => intent_eqb (intent item) (top_intent (overall response)))
            (items response) in
  if negb topIntentExists then
    throw (Error ("Top intent " ++ JS.dquote
                  ++ intent_name (top_intent (overall response))
                  ++ JS.dquote ++ " nicht in items gefunden"))
  else
    let actualMaxConfidence := JS.Math_max (map confidence (items response)) in
    let w1 :=
      if differs_by_more_than_001 (max_confidence (overall response))
                                  actualMaxConfidence
      then [warn_max_confidence (max_confidence (overall response))
                                actualMaxConfidence]
      else [] in
    let uniqueIntents := new_Set (map intent (items response)) in
    let actualMultiIntent := Nat.ltb 1 (List.length uniqueIntents) in
    let w2 :=
      if negb (Bool.eqb (multi_intent (overall response)) actualMultiIntent)
      then [warn_multi_intent (multi_intent (overall response)) actualMultiIntent]
      else [] in
    ret (w1 ++ w2)%list.

(** [txt.indexOf(c)] and [txt.lastIndexOf(c)] for a one-character
    needle; [None] is [-1]. *)
Fixpoint indexOf (c : ascii) (s : string) : option nat :=
  match s with
  | EmptyString => None
  | String d r => if Ascii.eqb d c then Some 0
                  else option_map S (indexOf c r)
  end.

Fixpoint lastIndexOf (c : ascii) (s : string) : option nat :=
  match s with
  | EmptyString => None
  | String d r =>
    match lastIndexOf c r with
    | Some i => Some (S i)
    | None => if Ascii.eqb d c then Some 0 else None
    end
  end.

(** [s.substring(a, b)]: the two indices are swapped when [a > b]. *)
Definition substring (a b : nat) (s : string) : string :=
  if Nat.leb a b then String.substring a (b - a) s
  else String.substring b (a - b) s.

Definition is_letter (c : ascii) : bool :=
  let n := nat_of_ascii c in
  (((65 <=? n) && (n <=? 90)) || ((97 <=? n) && (n <=? 122)))%nat.

Fixpoint drop_letters (s : string) : string :=
  match s with
  | EmptyString => EmptyString
  | String c r => if is_letter c then drop_letters r else s
  end.

Definition fence : string := "```".

(** [txt.replace(/^```[a-zA-Z]*\n?/, "")] on a text that starts with
    the fence. *)
Definition strip_fence_start (txt : string) : string :=
  let rest := drop_letters (String.substring 3 (String.length txt - 3) txt) in
  match rest with
  | String c r => if Ascii.eqb c (ascii_of_nat 10) then r else rest
  | EmptyString => rest
  end.

(** [txt.replace(/```$/, "")] *)
Definition strip_fence_end (txt : string) : string :=
  let n := String.length txt in
  if (Nat.leb 3 n) && String.eqb (String.substring (n - 3) 3 txt) fence
  then String.substring 0 (n - 3) txt
  else txt.

(** The text handed to [jsonrepair]: trimmed, code fence removed, cut
    down to the span from the first opening to the last closing brace. *)
Definition extract_json_text (raw : string) : string :=
  let txt := JS.trim raw in
  let txt := if JS.startsWith txt fence
             then strip_fence_end (strip_fence_start txt) else txt in
  match indexOf "{"%char txt, lastIndexOf "}"%char txt with
  | Some jsonStart, Some jsonEnd => substring jsonStart (jsonEnd + 1) txt
  | _, _ => txt
  end.

(** The inner [try { repaired = jsonrepair(txt) } catch { repaired = txt }]. *)
Definition repair (lib : Lib) (txt : string) : string * list LogEntry :=
  match jsonrepair lib txt with
  | inr repaired => (repaired, [])
  | inl repairError => (txt, [warn_repair_failed repairError])
  end.

(** [JSON.parse(repaired)] of the body of [parseIntentJSON]. *)
Definition parsed_object (lib : Lib) (raw : string) : result json :=
  JSON_parse lib (fst (repair lib (extract_json_text raw))).

Definition error_prefix : string := "Ung" ++ JS.uuml ++ "ltiges Intent-JSON: ".

(** [parseIntentJSON(raw)]: what was logged, and the value returned or
    the error thrown. *)
Definition parseIntentJSON (lib : Lib) (raw : string)
  : list LogEntry * result IntentResponse :=
  let '(repaired, log0) := repair lib (extract_json_text raw) in
  let body : result (IntentResponse * list LogEntry) :=
    obj <- JSON_parse lib repaired ;;
    validated <- IntentResponseSchema obj ;;
    warnings <- validatePlausibility validated ;;
    ret (validated, warnings) in
  match body with
  | inr (validated, warnings) => ((log0 ++ warnings)%list, ret validated)
  | inl error =>
    ((log0 ++ [error_parsing error;
              error_raw_input (JS.substring0 500 raw ++ "...")])%list,
     throw (Error (error_prefix ++ message_of error)))
  end.

(** [createEmptyResponse(reason)] *)
Definition createEmptyResponse (reason : string) : IntentResponse := {|
  email_meta := {| received_at_iso := None; priority_indicator := None |};
  items := [ {| intent := allgemeine_info;
                confidence := (1 # 10)%Q;
                slots := {| datum := None; zeit := None; dringlichkeit := None;
                            grund := None; person_name := None;
                            geburtsdatum := None; versicherung := None;
                            medikament := None; symptome := None;
                            kontakt := None; freie_form := Some reason |};
                next_action := eskalieren;
                notes := "Fehlerhafte Klassifikation: " ++ reason |} ];
  overall := {| top_intent := allgemeine_info;
                max_confidence := (1 # 10)%Q;
                multi_intent := false;
                sentiment := None;
                requires_human := true |}
|}.

End Validate.

(* ===================================================================== *)
(** ** src/intents/multi.ts *)
(* ===================================================================== *)

Module Multi.
Import Types.

(** Priorities, durations and counts are integers by construction and
    kept in [Z]; confidences and scores stay in [Q]. *)
Record IntentBucket : Type := mkBucket {
  intent : IntentType;
  items : list IntentItem;
  confidence : Q;
  priority : Z
}.

Record ProcessingPlan : Type := mkPlan {
  buckets : list IntentBucket;
  totalItems : nat;
  multiIntent : bool;
  processingOrder : list IntentType;
  estimatedDuration : Z
}.

Definition INTENT_PRIORITIES : list (string * Z) :=
  [ ("notfall", 1); ("termin_anfragen", 2); ("rezept_anfordern", 3);
    ("arbeitsunfaehigkeit", 4); ("befundauskunft", 5);
    ("termin_verschieben", 6); ("termin_absagen", 7); ("laborbefund", 8);
    ("ueberweisung", 9); ("allgemeine_info", 10) ]%Z.

Definition PROCESSING_DURATION : list (string * Z) :=
  [ ("notfall", 0); ("termin_anfragen", 2); ("termin_verschieben", 1);
    ("termin_absagen", 1); ("rezept_anfordern", 1);
    ("arbeitsunfaehigkeit", 3); ("befundauskunft", 2); ("laborbefund", 2);
    ("ueberweisung", 2); ("allgemeine_info", 1) ]%Z.

(** [table[key] || dflt]: the default is taken when the key is absent
    and when the entry is falsy, that is [0]. *)
Definition or_default (v : option Z) (dflt : Z) : Z :=
  match v with
  | Some n => if Z.eqb n 0 then dflt else n
  | None => dflt
  end.

(** A [Map<IntentType, IntentBucket>]: entries in insertion order. *)
Definition BucketMap : Type := list (IntentType * IntentBucket).

Fixpoint map_get (k : IntentType) (m : BucketMap) : option IntentBucket :=
  match m with
  | [] => None
  | (k', b) :: r => if intent_eqb k' k then Some b else map_get k r
  end.

Definition map_has (k : IntentType) (m : BucketMap) : bool :=
  match map_get k m with Some _ => true | None => false end.

(** [m.set(k, b)]: an existing key keeps its position. *)
Fixpoint map_set (k : IntentType) (b : IntentBucket) (m : BucketMap) : BucketMap :=
  match m with
  | [] => [(k, b)]
  | (k', b') :: r => if intent_eqb k' k then (k, b) :: r
                     else (k', b') :: map_set k b r
  end.

Definition map_values (m : BucketMap) : list IntentBucket := map snd m.

(** [its.reduce((sum, item) => sum + item.confidence, 0)] *)
Definition sum_confidence (its : list IntentItem) : Q :=
  fold_left (fun sum item => (sum + Types.confidence item)%Q) its 0%Q.

Definition count (its : list IntentItem) : Q :=
  inject_Z (Z.of_nat (List.length its)).

(** One turn of the loop of [splitByIntent].  The bucket is an object
    shared with the map, so pushing the item and assigning the
    confidence change the entry in place. *)
Definition split_step (buckets : BucketMap) (item : IntentItem) : BucketMap :=
  let intent := Types.intent item in
  let buckets :=
    if negb (map_has intent buckets) then
      map_set intent
        {| intent := intent; items := []; confidence := 0%Q;
           priority := or_default
                         (Gates.lookup (intent_name intent) INTENT_PRIORITIES)
                         99%Z |}
        buckets
    else buckets in
  match map_get intent buckets with
  | Some bucket =>
    let pushed := (items bucket ++ [item])%list in
    map_set intent
      {| intent := Multi.intent bucket;
         items := pushed;
         confidence := (sum_confidence pushed / count pushed)%Q;
         priority := priority bucket |}
      buckets
  | None => buckets
  end.

Definition splitByIntent (its : list IntentItem) : BucketMap :=
  fold_left split_step its [].

(** The comparator of [prioritizeIntents]. *)
Definition compare_buckets (a b : IntentBucket) : Q :=
  if negb (Z.eqb (priority a) (priority b))
  then inject_Z (priority a - priority b)
  else (confidence b - confidence a)%Q.

(** [Array.prototype.sort(cmp)]: a stable sort; an element moves in
    front of another one only when the comparator is positive on the
    pair in its present order. *)
Fixpoint sort_insert (cmp : IntentBucket -> IntentBucket -> Q)
         (x : IntentBucket) (sorted : list IntentBucket) : list IntentBucket :=
  match sorted with
  | [] => [x]
  | y :: r => if JS.gtb (cmp x y) 0%Q then y :: sort_insert cmp x r
              else x :: y :: r
  end.

Fixpoint array_sort (cmp : IntentBucket -> IntentBucket -> Q)
         (l : list IntentBucket) : list IntentBucket :=
  match l with
  | [] => []
  | x :: r => sort_insert cmp x (array_sort cmp r)
  end.

Definition prioritizeIntents (buckets : BucketMap) : list IntentBucket :=
  array_sort compare_buckets (map_values buckets).

Definition duration_of (bucket : IntentBucket) : Z :=
  (or_default (Gates.lookup (intent_name (intent bucket)) PROCESSING_DURATION) 1
   * Z.of_nat (List.length (items bucket)))%Z.

Definition createProcessingPlan (its : list IntentItem) : ProcessingPlan :=
  let bucketMap := splitByIntent its in
  let prioritizedBuckets := prioritizeIntents bucketMap in
  let processingOrder := map intent prioritizedBuckets in
  let estimatedDuration :=
    fold_left (fun total bucket => (total + duration_of bucket)%Z)
              prioritizedBuckets 0%Z in
  {| buckets := prioritizedBuckets;
     totalItems := List.length its;
     multiIntent := Nat.ltb 1 (List.length bucketMap);
     processingOrder := processingOrder;
     estimatedDuration := estimatedDuration |}.

Definition includes_intent (l : list IntentType) (i : IntentType) : bool :=
  existsb (intent_eqb i) l.

Definition terminIntents : list IntentType :=
  [ termin_anfragen; termin_verschieben; termin_absagen ].

Definition compatibleWithTermin : list IntentType :=
  (terminIntents ++ [ rezept_anfordern; allgemeine_info ])%list.

Definition areIntentsCompatible (intents : list IntentType) : bool :=
  if includes_intent intents notfall && Nat.ltb 1 (List.length intents)
  then false
  else
    let hasTerminIntent := existsb (includes_intent terminIntents) intents in
    if hasTerminIntent
    then forallb (includes_intent compatibleWithTermin) intents
    else true.

Inductive Level : Type := simple | medium | complex | critical.

Inductive Factor : Type :=
| verschiedene_Anliegen (n : nat)
| Notfall_erkannt
| Niedrige_Erkennungssicherheit
| Laengere_Bearbeitungszeit
| Inkompatible_Kombination
| Klassifikationsfehler.

Record Complexity : Type := mkComplexity {
  level : Level;
  score : Q;
  factors : list Factor
}.

(** [sum / plan.buckets.length < 0.6]; on an empty plan the quotient is
    [NaN] and the comparison is false. *)
Definition low_average (bs : list IntentBucket) : bool :=
  match bs with
  | [] => false
  | _ =>
    let sum := fold_left (fun sum bucket => (sum + confidence bucket)%Q) bs 0%Q in
    JS.ltb (sum / inject_Z (Z.of_nat (List.length bs)))%Q (6 # 10)%Q
  end.

Definition analyzeComplexity (plan : ProcessingPlan) : Complexity :=
  let n := List.length (buckets plan) in
  let '(score, factors) :=
    if Nat.ltb 1 n
    then (((2 # 10) * inject_Z (Z.of_nat (Nat.min (n - 1) 3)))%Q,
          [verschiedene_Anliegen n])
    else (0%Q, []) in
  let '(score, factors) :=
    if existsb (fun bucket => intent_eqb (intent bucket) notfall) (buckets plan)
    then ((score + (5 # 10))%Q, (factors ++ [Notfall_erkannt])%list)
    else (score, factors) in
  let '(score, factors) :=
    if low_average (buckets plan)
    then ((score + (3 # 10))%Q, (factors ++ [Niedrige_Erkennungssicherheit])%list)
    else (score, factors) in
  let '(score, factors) :=
    if Z.ltb 5 (estimatedDuration plan)
    then ((score + (2 # 10))%Q, (factors ++ [Laengere_Bearbeitungszeit])%list)
    else (score, factors) in
  let intents := map intent (buckets plan) in
  let '(score, factors) :=
    if negb (areIntentsCompatible intents)
    then ((score + (3 # 10))%Q, (factors ++ [Inkompatible_Kombination])%list)
    else (score, factors) in
  let level :=
    if JS.geb score (8 # 10)%Q then critical
    else if JS.geb score (5 # 10)%Q then complex
    else if JS.geb score (3 # 10)%Q then medium
    else simple in
  {| level := level; score := score; factors := factors |}.

End Multi.

(* ===================================================================== *)
(** ** src/time/businessHours.ts *)
(* ===================================================================== *)

Module BusinessHours.
Import Exn.

Definition Interval : Type := (string * string)%type.

(** [interface BusinessHours]: day key to the list of its intervals. *)
Definition Hours : Type := list (string * list Interval).

Inductive HolidayType : Type := federal | state | practice.

Record Holiday : Type := mkHoliday {
  date : string;
  name : string;
  type : HolidayType
}.

Definition DEFAULT_BUSINESS_HOURS : Hours :=
  [ ("mon", [("08:00", "12:00"); ("14:00", "18:00")]);
    ("tue", [("08:00", "12:00"); ("14:00", "18:00")]);
    ("wed", [("08:00", "12:00")]);
    ("thu", [("08:00", "12:00"); ("14:00", "18:00")]);
    ("fri", [("08:00", "13:00")]);
    ("sat", []);
    ("sun", []) ].

Definition DEFAULT_HOLIDAYS : list Holiday :=
  [ mkHoliday "2024-01-01" "Neujahr" federal;
    mkHoliday "2024-03-29" "Karfreitag" federal;
    mkHoliday "2024-04-01" "Ostermontag" federal;
    mkHoliday "2024-05-01" "Tag der Arbeit" federal;
    mkHoliday "2024-05-09" "Christi Himmelfahrt" federal;
    mkHoliday "2024-05-20" "Pfingstmontag" federal;
    mkHoliday "2024-10-03" "Tag der Deutschen Einheit" federal;
    mkHoliday "2024-12-25" "1. Weihnachtsfeiertag" federal;
    mkHoliday "2024-12-26" "2. Weihnachtsfeiertag" federal;
    mkHoliday "2025-01-01" "Neujahr" federal;
    mkHoliday "2025-04-18" "Karfreitag" federal;
    mkHoliday "2025-04-21" "Ostermontag" federal;
    mkHoliday "2025-05-01" "Tag der Arbeit" federal;
    mkHoliday "2025-05-29" "Christi Himmelfahrt" federal;
    mkHoliday "2025-06-09" "Pfingstmontag" federal;
    mkHoliday "2025-10-03" "Tag der Deutschen Einheit" federal;
    mkHoliday "2025-12-25" "1. Weihnachtsfeiertag" federal;
    mkHoliday "2025-12-26" "2. Weihnachtsfeiertag" federal ].

(** The three module-level variables. *)
Record State : Type := mkState {
  businessHours : Hours;
  holidays : list Holiday;
  initialized : bool
}.

Definition initial_state : State :=
  {| businessHours := DEFAULT_BUSINESS_HOURS;
     holidays := DEFAULT_HOLIDAYS;
     initialized := false |}.

(** What a [Date] is asked for: [format(date, "yyyy-MM-dd")],
    [getDay()], [getHours()], [getMinutes()]. *)
Record JsDate : Type := mkDate {
  yyyy_MM_dd : string;
  getDay : nat;
  getHours : Z;
  getMinutes : Z
}.

(** The surroundings: [parseISO] of date-fns ([None] is an invalid
    date) and the settings rows read from the data base by
    [loadFromConfig] (an error when the data base cannot be read). *)
Record Env : Type := mkEnv {
  parseISO : string -> option JsDate;
  settings_rows : result Hours
}.

Definition initBusinessHours (hours : option Hours)
           (holidayList : option (list Holiday)) (st : State) : State :=
  {| businessHours := match hours with Some h => h | None => businessHours st end;
     holidays := match holidayList with Some l => l | None => holidays st end;
     initialized := true |}.

(** [loadFromConfig()]: the rows of the data base replace the hours when
    there is at least one; the identifier [Config] read afterwards is
    bound nowhere in the module, so that read throws and the outer
    [catch] ends the call with [initialized = true]. *)
Definition loadFromConfig (env : Env) (st : State) : State :=
  {| businessHours :=
       match settings_rows env with
       | inr businessHoursFromDB =>
         if Nat.ltb 0 (List.length businessHoursFromDB)
         then businessHoursFromDB else businessHours st
       | inl _ => businessHours st
       end;
     holidays := holidays st;
     initialized := true |}.

Definition ensure_initialized (env : Env) (st : State) : State :=
  if negb (initialized st) then loadFromConfig env st else st.

(** [getDayKey(date)]: an index outside the array reads [undefined],
    which as a property key is the string of that name. *)
Definition getDayKey (d : JsDate) : string :=
  nth (getDay d) ["sun"; "mon"; "tue"; "wed"; "thu"; "fri"; "sat"] "undefined".

(** [holidays.find(h => h.date === dateStr) || null] on an initialised
    state. *)
Definition find_holiday (st : State) (dateStr : string) : option Holiday :=
  find (fun h => String.eqb (date h) dateStr) (holidays st).

Definition isHoliday (env : Env) (st : State) (dateStr : string)
  : State * option Holiday :=
  let st := ensure_initialized env st in
  (st, find_holiday st dateStr).

(** [s.split(":")] *)
Fixpoint split_colon (s : string) : list string :=
  match s with
  | EmptyString => [EmptyString]
  | String c r =>
    if Ascii.eqb c ":"%char then EmptyString :: split_colon r
    else match split_colon r with
         | h :: t => String c h :: t
         | [] => [String c EmptyString]
         end
  end.

(** [Number(s)] on the spellings the configuration uses: an unsigned
    decimal numeral, white space around it allowed, the empty text being
    [0].  [None] is [NaN]; other spellings of a number are not
    modelled and read as [NaN] too. *)
Definition digit_value (c : ascii) : option Z :=
  let n := nat_of_ascii c in
  if ((48 <=? n) && (n <=? 57))%nat then Some (Z.of_nat (n - 48)) else None.

Fixpoint digits_value (s : string) (acc : Z) : option Z :=
  match s with
  | EmptyString => Some acc
  | String c r =>
    match digit_value c with
    | Some d => digits_value r (10 * acc + d)%Z
    | None => None
    end
  end.

Definition Number (s : string) : option Z := digits_value (JS.trim s) 0%Z.

(** [const [h, m] = s.split(":").map(Number)] with the [isNaN] test on
    both; a component that is missing is [undefined], hence [NaN]. *)
Definition hours_minutes (s : string) : option (Z * Z) :=
  match map Number (split_colon s) with
  | Some h :: Some m :: _ => Some (h, m)
  | _ => None
  end.

(** The body of the loop over the slots: [true] is [return true],
    [false] goes on with the next slot. *)
Definition in_slot (totalMinutes : Z) (slot : Interval) : bool :=
  match hours_minutes (fst slot), hours_minutes (snd slot) with
  | Some (startHours, startMinutes), Some (endHours, endMinutes) =>
    let slotStartMinutes := (startHours * 60 + startMinutes)%Z in
    let slotEndMinutes := (endHours * 60 + endMinutes)%Z in
    (Z.leb slotStartMinutes totalMinutes) && (Z.leb totalMinutes slotEndMinutes)
  | _, _ => false
  end.

Fixpoint any_slot (totalMinutes : Z) (timeSlots : list Interval) : bool :=
  match timeSlots with
  | [] => false
  | slot :: r => if in_slot totalMinutes slot then true
                 else any_slot totalMinutes r
  end.

Definition isWithinBusinessHours (env : Env) (st : State) (dateISO : string)
  : State * bool :=
  let st := ensure_initialized env st in
  match parseISO env dateISO with
  | None => (st, false)
  | Some d =>
    let dateStr := yyyy_MM_dd d in
    match find_holiday st dateStr with
    | Some _ => (st, false)
    | None =>
      let dayKey := getDayKey d in
      match Gates.lookup dayKey (businessHours st) with
      | None => (st, false)
      | Some [] => (st, false)
      | Some timeSlots =>
        let totalMinutes := (getHours d * 60 + getMinutes d)%Z in
        (st, any_slot totalMinutes timeSlots)
      end
    end
  end.

End BusinessHours.

(* ===================================================================== *)
(** ** src/pipeline/classifyExtract.ts *)
(* ===================================================================== *)

Module Pipeline.
Import Types Exn.

Record LLMResult : Type := mkLLMResult {
  response : string;
  model : string;
  duration : Q
}.

(** How the race between [llmProvider.generateResponse(...)] and the
    timer ends: the provider's promise is fulfilled first; the provider
    throws or its promise is rejected first; or the timer fires first. *)
Inductive RaceOutcome : Type :=
| Fulfilled (r : LLMResult)
| Rejected (e : Thrown)
| TimedOut.

(** [interface LLMProvider], seen through the race: prompt, model and
    time limit to the outcome. *)
Definition LLMProvider : Type := string -> string -> Q -> RaceOutcome.

Record ClassificationOptions : Type := mkOptions {
  slotDurationMinutes : Q;
  normalizeSlots : bool;
  llmModel : string;
  enableFallback : bool;
  timeout : Q
}.

Definition DEFAULT_OPTIONS : ClassificationOptions :=
  {| slotDurationMinutes := 15%Q;
     normalizeSlots := true;
     llmModel := "claude-3.5-sonnet";
     enableFallback := true;
     timeout := 30000%Q |}.

(** The part of a [NormalizedDateTime] that reaches the typed fields of
    an item; the remaining fields only feed the untyped [meta] property,
    which is left out. *)
Record NormalizedDateTime : Type := mkNormalized {
  dateOnly : option string;
  timeOnly : option string;
  range : option (string * string)
}.

(** The surroundings of one call: the clock, the constant text of the
    prompt around the e-mail, the two library calls of the validator,
    the gate configuration in force and [normalizeDateTimeSlots], which
    returns or throws for each item. *)
Record Env : Type := mkEnv {
  now_iso : string;
  prompt_template : string * string;
  lib : Validate.Lib;
  gateConfig : Gates.GateConfig;
  normalizeDateTimeSlots :
    option string -> option string -> Q -> result NormalizedDateTime
}.

Inductive Warning : Type :=
| Fallback_verwendet
| Normalisierung_fehlgeschlagen (index : nat) (e : Thrown).

Record ClassificationResult : Type := mkResult {
  originalEmail : string;
  timestamp : string;
  llmResponse : string;
  llmModel_used : option string;
  llmDuration : option Q;
  parsed : IntentResponse;
  normalized : IntentResponse;
  parsingError : option string;
  decision : Gates.GateDecision;
  processingPlan : Multi.ProcessingPlan;
  complexity : Multi.Complexity;
  success : bool;
  error : option string;
  warnings : list Warning
}.

Definition createIntentPrompt (env : Env) (email : string) : string :=
  fst (prompt_template env) ++ JS.trim email ++ snd (prompt_template env).

(** The [forEach] that writes one normalisation back into its item. *)
Definition write_back (item : IntentItem) (dateTime : NormalizedDateTime)
  : IntentItem :=
  let s := slots item in
  let new_datum := if JS.truthy (dateOnly dateTime)
                   then dateOnly dateTime else datum s in
  let new_zeit :=
    if JS.truthy (timeOnly dateTime) then
      match range dateTime with
      | Some (a, b) => Some (a ++ "-" ++ b)
      | None => timeOnly dateTime
      end
    else zeit s in
  {| intent := intent item;
     confidence := confidence item;
     slots := {| datum := new_datum; zeit := new_zeit;
                 dringlichkeit := dringlichkeit s; grund := grund s;
                 person_name := person_name s;
                 geburtsdatum := geburtsdatum s;
                 versicherung := versicherung s;
                 medikament := medikament s; symptome := symptome s;
                 kontakt := kontakt s; freie_form := freie_form s |};
     next_action := next_action item;
     notes := notes item |}.

(** Normalisation of the items from position [index] on: each item on
    its own; a failure leaves the item as it is and adds a warning.  The
    callbacks run concurrently; the warnings are listed by position. *)
Fixpoint normalize_items (env : Env) (opts : ClassificationOptions)
         (index : nat) (its : list IntentItem)
  : list IntentItem * list Warning :=
  match its with
  | [] => ([], [])
  | item :: r =>
    let '(r', ws) := normalize_items env opts (S index) r in
    match normalizeDateTimeSlots env (datum (slots item)) (zeit (slots item))
                                 (slotDurationMinutes opts) with
    | inr dateTime => (write_back item dateTime :: r', ws)
    | inl e => (item :: r', Normalisierung_fehlgeschlagen index e :: ws)
    end
  end.

(** The [catch] of [classifyEmail]. *)
Definition failure_result (env : Env) (email : string) (e : Thrown)
           (warnings : list Warning) : ClassificationResult :=
  let errorMessage := message_of e in
  {| originalEmail := email;
     timestamp := now_iso env;
     llmResponse := "";
     llmModel_used := None;
     llmDuration := None;
     parsed := Validate.createEmptyResponse "Kritischer Fehler";
     normalized := Validate.createEmptyResponse "Kritischer Fehler";
     parsingError := None;
     decision := Gates.ESCALATE [] "Kritischer Fehler bei der Klassifikation" 0%Q;
     processingPlan := {| Multi.buckets := [];
                          Multi.totalItems := 0;
                          Multi.multiIntent := false;
                          Multi.processingOrder := [];
                          Multi.estimatedDuration := 0%Z |};
     complexity := {| Multi.level := Multi.critical;
                      Multi.score := 1%Q;
                      Multi.factors := [Multi.Klassifikationsfehler] |};
     success := false;
     error := Some errorMessage;
     warnings := warnings |}.

Definition classifyEmail (env : Env) (email : string)
           (llmProvider : LLMProvider) (opts : ClassificationOptions)
  : ClassificationResult :=
  let prompt := createIntentPrompt env email in
  match llmProvider prompt (llmModel opts) (timeout opts) with
  | Rejected e => failure_result env email e []
  | TimedOut => failure_result env email (Error "LLM timeout") []
  | Fulfilled llmResult =>
    let attempt : result (IntentResponse * option string * list Warning) :=
      match snd (Validate.parseIntentJSON (lib env) (response llmResult)) with
      | inr p => ret (p, None, [])
      | inl e =>
        let parsingError := message_of e in
        if enableFallback opts
        then ret (Validate.createEmptyResponse
                    ("Parsing-Fehler: " ++ parsingError),
                  Some parsingError, [Fallback_verwendet])
        else throw e
      end in
    match attempt with
    | inl e => failure_result env email e []
    | inr (parsed, parsingError, warnings) =>
      let '(normalized_items, ws) :=
        if normalizeSlots opts
        then normalize_items env opts 0 (items parsed)
        else (items parsed, []) in
      let normalized := {| email_meta := email_meta parsed;
                           items := normalized_items;
                           overall := overall parsed |} in
      let decision := Gates.gate (gateConfig env) normalized (Some email) in
      let processingPlan := Multi.createProcessingPlan (items normalized) in
      let complexity := Multi.analyzeComplexity processingPlan in
      {| originalEmail := email;
         timestamp := now_iso env;
         llmResponse := response llmResult;
         llmModel_used := Some (model llmResult);
         llmDuration := Some (duration llmResult);
         parsed := parsed;
         normalized := normalized;
         parsingError := parsingError;
         decision := decision;
         processingPlan := processingPlan;
         complexity := complexity;
         success := true;
         error := None;
         warnings := (warnings ++ ws)%list |}
    end
  end.

Inductive ValidationError : Type :=
| Fehlgeschlagen_ohne_Fehler
| Keine_Items_aber_erfolgreich
| Ungueltige_Konfidenz (i : IntentType) (c : Q)
| Notfall_nicht_Emergency
| Anzahl_inkonsistent.

Definition is_EMERGENCY (d : Gates.GateDecision) : bool :=
  match d with Gates.EMERGENCY _ _ _ => true | _ => false end.

(** [validateClassificationResult(result)] *)
Definition validateClassificationResult (result : ClassificationResult)
  : list ValidationError :=
  let e1 := if negb (success result) && negb (JS.truthy (error result))
            then [Fehlgeschlagen_ohne_Fehler] else [] in
  let e2 := if Nat.eqb (List.length (items (parsed result))) 0 && success result
            then [Keine_Items_aber_erfolgreich] else [] in
  let e3 :=
    flat_map
      (fun item =>
         ((if JS.ltb (confidence item) 0%Q || JS.gtb (confidence item) 1%Q
           then [Ungueltige_Konfidenz (intent item) (confidence item)] else [])
          ++
          (if intent_eqb (intent item) notfall
              && negb (is_EMERGENCY (decision result))
           then [Notfall_nicht_Emergency] else []))%list)
      (items (normalized result)) in
  let e4 := if negb (Nat.eqb (List.length (items (parsed result)))
                             (List.length (items (normalized result))))
            then [Anzahl_inkonsistent] else [] in
  (e1 ++ e2 ++ e3 ++ e4)%list.

End Pipeline.

(* ===================================================================== *)
(** ** src/intents/gates.ts, the functions around [gate] *)
(* ===================================================================== *)

Module GatesRest.
Import Types Gates.

Definition auml : string := JS.chr 228.
Definition ouml : string := JS.chr 246.

(** The tag [decision.action]. *)
Inductive Action : Type :=
| act_AUTO_PROCESS
| act_ASK_CONFIRM
| act_ESCALATE
| act_EMERGENCY.

Definition action (d : GateDecision) : Action :=
  match d with
  | AUTO_PROCESS _ _ _ => act_AUTO_PROCESS
  | ASK_CONFIRM _ _ _ _ => act_ASK_CONFIRM
  | ESCALATE _ _ _ => act_ESCALATE
  | EMERGENCY _ _ _ => act_EMERGENCY
  end.

(** [decision.items] and [decision.reason] *)
Definition decision_items (d : GateDecision) : list IntentItem :=
  match d with
  | AUTO_PROCESS its _ _ => its
  | ASK_CONFIRM its _ _ _ => its
  | ESCALATE its _ _ => its
  | EMERGENCY its _ _ => its
  end.

Definition decision_reason (d : GateDecision) : string :=
  match d with
  | AUTO_PROCESS _ _ r => r
  | ASK_CONFIRM _ r _ _ => r
  | ESCALATE _ r _ => r
  | EMERGENCY _ r _ => r
  end.

(** [decision.confidence]; an EMERGENCY decision has no such property. *)
Definition decision_confidence (d : GateDecision) : option Q :=
  match d with
  | AUTO_PROCESS _ c _ => Some c
  | ASK_CONFIRM _ _ c _ => Some c
  | ESCALATE _ _ c => Some c
  | EMERGENCY _ _ _ => None
  end.

(** A [Partial<GateConfig>]: [None] is a key that is not given. *)
Record PartialGateConfig : Type := mkPartial {
  set_autoProcessThreshold : option Q;
  set_confirmThreshold : option Q;
  set_escalateThreshold : option Q;
  set_emergencyKeywords : option (list string);
  set_requiredSlots : option (list (string * list string))
}.

Definition or_else {A : Type} (o : option A) (dflt : A) : A :=
  match o with Some a => a | None => dflt end.

(** [configureGates(config)]: [gateConfig = { ...gateConfig, ...config }] *)
Definition configureGates (config : PartialGateConfig) (gateConfig : GateConfig)
  : GateConfig :=
  {| autoProcessThreshold :=
       or_else (set_autoProcessThreshold config) (autoProcessThreshold gateConfig);
     confirmThreshold :=
       or_else (set_confirmThreshold config) (confirmThreshold gateConfig);
     escalateThreshold :=
       or_else (set_escalateThreshold config) (escalateThreshold gateConfig);
     emergencyKeywords :=
       or_else (set_emergencyKeywords config) (emergencyKeywords gateConfig);
     requiredSlots :=
       or_else (set_requiredSlots config) (requiredSlots gateConfig) |}.

(** [isItemComplete(item)]: the loop leaves with [false] at the first
    required slot without a usable value. *)
Fixpoint all_present (s : IntentSlots) (req : list string) : bool :=
  match req with
  | [] => true
  | requiredSlot :: r =>
    if slot_missing (get_slot s requiredSlot) then false
    else all_present s r
  end.

Definition isItemComplete (cfg : GateConfig) (item : IntentItem) : bool :=
  all_present (slots item) (required_of cfg (intent item)).

Definition urgentKeywords : list string :=
  [ "dringend"; "eilig"; "sofort"; "asap"; "urgent"; "schnell";
    "heute noch"; "so schnell wie m" ++ ouml ++ "glich"; "notfall" ].

(** The [switch] of [assessUrgency]. *)
Definition intent_urgency (item : IntentItem) : Q :=
  match intent item with
  | notfall => 1
  | termin_anfragen =>
    match dringlichkeit (slots item) with
    | Some hoch => 8 # 10
    | Some normal => 4 # 10
    | _ => 2 # 10
    end
  | rezept_anfordern => 6 # 10
  | arbeitsunfaehigkeit => 7 # 10
  | _ => 3 # 10
  end%Q.

(** [Math.min(a, b)] *)
Definition Math_min (a b : Q) : Q := if Qle_bool a b then a else b.

(** [value || ''] *)
Definition or_empty (v : option string) : string :=
  match v with Some s => s | None => EmptyString end.

Definition assessUrgency (item : IntentItem) (originalText : option string) : Q :=
  let urgencyScore := (0 + intent_urgency item)%Q in
  let urgencyScore :=
    match originalText with
    | Some text =>
      if JS.truthy originalText then
        let lowerText := JS.toLowerCase text in
        let urgentKeywordCount :=
          List.length (filter (fun keyword => JS.includes lowerText keyword)
                              urgentKeywords) in
        (urgencyScore + inject_Z (Z.of_nat urgentKeywordCount) * (2 # 10))%Q
      else urgencyScore
    | None => urgencyScore
    end in
  let urgencyScore :=
    if JS.truthy (datum (slots item)) || JS.truthy (zeit (slots item)) then
      let dateText := or_empty (datum (slots item)) ++ " "
                      ++ or_empty (zeit (slots item)) in
      if JS.includes dateText "heute" || JS.includes dateText "sofort"
      then (urgencyScore + (3 # 10))%Q else urgencyScore
    else urgencyScore in
  Math_min urgencyScore 1%Q.

(** [requiresFollowUp(decision)] *)
Definition requiresFollowUp (decision : GateDecision) : bool :=
  match decision with
  | ASK_CONFIRM _ _ _ _ => true
  | AUTO_PROCESS _ _ reason => JS.includes reason "fehlende"
  | _ => false
  end.



End GatesRest.

(* ===================================================================== *)
(** ** src/intents/validate.ts, the functions around [parseIntentJSON] *)
(* ===================================================================== *)

Module ValidateRest.
Import Types Exn Validate.

(** The object a typed value of [types.ts] is at run time, property by
    property: what the schema is applied to when a typed value is
    validated. *)
Definition json_string_or_null (v : option string) : json :=
  match v with Some s => JStr s | None => JNull end.

Definition json_enum_or_null {A : Type} (name : A -> string) (v : option A)
  : json :=
  match v with Some a => JStr (name a) | None => JNull end.

Definition json_of_slots (s : IntentSlots) : json :=
  JObj [ ("datum", json_string_or_null (datum s));
         ("zeit", json_string_or_null (zeit s));
         ("dringlichkeit", json_enum_or_null dringlichkeit_name (dringlichkeit s));
         ("grund", json_string_or_null (grund s));
         ("person_name", json_string_or_null (person_name s));
         ("geburtsdatum", json_string_or_null (geburtsdatum s));
         ("versicherung", json_enum_or_null versicherung_name (versicherung s));
         ("medikament", json_string_or_null (medikament s));
         ("symptome", json_string_or_null (symptome s));
         ("kontakt", json_string_or_null (kontakt s));
         ("freie_form", json_string_or_null (freie_form s)) ].

Definition json_of_item (item : IntentItem) : json :=
  JObj [ ("intent", JStr (intent_name (intent item)));
         ("confidence", JNum (confidence item));
         ("slots", json_of_slots (slots item));
         ("next_action", JStr (next_action_name (next_action item)));
         ("notes", JStr (notes item)) ].

Definition json_of_response (r : IntentResponse) : json :=
  JObj [ ("email_meta",
          JObj [ ("language", JStr "de");
                 ("received_at_iso",
                  json_string_or_null (received_at_iso (email_meta r)));
                 ("priority_indicator",
                  json_enum_or_null priority_name
                                    (priority_indicator (email_meta r))) ]);
         ("items", JArr (map json_of_item (items r)));
         ("overall",
          JObj [ ("top_intent", JStr (intent_name (top_intent (overall r))));
                 ("max_confidence", JNum (max_confidence (overall r)));
                 ("multi_intent", JBool (multi_intent (overall r)));
                 ("sentiment",
                  json_enum_or_null sentiment_name (sentiment (overall r)));
                 ("requires_human", JBool (requires_human (overall r))) ]) ].

(** [validateIntentItem(item)]: [IntentItem.parse(item)] inside
    [try]/[catch]. *)
Definition validateIntentItem (item : IntentItem) : bool :=
  match IntentItemSchema (json_of_item item) with
  | inr _ => true
  | inl _ => false
  end.

End ValidateRest.

(* ===================================================================== *)
(** ** src/intents/multi.ts, the functions around [createProcessingPlan] *)
(* ===================================================================== *)

Module MultiRest.
Import Types.

(** [findHighestConfidenceItem(items)]: [reduce] without initial value
    starts from the first item and moves on only for a strictly higher
    confidence. *)
Definition findHighestConfidenceItem (its : list IntentItem)
  : option IntentItem :=
  match its with
  | [] => None
  | first :: rest =>
    Some (fold_left
            (fun highest current =>
               if JS.gtb (confidence current) (confidence highest)
               then current else highest)
            rest first)
  end.

(** [findPrimaryIntent(buckets)] *)
Definition findPrimaryIntent (buckets : list Multi.IntentBucket)
  : option Multi.IntentBucket :=
  match buckets with
  | [] => None
  | first :: _ =>
    match find (fun bucket => intent_eqb (Multi.intent bucket) notfall) buckets with
    | Some emergency => Some emergency
    | None => Some first
    end
  end.

(** [groupByProcessingOrder(plan)] *)
Definition groupByProcessingOrder (plan : Multi.ProcessingPlan)
  : list (list IntentItem) :=
  map Multi.items (Multi.buckets plan).

Inductive Strategy : Type := sequential | parallel | split.

Record ProcessingStrategy : Type := mkStrategy {
  strategy : Strategy;
  reason : string;
  groups : list (list IntentItem)
}.

(** [suggestProcessingStrategy(plan)] *)
Definition suggestProcessingStrategy (plan : Multi.ProcessingPlan)
  : ProcessingStrategy :=
  if existsb (fun bucket => intent_eqb (Multi.intent bucket) notfall)
             (Multi.buckets plan)
  then
    let emergencyItems :=
      flat_map Multi.items
               (filter (fun bucket => intent_eqb (Multi.intent bucket) notfall)
                       (Multi.buckets plan)) in
    {| strategy := split;
       reason := "Notfall erkannt - sofortige Bearbeitung erforderlich";
       groups := [emergencyItems] |}
  else if Nat.ltb 3 (List.length (Multi.buckets plan)) then
    {| strategy := split;
       reason := "Zu viele verschiedene Anliegen - Aufteilung empfohlen";
       groups := map Multi.items (Multi.buckets plan) |}
  else
    let intents := map Multi.intent (Multi.buckets plan) in
    if Multi.areIntentsCompatible intents then
      {| strategy := parallel;
         reason := "Kompatible Anliegen - parallele Bearbeitung m"
                   ++ GatesRest.ouml ++ "glich";
         groups := [flat_map Multi.items (Multi.buckets plan)] |}
    else
      {| strategy := sequential;
         reason := "Standard-Verarbeitung nach Priorit" ++ GatesRest.auml ++ "t";
         groups := map Multi.items (Multi.buckets plan) |}.

End MultiRest.

(* ===================================================================== *)
(** ** src/time/businessHours.ts, reading and changing the configuration *)
(* ===================================================================== *)

Module BusinessHoursRest.
Import Exn BusinessHours.


(** [getAllBusinessHours()] *)
Definition getAllBusinessHours (env : Env) (st : State) : State * Hours :=
  let st := ensure_initialized env st in
  (st, businessHours st).





(** [holidays.findIndex(h => h.date === holiday.date)] followed by the
    assignment at that index or the [push]. *)
Fixpoint put_holiday (holiday : Holiday) (hs : list Holiday) : list Holiday :=
  match hs with
  | [] => [holiday]
  | h :: r => if String.eqb (date h) (date holiday) then holiday :: r
              else h :: put_holiday holiday r
  end.

(** [Array.prototype.sort(cmp)], a stable sort, for a comparator with
    integer results. *)
Fixpoint sort_insert {A : Type} (cmp : A -> A -> Z) (x : A) (sorted : list A)
  : list A :=
  match sorted with
  | [] => [x]
  | y :: r => if Z.ltb 0 (cmp x y) then y :: sort_insert cmp x r
              else x :: y :: r
  end.

Fixpoint array_sort {A : Type} (cmp : A -> A -> Z) (l : list A) : list A :=
  match l with
  | [] => []
  | x :: r => sort_insert cmp x (array_sort cmp r)
  end.

(** [addHoliday(holiday)]; [localeCompare] is the string collation of
    the runtime. *)
Definition addHoliday (localeCompare : string -> string -> Z) (env : Env)
           (st : State) (holiday : Holiday) : State :=
  let st := ensure_initialized env st in
  {| businessHours := businessHours st;
     holidays := array_sort (fun a b => localeCompare (date a) (date b))
                            (put_holiday holiday (holidays st));
     initialized := initialized st |}.

(** What [getNextAvailableSlots] asks of date-fns: [addDays(d, 1)] and
    the day name [format(d, "EEEE, d. MMMM", { locale: de })]. *)
Record Calendar : Type := mkCalendar {
  next_day : JsDate -> JsDate;
  day_name : JsDate -> string
}.

Record AvailableDay : Type := mkAvailableDay {
  day_date : string;
  dayName : string;
  slots : list string;
  isHolidayDay : bool
}.

(** The [while] loop of [getNextAvailableSlots]; [fuel] is the number of
    days that may still be looked at ([14 - daysChecked]). *)
Fixpoint available_loop (cal : Calendar) (st : State) (count : Q) (fuel : nat)
         (currentDate : JsDate) (results : list AvailableDay)
  : list AvailableDay :=
  match fuel with
  | 0 => results
  | S fuel' =>
    if JS.ltb (inject_Z (Z.of_nat (List.length results))) count then
      let dayKey := getDayKey currentDate in
      let dateStr := yyyy_MM_dd currentDate in
      let holiday := find_holiday st dateStr in
      let results :=
        match Gates.lookup dayKey (businessHours st), holiday with
        | Some (s :: r), None =>
          let entry :=
            {| day_date := dateStr;
               dayName := day_name cal currentDate;
               slots := map (fun slot => fst slot ++ "-" ++ snd slot ++ " Uhr")
                            (s :: r);
               isHolidayDay := false |} in
          (results ++ [entry])%list
        | _, Some h =>
          let entry :=
            {| day_date := dateStr;
               dayName := day_name cal currentDate;
               slots := ["Geschlossen (" ++ name h ++ ")"];
               isHolidayDay := true |} in
          (results ++ [entry])%list
        | _, None => results
        end in
      available_loop cal st count fuel' (next_day cal currentDate) results
    else results
  end.

(** [getNextAvailableSlots(startDate, count)] *)
Definition getNextAvailableSlots (cal : Calendar) (env : Env) (st : State)
           (startDate : JsDate) (count : Q) : State * list AvailableDay :=
  let st := ensure_initialized env st in
  (st, available_loop cal st count 14 startDate []).

End BusinessHoursRest.

(* ===================================================================== *)
(** ** src/pipeline/classifyExtract.ts, the batch run *)
(* ===================================================================== *)

Module PipelineRest.
Import Types Exn Pipeline.





End PipelineRest.

(* ===================================================================== *)
(** ** The Duckling client (held in src/observability/metrics.ts) *)
(* ===================================================================== *)

Module Duckling.
Import Exn.

(** The fields of a [DucklingTime] that the client reads: [body],
    [value.value] and [dim]; the answer of the server is taken to be of
    the declared type. *)
Record DucklingTime : Type := mkTime {
  body : string;
  value_value : string;
  dim : string
}.

(** The options after the merge with [DEFAULT_OPTIONS]. *)
Record DucklingOptions : Type := mkOptions {
  locale : string;
  timezone : string;
  referenceTime : option string;
  useCache : bool;
  ducklingUrl : string;
  timeout : Q
}.

Definition DEFAULT_OPTIONS : DucklingOptions :=
  {| locale := "de_DE";
     timezone := "Europe/Berlin";
     referenceTime := None;
     useCache := true;
     ducklingUrl := "http://localhost:8000/parse";
     timeout := 5000%Q |}.

Record Entry : Type := mkEntry {
  data : list DucklingTime;
  timestamp : Z
}.

(** [timeCache], a [Map]: entries in insertion order. *)
Definition Cache : Type := list (string * Entry).

Definition CACHE_TTL : Z := 60000.

Fixpoint map_get (k : string) (m : Cache) : option Entry :=
  match m with
  | [] => None
  | (k', e) :: r => if String.eqb k' k then Some e else map_get k r
  end.

Definition map_delete (k : string) (m : Cache) : Cache :=
  filter (fun p => negb (String.eqb (fst p) k)) m.

(** [m.set(k, e)]: an existing key keeps its position, a new one goes
    to the end. *)
Fixpoint map_set (k : string) (e : Entry) (m : Cache) : Cache :=
  match m with
  | [] => [(k, e)]
  | (k', e') :: r => if String.eqb k' k then (k, e) :: r
                     else (k', e') :: map_set k e r
  end.

(** What one call reads from its surroundings: [new Date().toISOString()],
    [Date.now()] at the cache check and at the store, and the request
    with [res.ok] and [res.json()], which yields the answer or throws
    (network error, abort by the timer, status not ok, no JSON). *)
Record World : Type := mkWorld {
  now_iso : string;
  now_check : Z;
  now_store : Z;
  fetch : string -> string -> string -> string -> string -> Q
          -> result (list DucklingTime)
}.

Definition is_digit (c : ascii) : bool :=
  let n := nat_of_ascii c in ((48 <=? n) && (n <=? 57))%nat.

(** [/\d{2}:\d{2}/.test(s)] *)
Fixpoint has_clock (s : string) : bool :=
  match s with
  | EmptyString => false
  | String a r =>
    match r with
    | String b (String c (String d (String e _))) =>
      is_digit a && is_digit b && Ascii.eqb c ":"%char
      && is_digit d && is_digit e
    | _ => false
    end
    || has_clock r
  end.

Definition cache_key (w : World) (text : string) (opts : DucklingOptions)
  : string :=
  let now := match referenceTime opts with
             | Some r => r
             | None => now_iso w
             end in
  text ++ "|" ++ locale opts ++ "|" ++ timezone opts ++ "|" ++ now.

(** The [try] block of [parseTimesDe] with its [catch]. *)
Definition request (w : World) (cache : Cache) (text : string)
           (opts : DucklingOptions) : Cache * list DucklingTime :=
  let now := match referenceTime opts with
             | Some r => r
             | None => now_iso w
             end in
  let cacheKey := cache_key w text opts in
  match fetch w (ducklingUrl opts) text (locale opts) (timezone opts) now
              (timeout opts) with
  | inl _ => (cache, [])
  | inr answer =>
    let timeData := filter (fun d => String.eqb (dim d) "time") answer in
    let withTime := filter (fun d => has_clock (value_value d)) timeData in
    let result := if Nat.ltb 0 (List.length withTime) then withTime
                  else timeData in
    let cache :=
      if useCache opts then
        let cache :=
          map_set cacheKey {| data := result; timestamp := now_store w |}
                  cache in
        if Nat.ltb 1000 (List.length cache) then
          match cache with
          | (oldestKey, _) :: _ => map_delete oldestKey cache
          | [] => cache
          end
        else cache
      else cache in
    (cache, result)
  end.

(** [parseTimesDe(text, options)] *)
Definition parseTimesDe (w : World) (cache : Cache) (text : string)
           (opts : DucklingOptions) : Cache * list DucklingTime :=
  let cacheKey := cache_key w text opts in
  match (if useCache opts then map_get cacheKey cache else None) with
  | Some cached =>
    if Z.ltb (now_check w - timestamp cached) CACHE_TTL
    then (cache, data cached)
    else request w (map_delete cacheKey cache) text opts
  | None => request w cache text opts
  end.

Record CacheStats : Type := mkStats {
  totalEntries : Z;
  validEntries : Z;
  expiredEntries : Z
}.

(** [getCacheStats()] at the time [now] of [Date.now()]. *)
Definition getCacheStats (now : Z) (cache : Cache) : CacheStats :=
  let validEntries :=
    Z.of_nat (List.length
                (filter (fun entry => Z.ltb (now - timestamp entry) CACHE_TTL)
                        (map snd cache))) in
  {| totalEntries := Z.of_nat (List.length cache);
     validEntries := validEntries;
     expiredEntries := Z.of_nat (List.length cache) - validEntries |}.

(** [clearCache()] *)
Definition clearCache (cache : Cache) : Cache := [].

End Duckling.

(* ===================================================================== *)
(** ** Notions the statements below are phrased in *)
(* ===================================================================== *)

Import Types.

(** [m] is a greatest element of [l]. *)
Definition is_maximum (m : Q) (l : list Q) : Prop :=
  (exists x, In x l /\ (x == m)%Q) /\ forall y, In y l -> (y <= m)%Q.

(** An item the gate treats as an emergency. *)
Definition emergency_item (item : IntentItem) : Prop :=
  intent item = notfall \/ next_action item = notfall_protokoll.

Definition no_emergency_item (resp : IntentResponse) : Prop :=
  forall item, In item (items resp) -> ~ emergency_item item.

(** [kw] occurs in [text] as a substring, letter case ignored. *)
Definition contains_ci (text kw : string) : bool :=
  JS.includes (JS.toLowerCase text) (JS.toLowerCase kw).

Definition mentions_keyword (cfg : Gates.GateConfig) (text : string) : Prop :=
  exists kw, In kw (Gates.emergencyKeywords cfg) /\ contains_ci text kw = true.

(** No raw text, or a raw text without any configured keyword. *)
Definition no_keyword_hit (cfg : Gates.GateConfig) (originalText : option string)
  : Prop :=
  match originalText with
  | None => True
  | Some text =>
    forall kw, In kw (Gates.emergencyKeywords cfg) -> contains_ci text kw = false
  end.

(** [slot] is required for the intent of [item] and has no usable value. *)
Definition missing_required (cfg : Gates.GateConfig) (item : IntentItem)
           (slot : string) : Prop :=
  In slot (Gates.required_of cfg (intent item))
  /\ Gates.slot_missing (get_slot (slots item) slot) = true.

(** What the schema of [validate.ts] guarantees about a response. *)
Definition schema_valid (r : IntentResponse) : Prop :=
  items r <> []
  /\ (forall item, In item (items r) ->
                   (0 <= confidence item)%Q /\ (confidence item <= 1)%Q)
  /\ (0 <= max_confidence (overall r))%Q
  /\ (max_confidence (overall r) <= 1)%Q
  /\ exists item, In item (items r) /\ intent item = top_intent (overall r).

(** The date is one of the configured holidays. *)
Definition configured_holiday (st : BusinessHours.State) (dateStr : string)
  : Prop :=
  exists h, In h (BusinessHours.holidays st) /\ BusinessHours.date h = dateStr.

(** The intervals configured for the weekday of [d]. *)
Definition intervals_of_day (st : BusinessHours.State) (d : BusinessHours.JsDate)
  : list BusinessHours.Interval :=
  match Gates.lookup (BusinessHours.getDayKey d) (BusinessHours.businessHours st) with
  | Some l => l
  | None => []
  end.

(** The clock time of [d] lies within the interval, both ends included;
    the ends are read as hours and minutes. *)
Definition clock_within (d : BusinessHours.JsDate) (slot : BusinessHours.Interval)
  : Prop :=
  exists sh sm eh em,
    BusinessHours.hours_minutes (fst slot) = Some (sh, sm)
    /\ BusinessHours.hours_minutes (snd slot) = Some (eh, em)
    /\ (sh * 60 + sm <= BusinessHours.getHours d * 60 + BusinessHours.getMinutes d)%Z
    /\ (BusinessHours.getHours d * 60 + BusinessHours.getMinutes d <= eh * 60 + em)%Z.

(** The declared top intent is the intent of some item. *)
Definition top_intent_in_items (r : IntentResponse) : Prop :=
  exists item, In item (items r) /\ intent item = top_intent (overall r).

(** More than one distinct intent occurs among the items. *)
Definition several_intents (its : list IntentItem) : Prop :=
  exists a b, In a its /\ In b its /\ intent a <> intent b.

(** The parsed object has an item whose [confidence] is the number [q]. *)
Definition json_item_confidence (obj : Validate.json) (q : Q) : Prop :=
  exists o elems vo,
    obj = Validate.JObj o
    /\ Validate.field "items" o = Some (Validate.JArr elems)
    /\ In (Validate.JObj vo) elems
    /\ Validate.field "confidence" vo = Some (Validate.JNum q).

(** The parsed object declares [overall.max_confidence] as the number [q]. *)
Definition json_max_confidence (obj : Validate.json) (q : Q) : Prop :=
  exists o ov,
    obj = Validate.JObj o
    /\ Validate.field "overall" o = Some (Validate.JObj ov)
    /\ Validate.field "max_confidence" ov = Some (Validate.JNum q).

Definition in_unit_interval (q : Q) : Prop := (0 <= q)%Q /\ (q <= 1)%Q.

(** The items of intent [k], in their order. *)
Definition items_of_intent (k : IntentType) (its : list IntentItem)
  : list IntentItem :=
  filter (fun item => intent_eqb (intent item) k) its.

(** What [splitByIntent] stores under the key [k] for the items [its]. *)
Definition bucket_for (k : IntentType) (its : list IntentItem)
           (b : Multi.IntentBucket) : Prop :=
  Multi.intent b = k
  /\ Multi.items b = items_of_intent k its
  /\ Multi.items b <> []
  /\ Multi.confidence b
     = (Multi.sum_confidence (Multi.items b) / Multi.count (Multi.items b))%Q
  /\ Multi.priority b
     = Multi.or_default (Gates.lookup (intent_name k) Multi.INTENT_PRIORITIES) 99.

(** The order of the plan: lower priority rank first, among equal ranks
    the higher confidence first. *)
Definition bucket_le (a b : Multi.IntentBucket) : Prop :=
  (Multi.priority a < Multi.priority b)%Z
  \/ (Multi.priority a = Multi.priority b
      /\ (Multi.confidence b <= Multi.confidence a)%Q).

(** What [splitByIntent] has built after the items [its]. *)
Definition split_invariant (its : list IntentItem) (m : Multi.BucketMap) : Prop :=
  NoDup (map fst m)
  /\ (forall k b, In (k, b) m -> bucket_for k its b)
  /\ (forall item, In item its -> In (intent item) (map fst m)).

(** The character [c] does not occur in [s]. *)
Fixpoint absent (c : ascii) (s : string) : Prop :=
  match s with
  | EmptyString => True
  | String d r => d <> c /\ absent c r
  end.

(** Sample data. *)
(** Item [b] is item [a] up to the slots [datum] and [zeit]. *)
Definition differ_in_date_time_only (a b : IntentItem) : Prop :=
  intent b = intent a
  /\ confidence b = confidence a
  /\ next_action b = next_action a
  /\ notes b = notes a
  /\ dringlichkeit (slots b) = dringlichkeit (slots a)
  /\ grund (slots b) = grund (slots a)
  /\ person_name (slots b) = person_name (slots a)
  /\ geburtsdatum (slots b) = geburtsdatum (slots a)
  /\ versicherung (slots b) = versicherung (slots a)
  /\ medikament (slots b) = medikament (slots a)
  /\ symptome (slots b) = symptome (slots a)
  /\ kontakt (slots b) = kontakt (slots a)
  /\ freie_form (slots b) = freie_form (slots a).

(** Item [b] is what the pipeline makes of item [a]: [a] itself when the
    normalisation of its date and time throws, and [a] up to date and
    time otherwise. *)
Definition normalized_as (env : Pipeline.Env)
           (opts : Pipeline.ClassificationOptions) (a b : IntentItem) : Prop :=
  match Pipeline.normalizeDateTimeSlots env (datum (slots a)) (zeit (slots a))
                                        (Pipeline.slotDurationMinutes opts) with
  | inl _ => b = a
  | inr _ => differ_in_date_time_only a b
  end.

(** Two buckets, and two bucket maps, that agree up to the date and time
    slots of their items. *)
Definition bucket_sim (b b' : Multi.IntentBucket) : Prop :=
  Multi.intent b' = Multi.intent b
  /\ Multi.priority b' = Multi.priority b
  /\ Multi.confidence b' = Multi.confidence b
  /\ Forall2 differ_in_date_time_only (Multi.items b) (Multi.items b').

Definition map_sim (m m' : Multi.BucketMap) : Prop :=
  Forall2 (fun p p' => fst p' = fst p /\ bucket_sim (snd p) (snd p')) m m'.

(** The cache holds no entry for the call that is still fresh at the
    time of the check, so that [parseTimesDe] sends its request. *)
Definition no_fresh_entry (w : Duckling.World) (cache : Duckling.Cache)
           (text : string) (opts : Duckling.DucklingOptions) : Prop :=
  forall e, Duckling.map_get (Duckling.cache_key w text opts) cache = Some e ->
            (Duckling.CACHE_TTL <= Duckling.now_check w - Duckling.timestamp e)%Z.

(** An entry of [getNextAvailableSlots] as the state accounts for it: a
    holiday entry carries the date of a configured holiday and the one
    slot text naming it; another entry carries a date that is no
    configured holiday and the printed intervals of a week day that has
    at least one. *)
Definition listed_day (st : BusinessHours.State)
           (e : BusinessHoursRest.AvailableDay) : Prop :=
  if BusinessHoursRest.isHolidayDay e then
    exists h, BusinessHours.find_holiday st (BusinessHoursRest.day_date e) = Some h
              /\ BusinessHoursRest.slots e
                 = ["Geschlossen (" ++ BusinessHours.name h ++ ")"]
  else
    ~ configured_holiday st (BusinessHoursRest.day_date e)
    /\ exists dayKey hours,
         Gates.lookup dayKey (BusinessHours.businessHours st) = Some hours
         /\ hours <> []
         /\ BusinessHoursRest.slots e
            = map (fun slot => fst slot ++ "-" ++ snd slot ++ " Uhr") hours.

Module Samples.

Definition no_slots : IntentSlots :=
  {| datum := None; zeit := None; dringlichkeit := None; grund := None;
     person_name := None; geburtsdatum := None; versicherung := None;
     medikament := None; symptome := None; kontakt := None;
     freie_form := None |}.

Definition item_of (i : IntentType) (c : Q) (s : IntentSlots) (a : NextAction)
  : IntentItem :=
  {| intent := i; confidence := c; slots := s; next_action := a;
     notes := "Beispiel" |}.

Definition response_of (its : list IntentItem) (top : IntentType) (c : Q)
           (human : bool) : IntentResponse :=
  {| email_meta := {| received_at_iso := None; priority_indicator := None |};
     items := its;
     overall := {| top_intent := top; max_confidence := c;
                   multi_intent := Nat.ltb 1 (List.length its);
                   sentiment := None; requires_human := human |} |}.

(** One emergency item at confidence 0.1 next to nine items of general
    information at confidence 0.99. *)
Definition emergency_among_nine : IntentResponse :=
  response_of
    (item_of notfall (1 # 10) no_slots rueckfrage_senden
     :: repeat (item_of allgemeine_info (99 # 100) no_slots rueckfrage_senden) 9)
    allgemeine_info (99 # 100) false.

(** A single item of general information at the given confidence. *)
Definition info_at (c : Q) : IntentResponse :=
  response_of [item_of allgemeine_info c no_slots rueckfrage_senden]
              allgemeine_info c false.

(** An appointment request without date and time at confidence 0.9. *)
Definition termin_without_date : IntentResponse :=
  response_of [item_of termin_anfragen (9 # 10) no_slots slots_vervollstaendigen]
              termin_anfragen (9 # 10) false.


(** Tuesday 4 March 2025 at 09:00 and Wednesday 5 March 2025 at 14:00. *)
Definition tuesday_0900 : BusinessHours.JsDate :=
  {| BusinessHours.yyyy_MM_dd := "2025-03-04"; BusinessHours.getDay := 2;
     BusinessHours.getHours := 9; BusinessHours.getMinutes := 0 |}.

Definition wednesday_1400 : BusinessHours.JsDate :=
  {| BusinessHours.yyyy_MM_dd := "2025-03-05"; BusinessHours.getDay := 3;
     BusinessHours.getHours := 14; BusinessHours.getMinutes := 0 |}.

(** Surroundings in which the two timestamps parse and the data base
    cannot be read. *)
Definition calendar_env : BusinessHours.Env :=
  {| BusinessHours.parseISO :=
       fun iso =>
         if String.eqb iso "2025-03-04T09:00:00" then Some tuesday_0900
         else if String.eqb iso "2025-03-05T14:00:00" then Some wednesday_1400
         else None;
     BusinessHours.settings_rows := inl (Exn.Error "no such table: settings") |}.



(** A practice holiday on Tuesday 4 March 2025, and the collation that
    compares code unit by code unit. *)
Definition works_outing : BusinessHours.Holiday :=
  BusinessHours.mkHoliday "2025-03-04" "Betriebsausflug" BusinessHours.practice.

Definition code_unit_compare (a b : string) : Z :=
  match String.compare a b with
  | Lt => (-1)%Z
  | Eq => 0%Z
  | Gt => 1%Z
  end.

(** The days of a calendar that follow one another within a week, by
    name of the week day. *)
Definition week_calendar : BusinessHoursRest.Calendar :=
  {| BusinessHoursRest.next_day :=
       fun d =>
         {| BusinessHours.yyyy_MM_dd := BusinessHours.yyyy_MM_dd d ++ "+1";
            BusinessHours.getDay := Nat.modulo (S (BusinessHours.getDay d)) 7;
            BusinessHours.getHours := BusinessHours.getHours d;
            BusinessHours.getMinutes := BusinessHours.getMinutes d |};
     BusinessHoursRest.day_name := fun d => BusinessHours.getDayKey d |}.

(** Surroundings in which the settings table holds one row, for Monday. *)
Definition monday_only_env : BusinessHours.Env :=
  {| BusinessHours.parseISO := BusinessHours.parseISO calendar_env;
     BusinessHours.settings_rows := inr [("mon", [("08:00", "12:00")])] |}.

(** Surroundings of the pipeline in which neither the repair of the
    model's text nor the normalisation of dates succeeds, and a provider
    that answers with a text that is no JSON. *)
Definition pipeline_env : Pipeline.Env :=
  {| Pipeline.now_iso := "2025-03-04T09:00:00.000Z";
     Pipeline.prompt_template := ("E-Mail: ", " Antwort: ");
     Pipeline.lib :=
       {| Validate.jsonrepair := fun _ => inl (Exn.Error "Unexpected character");
          Validate.JSON_parse :=
            fun _ => inl (Exn.SyntaxError "Unexpected token") |};
     Pipeline.gateConfig := Gates.DEFAULT_CONFIG;
     Pipeline.normalizeDateTimeSlots :=
       fun _ _ _ => inl (Exn.Error "Duckling nicht erreichbar") |}.

Definition prose_provider : Pipeline.LLMProvider :=
  fun _ llmModel _ =>
    Pipeline.Fulfilled {| Pipeline.response := "Das ist eine Terminanfrage.";
                          Pipeline.model := llmModel;
                          Pipeline.duration := 850%Q |}.

Definition silent_provider : Pipeline.LLMProvider :=
  fun _ _ _ => Pipeline.TimedOut.

(** A Duckling server that knows one time in every text, and a call at
    second 100 of the clock. *)
Definition tomorrow_at_ten : Duckling.DucklingTime :=
  {| Duckling.body := "morgen um 10";
     Duckling.value_value := "2025-03-05T10:00:00.000+01:00";
     Duckling.dim := "time" |}.

Definition duckling_world (at_ms : Z) : Duckling.World :=
  {| Duckling.now_iso := "2025-03-04T09:00:00.000Z";
     Duckling.now_check := at_ms;
     Duckling.now_store := at_ms;
     Duckling.fetch := fun _ _ _ _ _ _ => inr [tomorrow_at_ten] |}.

End Samples.

(* ===================================================================== *)
(** * Properties *)
(* ===================================================================== *)

(** ** Numbers and enumerations *)

Lemma geb_true_iff (a b : Q) : JS.geb a b = true <-> (b <= a)%Q.
Proof. unfold JS.geb. apply Qle_bool_iff. Qed.

Lemma gtb_true_iff (a b : Q) : JS.gtb a b = true <-> (b < a)%Q.
Proof.
  unfold JS.gtb. rewrite negb_true_iff. split.
  - intros H. apply Qnot_le_lt. intros L.
    apply Qle_bool_iff in L. congruence.
  - intros H. destruct (Qle_bool a b) eqn:E; [|reflexivity].
    apply Qle_bool_iff in E. exfalso. exact (Qlt_not_le _ _ H E).
Qed.

Lemma gtb_false_iff (a b : Q) : JS.gtb a b = false <-> ~ (b < a)%Q.
Proof.
  rewrite <- gtb_true_iff. destruct (JS.gtb a b); split; congruence.
Qed.


Lemma intent_eqb_eq (a b : IntentType) : intent_eqb a b = true <-> a = b.
Proof.
  split.
  - destruct a, b; intros H; try reflexivity; vm_compute in H; discriminate.
  - intros ->. destruct b; reflexivity.
Qed.

Lemma next_action_eqb_eq (a b : NextAction) : next_action_eqb a b = true <-> a = b.
Proof.
  split.
  - destruct a, b; intros H; try reflexivity; vm_compute in H; discriminate.
  - intros ->. destruct b; reflexivity.
Qed.

Lemma max2_cases (a b : Q) :
  (JS.max2 a b = a \/ JS.max2 a b = b)
  /\ (a <= JS.max2 a b)%Q /\ (b <= JS.max2 a b)%Q.
Proof.
  unfold JS.max2. destruct (Qle_bool a b) eqn:E.
  - apply Qle_bool_iff in E. repeat split; auto. apply Qle_refl.
  - repeat split; auto; [apply Qle_refl|].
    apply Qlt_le_weak, Qnot_le_lt. intros L.
    apply Qle_bool_iff in L. congruence.
Qed.

Lemma fold_max2_spec (r : list Q) :
  forall x, In (fold_left JS.max2 r x) (x :: r)
            /\ forall y, In y (x :: r) -> (y <= fold_left JS.max2 r x)%Q.
Proof.
  induction r as [|z r IH]; intros x; simpl.
  - split; [now left|]. intros y [<-|[]]. apply Qle_refl.
  - destruct (IH (JS.max2 x z)) as [Hin Hub].
    destruct (max2_cases x z) as [Hc [Hx Hz]].
    split.
    + destruct Hin as [Hm|Hm].
      * rewrite <- Hm. destruct Hc as [-> | ->]; auto.
      * right; right; exact Hm.
    + intros y [<-|[<-|Hy]].
      * eapply Qle_trans; [exact Hx|]. apply Hub. now left.
      * eapply Qle_trans; [exact Hz|]. apply Hub. now left.
      * apply Hub. now right.
Qed.

Lemma Math_max_spec (l : list Q) (m : Q) :
  is_maximum m l -> exists m', JS.Math_max l = Some m' /\ (m' == m)%Q.
Proof.
  intros [[x [Hx Hxm]] Hub]. destruct l as [|a r]; [destruct Hx|].
  simpl. eexists; split; [reflexivity|].
  destruct (fold_max2_spec r a) as [Hin Hle].
  apply Qle_antisym.
  - apply Hub. exact Hin.
  - rewrite <- Hxm. apply Hle. exact Hx.
Qed.

(** ** The gate *)

Lemma is_emergency_item_iff (item : IntentItem) :
  Gates.is_emergency_item item = true <-> emergency_item item.
Proof.
  unfold Gates.is_emergency_item, emergency_item.
  rewrite orb_true_iff, intent_eqb_eq, next_action_eqb_eq. tauto.
Qed.

Lemma no_emergency_filter (its : list IntentItem) :
  (forall item, In item its -> ~ emergency_item item) ->
  filter Gates.is_emergency_item its = [].
Proof.
  intros H. induction its as [|a r IH]; [reflexivity|]. simpl.
  destruct (Gates.is_emergency_item a) eqn:E.
  - apply is_emergency_item_iff in E. exfalso. apply (H a); [now left|exact E].
  - apply IH. intros item Hi. apply H. now right.
Qed.

Lemma length_eqb_0 {A : Type} (l : list A) :
  Nat.eqb (List.length l) 0 = true <-> l = [].
Proof. destruct l; simpl; split; congruence. Qed.



(** The decision on the sample: EMERGENCY with urgency [high], the one
    emergency item having confidence 0.1. *)
Example gate_emergency_among_nine :
  Gates.gate Gates.DEFAULT_CONFIG Samples.emergency_among_nine (Some "Guten Tag")
  = Gates.EMERGENCY
      [Samples.item_of notfall (1 # 10) Samples.no_slots rueckfrage_senden]
      "Notfall-Intent erkannt" Gates.high.
Proof. reflexivity. Qed.

(** *** The keyword scan *)

Lemma includes_empty_text (sub : string) :
  JS.includes EmptyString sub = true -> sub = EmptyString.
Proof.
  destruct sub as [|c r]; [reflexivity|]. simpl. discriminate.
Qed.

Lemma toLowerCase_empty (s : string) :
  JS.toLowerCase s = EmptyString -> s = EmptyString.
Proof. destruct s; simpl; [reflexivity|discriminate]. Qed.

Lemma truthy_Some (text : string) :
  text <> EmptyString -> JS.truthy (Some text) = true.
Proof.
  intros H. simpl. destruct (String.eqb text EmptyString) eqn:E;
    [apply String.eqb_eq in E; contradiction | reflexivity].
Qed.

Lemma found_keywords_nonempty (cfg : Gates.GateConfig) (text : string) :
  mentions_keyword cfg text -> Gates.found_keywords cfg text <> [].
Proof.
  intros [kw [Hin Hc]] E.
  assert (H : In kw (Gates.found_keywords cfg text)).
  { unfold Gates.found_keywords. apply filter_In. split; assumption. }
  rewrite E in H. destruct H.
Qed.

Lemma found_keywords_empty (cfg : Gates.GateConfig) (text : string) :
  (forall kw, In kw (Gates.emergencyKeywords cfg) -> contains_ci text kw = false) ->
  Gates.found_keywords cfg text = [].
Proof.
  intros H. unfold Gates.found_keywords.
  induction (Gates.emergencyKeywords cfg) as [|k r IH]; [reflexivity|].
  simpl. unfold contains_ci in H. rewrite (H k (or_introl eq_refl)).
  apply IH. intros kw Hk. apply H. now right.
Qed.

(** The second half of [checkForEmergency], reached when no item is an
    emergency: a non-empty text with a keyword hit. *)
Lemma gate_keyword_hit (cfg : Gates.GateConfig) (resp : IntentResponse)
      (text : string) :
  no_emergency_item resp ->
  text <> EmptyString ->
  mentions_keyword cfg text ->
  exists reason urgency,
    Gates.gate cfg resp (Some text)
    = Gates.EMERGENCY
        [Gates.keyword_item (Gates.found_keywords cfg text) text]
        reason urgency.
Proof.
  intros Hno Htext Hkw.
  unfold Gates.gate, Gates.checkForEmergency.
  rewrite (no_emergency_filter _ Hno). cbn [List.length Nat.eqb negb].
  rewrite (truthy_Some _ Htext).
  destruct (Gates.found_keywords cfg text) as [|k r] eqn:F.
  - exfalso. exact (found_keywords_nonempty cfg text Hkw F).
  - cbn [List.length Nat.eqb negb]. eexists; eexists; reflexivity.
Qed.

(** The gate when [checkForEmergency] finds nothing. *)
Lemma checkForEmergency_none (cfg : Gates.GateConfig) (resp : IntentResponse)
      (originalText : option string) :
  no_emergency_item resp ->
  no_keyword_hit cfg originalText ->
  Gates.checkForEmergency cfg resp originalText = None.
Proof.
  intros Hno Hkw. unfold Gates.checkForEmergency.
  rewrite (no_emergency_filter _ Hno). cbn [List.length Nat.eqb negb].
  destruct originalText as [text|]; [|reflexivity].
  destruct (JS.truthy (Some text)); [|reflexivity].
  rewrite (found_keywords_empty cfg text Hkw). reflexivity.
Qed.




(** C10: the default keyword list holds the words [dringend], [sofort],
    [akut] and [schmerzen]; hence, under the default configuration, a
    response without emergency item is gated to EMERGENCY for every raw
    text that contains [dringend], letter case ignored, whether or not a
    medical term occurs in it. *)
Theorem default_keywords_include_urgency_words :
  In "dringend" EMERGENCY_KEYWORDS
  /\ In "sofort" EMERGENCY_KEYWORDS
  /\ In "akut" EMERGENCY_KEYWORDS
  /\ In "schmerzen" EMERGENCY_KEYWORDS
  /\ Gates.emergencyKeywords Gates.DEFAULT_CONFIG = EMERGENCY_KEYWORDS
  /\ forall (resp : IntentResponse) (text : string),
      no_emergency_item resp ->
      contains_ci text "dringend" = true ->
      exists its reason urgency,
        Gates.gate Gates.DEFAULT_CONFIG resp (Some text)
        = Gates.EMERGENCY its reason urgency.
Proof.
  do 4 (split; [simpl; tauto|]). split; [reflexivity|].
  intros resp text Hno Hc.
  assert (Htext : text <> EmptyString).
  { intros ->. unfold contains_ci in Hc. simpl JS.toLowerCase at 1 in Hc.
    apply includes_empty_text in Hc. discriminate. }
  assert (Hkw : mentions_keyword Gates.DEFAULT_CONFIG text).
  { exists "dringend". split; [simpl; tauto | exact Hc]. }
  destruct (gate_keyword_hit _ resp text Hno Htext Hkw) as [reason [u H]].
  eauto.
Qed.

Lemma default_keywords_include_urgency_words_witness :
  no_emergency_item (Samples.info_at (99 # 100))
  /\ contains_ci "Ich brauche DRINGEND einen neuen Ausweis" "dringend" = true
  /\ exists its reason urgency,
      Gates.gate Gates.DEFAULT_CONFIG (Samples.info_at (99 # 100))
                 (Some "Ich brauche DRINGEND einen neuen Ausweis")
      = Gates.EMERGENCY its reason urgency.
Proof.
  assert (H1 : no_emergency_item (Samples.info_at (99 # 100))).
  { intros item [<-|[]] [H|H]; discriminate. }
  assert (H2 : contains_ci "Ich brauche DRINGEND einen neuen Ausweis"
                           "dringend" = true) by reflexivity.
  split; [exact H1|]. split; [exact H2|].
  exact (proj2 (proj2 (proj2 (proj2 (proj2
           default_keywords_include_urgency_words))))
           (Samples.info_at (99 # 100))
           "Ich brauche DRINGEND einen neuen Ausweis" H1 H2).
Defined.

(** The decision on a text whose only keyword is [dringend]. *)
Example gate_dringend_without_medical_term :
  Gates.gate Gates.DEFAULT_CONFIG (Samples.info_at (99 # 100))
             (Some "Ich brauche DRINGEND einen neuen Ausweis")
  = Gates.EMERGENCY
      [Gates.keyword_item ["dringend"]
                          "Ich brauche DRINGEND einen neuen Ausweis"]
      "Notfall-Keywords erkannt: dringend" Gates.high.
Proof. reflexivity. Qed.

(** *** Missing slots and thresholds *)

Lemma set_add_In (x : string) (s : list string) (y : string) :
  In y (Gates.set_add x s) <-> In y s \/ y = x.
Proof.
  unfold Gates.set_add. destruct (existsb (String.eqb x) s) eqn:E.
  - split; [tauto|]. intros [H| ->]; [exact H|].
    apply existsb_exists in E. destruct E as [z [Hz Ez]].
    apply String.eqb_eq in Ez. subst z. exact Hz.
  - rewrite in_app_iff. simpl. intuition congruence.
Qed.

Lemma missing_fold_In (s : IntentSlots) (req : list string) :
  forall (acc : list string) (y : string),
    In y (fold_left
            (fun acc requiredSlot =>
               if Gates.slot_missing (get_slot s requiredSlot)
               then Gates.set_add requiredSlot acc else acc)
            req acc)
    <-> In y acc
        \/ (In y req /\ Gates.slot_missing (get_slot s y) = true).
Proof.
  induction req as [|r req IH]; intros acc y; simpl.
  - tauto.
  - rewrite IH. destruct (Gates.slot_missing (get_slot s r)) eqn:E.
    + rewrite set_add_In. split.
      * intros [[H| ->]|[H1 H2]]; auto.
      * intros [H|[[<-|H1] H2]]; auto.
    + split.
      * intros [H|[H1 H2]]; auto.
      * intros [H|[[<-|H1] H2]]; auto. congruence.
Qed.

Lemma findMissingSlots_fold_In (cfg : Gates.GateConfig) (its : list IntentItem) :
  forall (acc : list string) (y : string),
    In y (fold_left (Gates.missing_of_item cfg) its acc)
    <-> In y acc
        \/ exists item, In item its /\ missing_required cfg item y.
Proof.
  induction its as [|a its IH]; intros acc y; simpl.
  - split; [tauto|]. intros [H|[item [[] _]]]. exact H.
  - rewrite IH. unfold Gates.missing_of_item at 1. rewrite missing_fold_In.
    unfold missing_required. split.
    + intros [[H|H]|[item [Hi Hm]]]; eauto.
    + intros [H|[item [[<-|Hi] Hm]]]; eauto.
Qed.

Lemma findMissingSlots_In (cfg : Gates.GateConfig) (its : list IntentItem)
      (y : string) :
  In y (Gates.findMissingSlots cfg its)
  <-> exists item, In item its /\ missing_required cfg item y.
Proof.
  unfold Gates.findMissingSlots. rewrite findMissingSlots_fold_In.
  simpl. tauto.
Qed.



Lemma no_default_keyword_in_greeting :
  no_keyword_hit Gates.DEFAULT_CONFIG (Some "Guten Tag, ich habe eine Frage").
Proof.
  intros kw H. simpl in H.
  repeat (destruct H as [<-|H]; [reflexivity|]). destruct H.
Qed.


(** The decision on an appointment request without date and time at
    confidence 0.9: both names are listed, in the order of the table. *)
Example gate_termin_without_date :
  Gates.gate Gates.DEFAULT_CONFIG Samples.termin_without_date None
  = Gates.ASK_CONFIRM (items Samples.termin_without_date)
      "Hohe Konfidenz, aber fehlende Informationen" (9 # 10)
      (Some ["datum"; "zeit"]).
Proof. reflexivity. Qed.

(** ** Buckets and plans *)

Lemma includes_intent_In (l : list IntentType) (i : IntentType) :
  Multi.includes_intent l i = true <-> In i l.
Proof.
  unfold Multi.includes_intent. rewrite existsb_exists. split.
  - intros [x [Hx E]]. apply intent_eqb_eq in E. subst x. exact Hx.
  - intros H. exists i. split; [exact H|]. now apply intent_eqb_eq.
Qed.

Lemma includes_intent_false (l : list IntentType) (i : IntentType) :
  Multi.includes_intent l i = false <-> ~ In i l.
Proof.
  rewrite <- includes_intent_In.
  destruct (Multi.includes_intent l i); split; congruence.
Qed.

Lemma has_termin_iff (intents : list IntentType) :
  existsb (Multi.includes_intent Multi.terminIntents) intents = true
  <-> exists i, In i intents /\ In i Multi.terminIntents.
Proof.
  rewrite existsb_exists. split; intros [i [H1 H2]]; exists i; split; auto;
    now apply includes_intent_In.
Qed.

Lemma all_compatible_iff (intents : list IntentType) :
  forallb (Multi.includes_intent Multi.compatibleWithTermin) intents = true
  <-> forall i, In i intents -> In i Multi.compatibleWithTermin.
Proof.
  rewrite forallb_forall. split; intros H i Hi.
  - apply includes_intent_In. now apply H.
  - apply includes_intent_In. now apply H.
Qed.

Lemma two_elements_length {A : Type} (l : list A) (a b : A) :
  In a l -> In b l -> a <> b -> Nat.ltb 1 (List.length l) = true.
Proof.
  intros Ha Hb Hab. destruct l as [|x [|y r]]; simpl in *.
  - destruct Ha.
  - destruct Ha as [<-|[]]; destruct Hb as [<-|[]]. contradiction.
  - reflexivity.
Qed.

(** C8, as stated, fails: sick note and result inquiry are two distinct
    intents, neither is [notfall], they are not drawn from the
    appointment family with prescription and general information, and
    the code calls the pair compatible. *)
Lemma mixture_without_appointment_is_compatible :
  NoDup [arbeitsunfaehigkeit; befundauskunft]
  /\ ~ In notfall [arbeitsunfaehigkeit; befundauskunft]
  /\ ~ (forall i, In i [arbeitsunfaehigkeit; befundauskunft] ->
                  In i Multi.compatibleWithTermin)
  /\ Multi.areIntentsCompatible [arbeitsunfaehigkeit; befundauskunft] = true.
Proof.
  split; [|split; [|split]].
  - repeat constructor; simpl; intuition discriminate.
  - simpl; intuition discriminate.
  - intros H. specialize (H arbeitsunfaehigkeit (or_introl eq_refl)).
    simpl in H. intuition discriminate.
  - reflexivity.
Qed.

(** C8 (amended): [notfall] together with another intent is flagged
    incompatible; intents drawn from the appointment family, prescription
    request and general information are compatible; a mixture that holds
    an appointment intent and an intent outside that group is flagged
    incompatible; any mixture with neither [notfall] nor an appointment
    intent is compatible. *)
Theorem areIntentsCompatible_cases :
  forall intents : list IntentType,
    (In notfall intents ->
     (exists i, In i intents /\ i <> notfall) ->
     Multi.areIntentsCompatible intents = false)
    /\ ((forall i, In i intents -> In i Multi.compatibleWithTermin) ->
        Multi.areIntentsCompatible intents = true)
    /\ (~ In notfall intents ->
        (exists i, In i intents /\ In i Multi.terminIntents) ->
        (exists j, In j intents /\ ~ In j Multi.compatibleWithTermin) ->
        Multi.areIntentsCompatible intents = false)
    /\ (~ In notfall intents ->
        (forall i, In i intents -> ~ In i Multi.terminIntents) ->
        Multi.areIntentsCompatible intents = true).
Proof.
  intros intents. unfold Multi.areIntentsCompatible.
  split; [|split; [|split]].
  - intros Hn [i [Hi Hne]].
    apply includes_intent_In in Hn. rewrite Hn.
    rewrite (two_elements_length intents i notfall Hi
               (proj1 (includes_intent_In _ _) Hn) Hne).
    reflexivity.
  - intros Hall.
    assert (Hn : Multi.includes_intent intents notfall = false).
    { apply includes_intent_false. intros Hin. apply Hall in Hin.
      simpl in Hin. intuition discriminate. }
    rewrite Hn. cbn [andb].
    destruct (existsb _ intents); [|reflexivity].
    now apply all_compatible_iff.
  - intros Hn Ht [j [Hj Hout]].
    apply includes_intent_false in Hn. rewrite Hn. cbn [andb].
    apply has_termin_iff in Ht. rewrite Ht.
    destruct (forallb _ intents) eqn:E; [|reflexivity].
    exfalso. apply Hout. exact (proj1 (all_compatible_iff _) E j Hj).
  - intros Hn Hnone.
    apply includes_intent_false in Hn. rewrite Hn. cbn [andb].
    destruct (existsb _ intents) eqn:E; [|reflexivity].
    apply has_termin_iff in E. destruct E as [i [Hi Ht]].
    exfalso. exact (Hnone i Hi Ht).
Qed.

Lemma areIntentsCompatible_cases_witness :
  Multi.areIntentsCompatible [notfall; termin_anfragen] = false
  /\ Multi.areIntentsCompatible [termin_anfragen; rezept_anfordern] = true
  /\ Multi.areIntentsCompatible [termin_absagen; laborbefund] = false
  /\ Multi.areIntentsCompatible [ueberweisung; laborbefund] = true.
Proof.
  split; [|split; [|split]].
  - apply (proj1 (areIntentsCompatible_cases [notfall; termin_anfragen])).
    + simpl; tauto.
    + exists termin_anfragen. split; [simpl; tauto | discriminate].
  - apply (proj1 (proj2 (areIntentsCompatible_cases
                           [termin_anfragen; rezept_anfordern]))).
    intros i [<-|[<-|[]]]; simpl; tauto.
  - apply (proj1 (proj2 (proj2 (areIntentsCompatible_cases
                                  [termin_absagen; laborbefund])))).
    + simpl; intuition discriminate.
    + exists termin_absagen. split; simpl; tauto.
    + exists laborbefund. split; simpl; [tauto | intuition discriminate].
  - apply (proj2 (proj2 (proj2 (areIntentsCompatible_cases
                                  [ueberweisung; laborbefund])))).
    + simpl; intuition discriminate.
    + intros i [<-|[<-|[]]]; simpl; intuition discriminate.
Defined.

(** C9 (the code departs from the claim): the duration table gives
    [notfall] the value 0, yet the plan of a single [notfall] item has
    [estimatedDuration = 1], not [0 * 1]: in
    [(PROCESSING_DURATION[bucket.intent] || 1)] the entry 0 is falsy and
    the default 1 is taken. *)
Theorem createProcessingPlan_notfall_duration :
  Gates.lookup (intent_name notfall) Multi.PROCESSING_DURATION = Some 0%Z
  /\ forall item : IntentItem,
      intent item = notfall ->
      Multi.estimatedDuration (Multi.createProcessingPlan [item]) = 1%Z
      /\ map Multi.intent (Multi.buckets (Multi.createProcessingPlan [item]))
         = [notfall]
      /\ map (fun b => List.length (Multi.items b))
             (Multi.buckets (Multi.createProcessingPlan [item]))
         = [1].
Proof.
  split; [reflexivity|].
  intros [i c s a n] H. simpl in H. subst i. repeat split.
Qed.

Lemma createProcessingPlan_notfall_duration_witness :
  intent (Samples.item_of notfall 1 Samples.no_slots notfall_protokoll) = notfall
  /\ Multi.estimatedDuration
       (Multi.createProcessingPlan
          [Samples.item_of notfall 1 Samples.no_slots notfall_protokoll])
     = 1%Z.
Proof.
  split; [reflexivity|].
  exact (proj1 (proj2 createProcessingPlan_notfall_duration
                  (Samples.item_of notfall 1 Samples.no_slots notfall_protokoll)
                  eq_refl)).
Defined.

(** The empty list gives the empty plan. *)
Example createProcessingPlan_empty :
  Multi.createProcessingPlan []
  = {| Multi.buckets := []; Multi.totalItems := 0; Multi.multiIntent := false;
       Multi.processingOrder := []; Multi.estimatedDuration := 0%Z |}.
Proof. reflexivity. Qed.

(** Two appointment requests (0.75 and 0.25) after one general
    information (0.5): two buckets, the appointment bucket first with
    the mean 0.5 of its members, [multiIntent] set, 2 * 2 + 1 * 1
    minutes. *)
Example createProcessingPlan_two_intents :
  let plan :=
    Multi.createProcessingPlan
      [ Samples.item_of allgemeine_info (1 # 2) Samples.no_slots rueckfrage_senden;
        Samples.item_of termin_anfragen (3 # 4) Samples.no_slots termin_vorschlagen;
        Samples.item_of termin_anfragen (1 # 4) Samples.no_slots termin_vorschlagen ] in
  Multi.processingOrder plan = [termin_anfragen; allgemeine_info]
  /\ Forall2 (fun b m => (Multi.confidence b == m)%Q)
             (Multi.buckets plan) [1 # 2; 1 # 2]%Q
  /\ Multi.multiIntent plan = true
  /\ Multi.estimatedDuration plan = 5%Z.
Proof.
  cbv zeta. repeat split.
  vm_compute. repeat constructor.
Qed.

(** ** Business hours *)

Lemma in_slot_iff (d : BusinessHours.JsDate) (slot : BusinessHours.Interval) :
  BusinessHours.in_slot
    (BusinessHours.getHours d * 60 + BusinessHours.getMinutes d) slot = true
  <-> clock_within d slot.
Proof.
  unfold BusinessHours.in_slot, clock_within.
  destruct (BusinessHours.hours_minutes (fst slot)) as [[sh sm]|];
    destruct (BusinessHours.hours_minutes (snd slot)) as [[eh em]|].
  - rewrite andb_true_iff, !Z.leb_le. split.
    + intros [H1 H2]. exists sh, sm, eh, em. auto.
    + intros [sh' [sm' [eh' [em' [E1 [E2 [H1 H2]]]]]]].
      inversion E1; inversion E2; subst. auto.
  - split; [discriminate|]. intros [? [? [? [? [_ [E _]]]]]]. discriminate.
  - split; [discriminate|]. intros [? [? [? [? [E _]]]]]. discriminate.
  - split; [discriminate|]. intros [? [? [? [? [E _]]]]]. discriminate.
Qed.

Lemma any_slot_iff (d : BusinessHours.JsDate)
      (timeSlots : list BusinessHours.Interval) :
  BusinessHours.any_slot
    (BusinessHours.getHours d * 60 + BusinessHours.getMinutes d) timeSlots = true
  <-> exists slot, In slot timeSlots /\ clock_within d slot.
Proof.
  induction timeSlots as [|s r IH]; simpl.
  - split; [discriminate|]. intros [slot [[] _]].
  - destruct (BusinessHours.in_slot _ s) eqn:E.
    + split; [|reflexivity]. intros _. exists s. split; [now left|].
      now apply in_slot_iff.
    + rewrite IH. split.
      * intros [slot [Hi Hc]]. exists slot. split; [now right|exact Hc].
      * intros [slot [[<-|Hi] Hc]].
        -- apply in_slot_iff in Hc. congruence.
        -- exists slot. split; assumption.
Qed.

Lemma find_holiday_none_iff (st : BusinessHours.State) (dateStr : string) :
  BusinessHours.find_holiday st dateStr = None
  <-> ~ configured_holiday st dateStr.
Proof.
  unfold BusinessHours.find_holiday, configured_holiday. split.
  - intros H [h [Hin Hd]].
    apply (find_none _ _ H) in Hin. apply String.eqb_neq in Hin. contradiction.
  - intros H.
    destruct (find _ (BusinessHours.holidays st)) as [h|] eqn:E; [|reflexivity].
    exfalso. apply H. apply find_some in E. destruct E as [Hin Hd].
    apply String.eqb_eq in Hd. exists h. split; assumption.
Qed.

(** The verdict on a valid date in an initialised state. *)
Lemma isWithinBusinessHours_valid (env : BusinessHours.Env)
      (st : BusinessHours.State) (dateISO : string) (d : BusinessHours.JsDate) :
  BusinessHours.parseISO env dateISO = Some d ->
  let st' := BusinessHours.ensure_initialized env st in
  snd (BusinessHours.isWithinBusinessHours env st dateISO) = true
  <-> ~ configured_holiday st' (BusinessHours.yyyy_MM_dd d)
      /\ exists slot, In slot (intervals_of_day st' d) /\ clock_within d slot.
Proof.
  intros Hp st'. unfold BusinessHours.isWithinBusinessHours.
  fold st'. rewrite Hp. unfold intervals_of_day.
  destruct (BusinessHours.find_holiday st' (BusinessHours.yyyy_MM_dd d))
    as [h|] eqn:F.
  - simpl. split; [discriminate|]. intros [Hn _]. exfalso.
    apply find_holiday_none_iff in Hn. congruence.
  - apply find_holiday_none_iff in F.
    destruct (Gates.lookup (BusinessHours.getDayKey d)
                           (BusinessHours.businessHours st')) as [[|s r]|].
    + simpl. split; [discriminate|]. intros [_ [slot [[] _]]].
    + cbn [snd]. rewrite any_slot_iff. tauto.
    + simpl. split; [discriminate|]. intros [_ [slot [[] _]]].
Qed.



(** ** The validator *)

Lemma bind_inr {A B : Type} (m : Exn.result A) (k : A -> Exn.result B) (b : B) :
  Exn.bind m k = inr b -> exists a, m = inr a /\ k a = inr b.
Proof. destruct m as [e|a]; simpl; [discriminate|eauto]. Qed.

Ltac inv_bind H :=
  let a := fresh "a" in
  let E := fresh "E" in
  apply bind_inr in H; destruct H as [a [E H]].

Lemma z_object_inr (path : string) (v : option Validate.json)
      (o : list (string * Validate.json)) :
  Validate.z_object path v = inr o -> v = Some (Validate.JObj o).
Proof.
  destruct v as [[]|]; simpl; intros H; try discriminate.
  now inversion H.
Qed.

Lemma z_number_0_1_inr (path : string) (v : option Validate.json) (q : Q) :
  Validate.z_number_0_1 path v = inr q ->
  v = Some (Validate.JNum q) /\ in_unit_interval q.
Proof.
  destruct v as [[]|]; simpl; intros H; try discriminate.
  destruct (JS.geb q0 0) eqn:E0; simpl in H; [|discriminate].
  destruct (JS.geb 1 q0) eqn:E1; simpl in H; [|discriminate].
  inversion H; subst. apply geb_true_iff in E0, E1. repeat split; assumption.
Qed.

(** An item that passes the schema has a confidence in the unit
    interval, and it is the number found in the object. *)
Lemma IntentItemSchema_inr (v : Validate.json) (item : IntentItem) :
  Validate.IntentItemSchema v = inr item ->
  in_unit_interval (confidence item)
  /\ forall vo q, v = Validate.JObj vo ->
                  Validate.field "confidence" vo = Some (Validate.JNum q) ->
                  q = confidence item.
Proof.
  unfold Validate.IntentItemSchema. intros H.
  inv_bind H. inv_bind H. inv_bind H. inv_bind H. inv_bind H. inv_bind H.
  inversion H; subst; clear H. cbn [confidence].
  apply z_object_inr in E. apply z_number_0_1_inr in E1.
  destruct E1 as [E1 R]. split; [exact R|].
  intros vo q -> Hq. inversion E; subst. rewrite Hq in E1. now inversion E1.
Qed.

Lemma mapM_inr {A B : Type} (f : A -> Exn.result B) (l : list A) :
  forall l', Exn.mapM f l = inr l' -> Forall2 (fun x y => f x = inr y) l l'.
Proof.
  induction l as [|x r IH]; simpl; intros l' H.
  - inversion H. constructor.
  - inv_bind H. inv_bind H. inversion H; subst. constructor; auto.
Qed.

Lemma z_items_inr (v : option Validate.json) (its : list IntentItem) :
  Validate.z_items v = inr its ->
  exists elems,
    v = Some (Validate.JArr elems)
    /\ Forall2 (fun x y => Validate.IntentItemSchema x = inr y) elems its
    /\ its <> [].
Proof.
  destruct v as [[]|]; simpl; intros H; try discriminate.
  inv_bind H. apply mapM_inr in E.
  destruct elems as [|e es]; simpl in H; [discriminate|].
  inversion H; subst. exists (e :: es). split; [reflexivity|].
  split; [exact E|]. inversion E. discriminate.
Qed.

(** What a response that passes [IntentResponseSchema] satisfies, and
    how it relates to the object it was read from. *)
Lemma IntentResponseSchema_inr (obj : Validate.json) (r : IntentResponse) :
  Validate.IntentResponseSchema obj = inr r ->
  items r <> []
  /\ (forall item, In item (items r) -> in_unit_interval (confidence item))
  /\ in_unit_interval (max_confidence (overall r))
  /\ (forall q, json_item_confidence obj q -> in_unit_interval q)
  /\ (forall q, json_max_confidence obj q -> in_unit_interval q).
Proof.
  unfold Validate.IntentResponseSchema. intros H.
  do 12 inv_bind H. inversion H; subst; clear H.
  cbn [items overall max_confidence].
  apply z_object_inr in E. inversion E; subst; clear E.
  apply z_items_inr in E4. destruct E4 as [elems [Hitems [HF Hne]]].
  apply z_object_inr in E5. apply z_number_0_1_inr in E7.
  destruct E7 as [Hmax Rmax].
  split; [exact Hne|]. split; [|split; [exact Rmax|split]].
  - intros item Hin. clear Hitems Hne.
    induction HF as [|x y l l' Hxy HF IH]; [destruct Hin|].
    destruct Hin as [<-|Hin]; [|now apply IH].
    apply IntentItemSchema_inr in Hxy. tauto.
  - intros q [o [elems' [vo [Ho [Hf [Hin Hc]]]]]].
    inversion Ho; subst o. rewrite Hitems in Hf. inversion Hf; subst elems'.
    clear Hitems Hne Hf Ho.
    induction HF as [|x y l l' Hxy HF IH]; [destruct Hin|].
    destruct Hin as [->|Hin]; [|now apply IH].
    apply IntentItemSchema_inr in Hxy. destruct Hxy as [R Heq].
    rewrite (Heq vo q eq_refl Hc). exact R.
  - intros q [o [ov [Ho [Hov Hq]]]].
    inversion Ho; subst o. rewrite E5 in Hov. inversion Hov; subst.
    rewrite Hmax in Hq. inversion Hq; subst. exact Rmax.
Qed.

Lemma existsb_intent_eqb (x : IntentType) (s : list IntentType) :
  existsb (intent_eqb x) s = true <-> In x s.
Proof.
  rewrite existsb_exists. split.
  - intros [y [Hy E]]. apply intent_eqb_eq in E. now subst.
  - intros H. exists x. split; [exact H|]. now apply intent_eqb_eq.
Qed.

Lemma new_Set_fold (l : list IntentType) :
  forall acc,
    NoDup acc ->
    let s := fold_left
               (fun s x => if existsb (intent_eqb x) s then s else (s ++ [x])%list)
               l acc in
    NoDup s /\ forall x, In x s <-> In x acc \/ In x l.
Proof.
  induction l as [|a l IH]; intros acc Hnd; simpl.
  - split; [exact Hnd|]. tauto.
  - destruct (existsb (intent_eqb a) acc) eqn:E.
    + destruct (IH acc Hnd) as [N I]. split; [exact N|].
      intros x. rewrite I. apply existsb_intent_eqb in E.
      split; [tauto|]. intros [H|[<-|H]]; auto.
    + assert (Hna : ~ In a acc).
      { intros Hin. apply existsb_intent_eqb in Hin. congruence. }
      assert (Hnd' : NoDup (acc ++ [a])).
      { apply NoDup_app; [exact Hnd | repeat constructor; intros [] |].
        intros x Hx [<-|[]]. contradiction. }
      destruct (IH (acc ++ [a])%list Hnd') as [N I]. split; [exact N|].
      intros x. rewrite I, in_app_iff. simpl. tauto.
Qed.

Lemma new_Set_several (its : list IntentItem) :
  Nat.ltb 1 (List.length (Validate.new_Set (map intent its))) = true
  <-> several_intents its.
Proof.
  unfold Validate.new_Set.
  destruct (new_Set_fold (map intent its) [] (NoDup_nil _)) as [N I].
  cbv zeta in N, I. split.
  - intros H.
    destruct (fold_left _ (map intent its) []) as [|x [|y r]];
      simpl in H; try discriminate.
    assert (Hx : In x (map intent its)).
    { destruct (proj1 (I x) (or_introl eq_refl)) as [[]|Hx]. exact Hx. }
    assert (Hy : In y (map intent its)).
    { destruct (proj1 (I y) (or_intror (or_introl eq_refl))) as [[]|Hy].
      exact Hy. }
    apply in_map_iff in Hx, Hy.
    destruct Hx as [a [Ea Ha]], Hy as [b [Eb Hb]].
    exists a, b. split; [exact Ha|]. split; [exact Hb|].
    inversion N as [|? ? Hnotin _]; subst.
    intros Hab. apply Hnotin. rewrite Hab. now left.
  - intros [a [b [Ha [Hb Hab]]]].
    apply (two_elements_length _ (intent a) (intent b)); auto;
      apply I; right; now apply in_map.
Qed.

Lemma topIntentExists_iff (r : IntentResponse) :
  existsb (fun item => intent_eqb (intent item) (top_intent (overall r)))
          (items r) = true
  <-> top_intent_in_items r.
Proof.
  unfold top_intent_in_items. rewrite existsb_exists.
  split; intros [item [Hi E]]; exists item; split; auto;
    now apply intent_eqb_eq.
Qed.

(** [validatePlausibility] throws exactly when the top intent is not
    among the items; otherwise it returns, whatever the declared
    [max_confidence] and [multi_intent] are, and has warned about each
    of the two that disagrees with the items. *)
Lemma validatePlausibility_spec (r : IntentResponse) :
  (~ top_intent_in_items r ->
   exists msg, Validate.validatePlausibility r = inl (Exn.Error msg))
  /\ (top_intent_in_items r ->
      exists ws,
        Validate.validatePlausibility r = inr ws
        /\ (forall m, is_maximum m (map confidence (items r)) ->
                      (1 # 100 < Qabs (max_confidence (overall r) - m))%Q ->
                      exists actual,
                        In (Validate.warn_max_confidence
                              (max_confidence (overall r)) actual) ws)
        /\ ((multi_intent (overall r) = true /\ ~ several_intents (items r))
            \/ (multi_intent (overall r) = false /\ several_intents (items r)) ->
            In (Validate.warn_multi_intent
                  (multi_intent (overall r))
                  (negb (multi_intent (overall r)))) ws)).
Proof.
  unfold Validate.validatePlausibility. split.
  - intros Hn.
    destruct (existsb _ (items r)) eqn:E.
    + apply topIntentExists_iff in E. contradiction.
    + simpl. eexists; reflexivity.
  - intros Ht. apply topIntentExists_iff in Ht. rewrite Ht. cbn [negb].
    eexists. split; [reflexivity|]. split.
    + intros m Hm Hgt. apply Math_max_spec in Hm.
      destruct Hm as [m' [Hmax Heq]]. rewrite Hmax.
      cbn [Validate.differs_by_more_than_001].
      assert (G : JS.gtb (Qabs (max_confidence (overall r) - m')) (1 # 100) = true).
      { apply gtb_true_iff. rewrite Heq. exact Hgt. }
      rewrite G. eexists. apply in_or_app. left. now left.
    + intros Hmis. apply in_or_app. right.
      destruct (Nat.ltb 1 (List.length (Validate.new_Set (map intent (items r)))))
        eqn:L.
      * apply new_Set_several in L.
        destruct Hmis as [[Hm Hs]|[Hm Hs]]; [contradiction|].
        rewrite Hm. simpl. now left.
      * destruct Hmis as [[Hm Hs]|[Hm Hs]].
        -- rewrite Hm. simpl. now left.
        -- apply new_Set_several in Hs. congruence.
Qed.

(** [parseIntentJSON] in terms of its stages. *)
Lemma parseIntentJSON_stages (lib : Validate.Lib) (raw : string) :
  (forall e, Validate.parsed_object lib raw = inl e ->
             snd (Validate.parseIntentJSON lib raw)
             = inl (Exn.Error (Validate.error_prefix ++ Exn.message_of e)))
  /\ (forall obj, Validate.parsed_object lib raw = inr obj ->
        (forall e, Validate.IntentResponseSchema obj = inl e ->
                   snd (Validate.parseIntentJSON lib raw)
                   = inl (Exn.Error (Validate.error_prefix ++ Exn.message_of e)))
        /\ (forall v, Validate.IntentResponseSchema obj = inr v ->
              (forall e, Validate.validatePlausibility v = inl e ->
                         snd (Validate.parseIntentJSON lib raw)
                         = inl (Exn.Error (Validate.error_prefix
                                           ++ Exn.message_of e)))
              /\ (forall ws, Validate.validatePlausibility v = inr ws ->
                             snd (Validate.parseIntentJSON lib raw) = inr v
                             /\ forall w, In w ws ->
                                  In w (fst (Validate.parseIntentJSON lib raw))))).
Proof.
  unfold Validate.parsed_object, Validate.parseIntentJSON.
  destruct (Validate.repair lib (Validate.extract_json_text raw))
    as [repaired log0]. cbn [fst].
  split.
  - intros e ->. reflexivity.
  - intros obj ->. cbn [Exn.bind]. split.
    + intros e ->. reflexivity.
    + intros v ->. cbn [Exn.bind]. split.
      * intros e ->. reflexivity.
      * intros ws ->. cbn. split; [reflexivity|].
        intros w Hw. apply in_or_app. now right.
Qed.

Lemma validatePlausibility_inr (v : IntentResponse)
      (ws : list Validate.LogEntry) :
  Validate.validatePlausibility v = inr ws -> top_intent_in_items v.
Proof.
  intros H. apply topIntentExists_iff.
  unfold Validate.validatePlausibility in H.
  destruct (existsb _ (items v)); [reflexivity|]. simpl in H. discriminate.
Qed.

(** A returned response went through all three stages. *)
Lemma parseIntentJSON_inr (lib : Validate.Lib) (raw : string)
      (r : IntentResponse) :
  snd (Validate.parseIntentJSON lib raw) = inr r ->
  exists obj ws,
    Validate.parsed_object lib raw = inr obj
    /\ Validate.IntentResponseSchema obj = inr r
    /\ Validate.validatePlausibility r = inr ws.
Proof.
  intros H. destruct (parseIntentJSON_stages lib raw) as [S1 S2].
  destruct (Validate.parsed_object lib raw) as [e|obj] eqn:P.
  - rewrite (S1 e eq_refl) in H. discriminate.
  - destruct (S2 obj eq_refl) as [S3 S4].
    destruct (Validate.IntentResponseSchema obj) as [e|v] eqn:V.
    + rewrite (S3 e eq_refl) in H. discriminate.
    + destruct (S4 v eq_refl) as [S5 S6].
      destruct (Validate.validatePlausibility v) as [e|ws] eqn:W.
      * rewrite (S5 e eq_refl) in H. discriminate.
      * destruct (S6 ws eq_refl) as [S7 _]. rewrite S7 in H.
        inversion H; subst. exists obj, ws. auto.
Qed.


(** C6: on every input [parseIntentJSON] ends in one of two ways: it
    returns a response that satisfies the schema, or it throws one
    [Error] whose message starts with the fixed prefix. *)
Theorem parseIntentJSON_returns_or_classified_error :
  forall (lib : Validate.Lib) (raw : string),
    (exists r, snd (Validate.parseIntentJSON lib raw) = inr r /\ schema_valid r)
    \/ (exists msg,
          snd (Validate.parseIntentJSON lib raw)
          = inl (Exn.Error (("Ung" ++ JS.uuml ++ "ltiges Intent-JSON: ") ++ msg))).
Proof.
  intros lib raw.
  destruct (snd (Validate.parseIntentJSON lib raw)) as [e|r] eqn:H.
  - right. revert H. unfold Validate.parseIntentJSON.
    destruct (Validate.repair lib (Validate.extract_json_text raw))
      as [repaired log0].
    destruct (Exn.bind _ _) as [err|[v ws]]; cbn [snd]; intros H.
    + inversion H. eexists; reflexivity.
    + discriminate.
  - left. exists r. split; [reflexivity|].
    pose proof (parseIntentJSON_inr lib raw r H) as [obj [ws [_ [V W]]]].
    apply IntentResponseSchema_inr in V.
    destruct V as [V1 [V2 [[V3 V4] _]]].
    apply validatePlausibility_inr in W.
    unfold schema_valid. repeat split; auto; apply V2; assumption.
Qed.


(** ** The pipeline *)

(** [classifyEmail] is a function: whatever the provider does, a result
    comes back.  A result with [success = false] is the one built in the
    [catch]: it carries an ESCALATE decision, the complexity [critical]
    with score 1, and as [error] the message of what was thrown. *)
Lemma classifyEmail_failure_shape (env : Pipeline.Env) (email : string)
      (llmProvider : Pipeline.LLMProvider) (opts : Pipeline.ClassificationOptions) :
  let result := Pipeline.classifyEmail env email llmProvider opts in
  (Pipeline.success result = true /\ Pipeline.error result = None)
  \/ (Pipeline.success result = false
      /\ (exists e, Pipeline.error result = Some (Exn.message_of e))
      /\ Pipeline.decision result
         = Gates.ESCALATE [] "Kritischer Fehler bei der Klassifikation" 0
      /\ Multi.level (Pipeline.complexity result) = Multi.critical
      /\ Multi.score (Pipeline.complexity result) = 1%Q).
Proof.
  cbv zeta. unfold Pipeline.classifyEmail.
  destruct (llmProvider _ _ _) as [llmResult|e|].
  - destruct (snd (Validate.parseIntentJSON _ _)) as [e|p].
    + destruct (Pipeline.enableFallback opts).
      * cbn [Exn.ret]. destruct (Pipeline.normalizeSlots opts);
          [destruct (Pipeline.normalize_items _ _ _ _)|]; left; split; reflexivity.
      * right. cbn. repeat split. eexists; reflexivity.
    + cbn [Exn.ret]. destruct (Pipeline.normalizeSlots opts);
        [destruct (Pipeline.normalize_items _ _ _ _)|]; left; split; reflexivity.
  - right. cbn. repeat split. eexists; reflexivity.
  - right. cbn. repeat split. exists (Exn.Error "LLM timeout"). reflexivity.
Qed.

(** C5 (the code departs from the claim): a provider whose promise is
    rejected with an [Error] of empty message leads into the [catch];
    the result has [success = false] and the empty text as [error],
    which [validateClassificationResult] of the same file reports as a
    failed result without error. *)
Theorem classifyEmail_empty_error_message :
  forall (env : Pipeline.Env) (email : string)
         (opts : Pipeline.ClassificationOptions),
    let result :=
      Pipeline.classifyEmail env email
        (fun _ _ _ => Pipeline.Rejected (Exn.Error EmptyString)) opts in
    Pipeline.success result = false
    /\ Pipeline.error result = Some EmptyString
    /\ Pipeline.decision result
       = Gates.ESCALATE [] "Kritischer Fehler bei der Klassifikation" 0
    /\ Multi.level (Pipeline.complexity result) = Multi.critical
    /\ Pipeline.validateClassificationResult result
       = [Pipeline.Fehlgeschlagen_ohne_Fehler].
Proof.
  intros env email opts. cbv zeta. repeat split.
Qed.

(** ** The processing plan in general *)

Lemma map_get_In (k : IntentType) (m : Multi.BucketMap) (b : Multi.IntentBucket) :
  Multi.map_get k m = Some b -> In (k, b) m.
Proof.
  induction m as [|[k' b'] r IH]; simpl; [discriminate|].
  destruct (intent_eqb k' k) eqn:E.
  - apply intent_eqb_eq in E. subst. intros H; inversion H. now left.
  - intros H. right. now apply IH.
Qed.

Lemma map_get_None (k : IntentType) (m : Multi.BucketMap) :
  Multi.map_get k m = None <-> ~ In k (map fst m).
Proof.
  induction m as [|[k' b'] r IH]; simpl; [tauto|].
  destruct (intent_eqb k' k) eqn:E.
  - apply intent_eqb_eq in E. subst. split; [discriminate|tauto].
  - rewrite IH. split; [|tauto]. intros H [->|Hin]; [|tauto].
    assert (T : intent_eqb k k = true) by now apply intent_eqb_eq.
    congruence.
Qed.

Lemma map_set_absent (k : IntentType) (b : Multi.IntentBucket) (m : Multi.BucketMap) :
  Multi.map_get k m = None -> Multi.map_set k b m = (m ++ [(k, b)])%list.
Proof.
  induction m as [|[k' b'] r IH]; simpl; [reflexivity|].
  destruct (intent_eqb k' k); [discriminate|]. intros H. now rewrite IH.
Qed.

Lemma map_get_appended (k : IntentType) (b : Multi.IntentBucket) (m : Multi.BucketMap) :
  Multi.map_get k m = None -> Multi.map_get k (m ++ [(k, b)])%list = Some b.
Proof.
  induction m as [|[k' b'] r IH]; simpl.
  - intros _. now rewrite (proj2 (intent_eqb_eq k k) eq_refl).
  - destruct (intent_eqb k' k); [discriminate|]. exact IH.
Qed.

Lemma map_set_appended (k : IntentType) (b b' : Multi.IntentBucket)
      (m : Multi.BucketMap) :
  Multi.map_get k m = None ->
  Multi.map_set k b' (m ++ [(k, b)])%list = (m ++ [(k, b')])%list.
Proof.
  induction m as [|[k' b0] r IH]; simpl.
  - intros _. now rewrite (proj2 (intent_eqb_eq k k) eq_refl).
  - destruct (intent_eqb k' k); [discriminate|]. intros H. now rewrite IH.
Qed.

Lemma map_set_keys (k : IntentType) (b b' : Multi.IntentBucket)
      (m : Multi.BucketMap) :
  Multi.map_get k m = Some b' -> map fst (Multi.map_set k b m) = map fst m.
Proof.
  induction m as [|[k' b0] r IH]; simpl; [discriminate|].
  destruct (intent_eqb k' k) eqn:E.
  - apply intent_eqb_eq in E. now subst.
  - intros H. simpl. now rewrite IH.
Qed.

Lemma map_set_In (k : IntentType) (b : Multi.IntentBucket) (m : Multi.BucketMap)
      (k' : IntentType) (b' : Multi.IntentBucket) :
  NoDup (map fst m) ->
  In (k', b') (Multi.map_set k b m) ->
  (k' = k /\ b' = b) \/ (k' <> k /\ In (k', b') m).
Proof.
  induction m as [|[k0 b0] r IH]; simpl; intros N H.
  - destruct H as [H|[]]. inversion H. auto.
  - inversion N as [|? ? Hnotin N']; subst.
    destruct (intent_eqb k0 k) eqn:E.
    + apply intent_eqb_eq in E. subst k0.
      destruct H as [H|H]; [inversion H; auto|].
      right. split; [|now right]. intros ->. apply Hnotin.
      change k with (fst (k, b')). now apply in_map.
    + destruct H as [H|H].
      * inversion H; subst. right. split; [|now left]. intros ->.
        assert (T : intent_eqb k k = true) by now apply intent_eqb_eq.
        congruence.
      * destruct (IH N' H) as [?|[? ?]]; auto.
Qed.

Lemma items_of_intent_snoc (k : IntentType) (its : list IntentItem)
      (item : IntentItem) :
  items_of_intent k (its ++ [item])%list
  = (items_of_intent k its
     ++ if intent_eqb (intent item) k then [item] else [])%list.
Proof. unfold items_of_intent. rewrite filter_app. reflexivity. Qed.

Lemma bucket_for_other (k : IntentType) (its : list IntentItem)
      (item : IntentItem) (b : Multi.IntentBucket) :
  k <> intent item -> bucket_for k its b -> bucket_for k (its ++ [item])%list b.
Proof.
  intros Hne [B1 [B2 B3]]. split; [exact B1|]. split; [|exact B3].
  rewrite items_of_intent_snoc.
  destruct (intent_eqb (intent item) k) eqn:E.
  - apply intent_eqb_eq in E. congruence.
  - now rewrite app_nil_r.
Qed.

Lemma split_step_invariant (its : list IntentItem) (m : Multi.BucketMap)
      (item : IntentItem) :
  split_invariant its m ->
  split_invariant (its ++ [item])%list (Multi.split_step m item).
Proof.
  intros [N [B C]]. unfold Multi.split_step, Multi.map_has.
  assert (T : intent_eqb (intent item) (intent item) = true)
    by now apply intent_eqb_eq.
  destruct (Multi.map_get (intent item) m) as [b|] eqn:G; cbn [negb].
  - (* the bucket exists *)
    rewrite G. pose proof (map_get_In _ _ _ G) as Hb.
    destruct (B _ _ Hb) as [B1 [B2 [B3 [B4 B5]]]].
    split; [|split].
    + now rewrite (map_set_keys _ _ b).
    + intros k b' H. apply map_set_In in H; [|exact N].
      destruct H as [[-> ->]|[Hne H]].
      * unfold bucket_for. cbn. rewrite items_of_intent_snoc, T, B2.
        repeat split; auto. intros E. now apply app_eq_nil in E.
      * apply bucket_for_other; auto.
    + intros x Hx. rewrite (map_set_keys _ _ b); [|exact G].
      apply in_app_or in Hx. destruct Hx as [Hx|[<-|[]]]; [now apply C|].
      change (intent item) with (fst (intent item, b)). now apply in_map.
  - (* a new bucket is appended *)
    rewrite (map_set_absent _ _ _ G), (map_get_appended _ _ _ G),
            (map_set_appended _ _ _ _ G).
    pose proof (proj1 (map_get_None _ _) G) as Hnew.
    split; [|split].
    + rewrite map_app. simpl. apply NoDup_app; [exact N| |].
      * repeat constructor. intros [].
      * intros x Hx [<-|[]]. contradiction.
    + intros k b' H. apply in_app_or in H. destruct H as [H|[H|[]]].
      * apply bucket_for_other; [|now apply B].
        intros ->. apply Hnew.
        change (intent item) with (fst (intent item, b')). now apply in_map.
      * inversion H; subst. unfold bucket_for. cbn.
        rewrite items_of_intent_snoc, T.
        assert (E : items_of_intent (intent item) its = []).
        { unfold items_of_intent.
          destruct (filter _ its) as [|x r] eqn:F; [reflexivity|].
          exfalso. apply Hnew.
          assert (Hx : In x (filter (fun i => intent_eqb (intent i) (intent item)) its))
            by (rewrite F; now left).
          apply filter_In in Hx. destruct Hx as [Hx Ex].
          apply intent_eqb_eq in Ex. rewrite <- Ex. now apply C. }
        rewrite E. repeat split; auto. discriminate.
    + intros x Hx. rewrite map_app, in_app_iff. simpl.
      apply in_app_or in Hx. destruct Hx as [Hx|[<-|[]]]; auto.
Qed.

Lemma splitByIntent_invariant (its : list IntentItem) :
  split_invariant its (Multi.splitByIntent its).
Proof.
  unfold Multi.splitByIntent.
  induction its as [|item its IH] using rev_ind.
  - split; [constructor|]. split; [intros k b []|intros item []].
  - rewrite fold_left_app. simpl. now apply split_step_invariant.
Qed.

Lemma compare_buckets_positive (a b : Multi.IntentBucket) :
  JS.gtb (Multi.compare_buckets a b) 0 = true -> bucket_le b a.
Proof.
  intros H. apply gtb_true_iff in H. unfold Multi.compare_buckets in H.
  unfold bucket_le.
  destruct (Z.eqb (Multi.priority a) (Multi.priority b)) eqn:E; cbn [negb] in H.
  - apply Z.eqb_eq in E. right. split; [now symmetry|].
    apply Qlt_le_weak. apply Qlt_minus_iff. exact H.
  - apply Z.eqb_neq in E. left. unfold Qlt in H. simpl in H. lia.
Qed.

Lemma compare_buckets_not_positive (a b : Multi.IntentBucket) :
  JS.gtb (Multi.compare_buckets a b) 0 = false -> bucket_le a b.
Proof.
  intros H. apply gtb_false_iff in H. unfold Multi.compare_buckets in H.
  unfold bucket_le.
  destruct (Z.eqb (Multi.priority a) (Multi.priority b)) eqn:E; cbn [negb] in H.
  - apply Z.eqb_eq in E. right. split; [exact E|].
    apply Qnot_lt_le. intros L. apply H. apply (proj1 (Qlt_minus_iff _ _) L).
  - apply Z.eqb_neq in E. left.
    assert (L : ~ (Multi.priority b < Multi.priority a)%Z).
    { intros L. apply H. unfold Qlt. simpl. lia. }
    lia.
Qed.

Lemma sort_insert_perm (x : Multi.IntentBucket) (l : list Multi.IntentBucket) :
  Permutation (Multi.sort_insert Multi.compare_buckets x l) (x :: l).
Proof.
  induction l as [|y r IH]; simpl; [reflexivity|].
  destruct (JS.gtb _ 0); [|reflexivity].
  rewrite IH. apply perm_swap.
Qed.

Lemma array_sort_perm (l : list Multi.IntentBucket) :
  Permutation (Multi.array_sort Multi.compare_buckets l) l.
Proof.
  induction l as [|x r IH]; simpl; [reflexivity|].
  rewrite sort_insert_perm. now constructor.
Qed.

Lemma sort_insert_sorted (x : Multi.IntentBucket) (l : list Multi.IntentBucket) :
  Sorted bucket_le l ->
  Sorted bucket_le (Multi.sort_insert Multi.compare_buckets x l).
Proof.
  induction l as [|y r IH]; simpl; intros S.
  - repeat constructor.
  - destruct (JS.gtb (Multi.compare_buckets x y) 0) eqn:E.
    + apply Sorted_inv in S. destruct S as [S Hd].
      constructor; [now apply IH|].
      destruct r as [|z r']; simpl.
      * constructor. now apply compare_buckets_positive.
      * destruct (JS.gtb (Multi.compare_buckets x z) 0).
        -- constructor. now inversion Hd.
        -- constructor. now apply compare_buckets_positive.
    + constructor; [exact S|]. constructor.
      now apply compare_buckets_not_positive.
Qed.

Lemma array_sort_sorted (l : list Multi.IntentBucket) :
  Sorted bucket_le (Multi.array_sort Multi.compare_buckets l).
Proof.
  induction l as [|x r IH]; simpl; [constructor|].
  now apply sort_insert_sorted.
Qed.

Lemma fold_left_duration (l : list Multi.IntentBucket) :
  forall acc : Z,
    fold_left (fun total bucket => (total + Multi.duration_of bucket)%Z) l acc
    = (acc + fold_right Z.add 0%Z (map Multi.duration_of l))%Z.
Proof.
  induction l as [|b r IH]; intros acc; simpl; [lia|]. rewrite IH. lia.
Qed.

Lemma split_values_intents (its : list IntentItem) (m : Multi.BucketMap) :
  split_invariant its m -> map Multi.intent (map snd m) = map fst m.
Proof.
  intros [_ [B _]]. induction m as [|[k b] r IH]; [reflexivity|].
  simpl. f_equal.
  - exact (proj1 (B k b (or_introl eq_refl))).
  - apply IH. intros k' b' H. apply B. now right.
Qed.

(** What [createProcessingPlan] builds in general: one bucket for each
    intent that occurs, holding the items of that intent in their order
    and the mean of their confidences; the buckets ordered by rank, then
    by falling confidence; [multiIntent] set exactly when two items
    differ in intent; the duration summed over the buckets with
    [duration_of], which counts one minute where the table has 0. *)
Lemma createProcessingPlan_spec (its : list IntentItem) :
  let plan := Multi.createProcessingPlan its in
  Sorted bucket_le (Multi.buckets plan)
  /\ NoDup (map Multi.intent (Multi.buckets plan))
  /\ (forall b, In b (Multi.buckets plan) -> bucket_for (Multi.intent b) its b)
  /\ (forall item, In item its ->
        exists b, In b (Multi.buckets plan) /\ Multi.intent b = intent item)
  /\ (Multi.multiIntent plan = true <-> several_intents its)
  /\ Multi.totalItems plan = List.length its
  /\ Multi.processingOrder plan = map Multi.intent (Multi.buckets plan)
  /\ Multi.estimatedDuration plan
     = fold_right Z.add 0%Z (map Multi.duration_of (Multi.buckets plan)).
Proof.
  cbv zeta. unfold Multi.createProcessingPlan. cbn.
  unfold Multi.prioritizeIntents, Multi.map_values.
  pose proof (splitByIntent_invariant its) as Inv.
  pose proof (split_values_intents _ _ Inv) as Keys.
  destruct Inv as [N [B C]].
  pose proof (array_sort_perm (map snd (Multi.splitByIntent its))) as P.
  assert (Hb : forall b, In b (map snd (Multi.splitByIntent its)) ->
                         bucket_for (Multi.intent b) its b).
  { intros b Hin. apply in_map_iff in Hin. destruct Hin as [[k b'] [E Hin]].
    simpl in E. subst b'. pose proof (B k b Hin) as H.
    rewrite (proj1 H). exact H. }
  split; [apply array_sort_sorted|]. split; [|split; [|split; [|split]]].
  - apply (Permutation_NoDup (l := map fst (Multi.splitByIntent its)));
      [|exact N].
    rewrite <- Keys. apply Permutation_map. now symmetry.
  - intros b Hin. apply Hb. now apply (Permutation_in _ P).
  - intros item Hin. apply C in Hin. rewrite <- Keys in Hin.
    apply in_map_iff in Hin. destruct Hin as [b [E Hin]].
    exists b. split; [|exact E]. apply (Permutation_in _ (Permutation_sym P) Hin).
  - split.
    + intros L.
      destruct (Multi.splitByIntent its) as [|[k1 b1] [|[k2 b2] r]];
        simpl in L; try discriminate.
      destruct (B k1 b1 (or_introl eq_refl)) as [_ [I1 [Ne1 _]]].
      destruct (B k2 b2 (or_intror (or_introl eq_refl))) as [_ [I2 [Ne2 _]]].
      rewrite I1 in Ne1. rewrite I2 in Ne2.
      destruct (items_of_intent k1 its) as [|x1 l1] eqn:F1; [congruence|].
      destruct (items_of_intent k2 its) as [|x2 l2] eqn:F2; [congruence|].
      assert (H1 : In x1 (items_of_intent k1 its)) by (rewrite F1; now left).
      assert (H2 : In x2 (items_of_intent k2 its)) by (rewrite F2; now left).
      apply filter_In in H1, H2. destruct H1 as [H1 E1], H2 as [H2 E2].
      apply intent_eqb_eq in E1, E2.
      exists x1, x2. split; [exact H1|]. split; [exact H2|].
      rewrite E1, E2. simpl in N. inversion N as [|? ? Hnotin _]; subst.
      intros Heq. apply Hnotin. rewrite Heq. now left.
    + intros [a [b [Ha [Hb' Hab]]]].
      rewrite <- (length_map fst).
      apply (two_elements_length _ (intent a) (intent b)); auto.
  - split; [reflexivity|]. split; [reflexivity|].
    now rewrite fold_left_duration.
Qed.

(* ===================================================================== *)
(** * Further properties of the code *)
(* ===================================================================== *)

(** ** gates.ts *)

Lemma emergency_items_cases (its : list IntentItem) :
  (filter Gates.is_emergency_item its = []
   /\ forall item, In item its -> ~ emergency_item item)
  \/ (exists item, In item its /\ emergency_item item).
Proof.
  destruct (filter Gates.is_emergency_item its) as [|x r] eqn:F.
  - left. split; [reflexivity|]. intros item Hin Hem.
    apply is_emergency_item_iff in Hem.
    assert (H : In item (filter Gates.is_emergency_item its))
      by (apply filter_In; auto).
    rewrite F in H. destruct H.
  - right. exists x.
    assert (H : In x (filter Gates.is_emergency_item its))
      by (rewrite F; now left).
    apply filter_In in H. destruct H as [H1 H2].
    split; [exact H1|]. now apply is_emergency_item_iff.
Qed.

(** What [checkForEmergency] answers, by cases. *)
Lemma checkForEmergency_cases (cfg : Gates.GateConfig) (resp : IntentResponse)
      (originalText : option string) :
  (Gates.checkForEmergency cfg resp originalText = None
   /\ no_emergency_item resp
   /\ forall text, originalText = Some text -> text <> EmptyString ->
                   ~ mentions_keyword cfg text)
  \/ (exists its reason urgency,
        Gates.checkForEmergency cfg resp originalText
        = Some (Gates.EMERGENCY its reason urgency)
        /\ (forall item, In item its -> emergency_item item)
        /\ ((exists item, In item (items resp) /\ emergency_item item)
            \/ exists text, originalText = Some text /\ text <> EmptyString
                            /\ mentions_keyword cfg text)).
Proof.
  unfold Gates.checkForEmergency.
  destruct (emergency_items_cases (items resp)) as [[F Hno]|[item [Hin Hem]]].
  - rewrite F. cbn [List.length Nat.eqb negb].
    destruct originalText as [text|].
    + destruct (JS.truthy (Some text)) eqn:T.
      * destruct (Gates.found_keywords cfg text) as [|k r] eqn:K.
        -- left. cbn. split; [reflexivity|]. split; [exact Hno|].
           intros text' E _ Hm. inversion E; subst text'.
           exact (found_keywords_nonempty cfg text Hm K).
        -- right. cbn [List.length Nat.eqb negb].
           do 3 eexists. split; [reflexivity|]. split.
           ++ intros x [<-|[]]. left. reflexivity.
           ++ right. exists text. split; [reflexivity|].
              assert (Hk : In k (Gates.found_keywords cfg text))
                by (rewrite K; now left).
              unfold Gates.found_keywords in Hk. apply filter_In in Hk.
              split.
              ** intros ->. simpl in T. discriminate.
              ** exists k. exact Hk.
      * left. split; [reflexivity|]. split; [exact Hno|].
        intros text' E Hne _. inversion E; subst text'.
        simpl in T. apply negb_false_iff in T. apply String.eqb_eq in T.
        contradiction.
    + left. split; [reflexivity|]. split; [exact Hno|].
      intros text E. discriminate.
  - assert (Hf : In item (filter Gates.is_emergency_item (items resp))).
    { apply filter_In. split; [exact Hin|]. now apply is_emergency_item_iff. }
    destruct (filter Gates.is_emergency_item (items resp)) as [|x r] eqn:F;
      [destruct Hf|].
    right. cbn [List.length Nat.eqb negb]. do 3 eexists.
    split; [reflexivity|]. split.
    + intros y Hy. rewrite <- F in Hy. apply filter_In in Hy.
      now apply is_emergency_item_iff.
    + left. eauto.
Qed.

(** The decision when [checkForEmergency] finds nothing. *)
Lemma gate_without_emergency (cfg : Gates.GateConfig) (resp : IntentResponse)
      (originalText : option string) :
  Gates.checkForEmergency cfg resp originalText = None ->
  let d := Gates.gate cfg resp originalText in
  GatesRest.action d <> GatesRest.act_EMERGENCY
  /\ GatesRest.decision_items d = items resp
  /\ GatesRest.decision_confidence d = Some (max_confidence (overall resp)).
Proof.
  intros H. cbv zeta. unfold Gates.gate. rewrite H.
  destruct (requires_human (overall resp)); [cbn; repeat split; discriminate|].
  destruct (JS.geb _ (Gates.autoProcessThreshold cfg)).
  - destruct (Nat.eqb _ 0); cbn; repeat split; discriminate.
  - destruct (JS.geb _ (Gates.confirmThreshold cfg));
      cbn; repeat split; discriminate.
Qed.

(** X1: [gate] answers EMERGENCY exactly when some item has intent
    [notfall] or next action [notfall_protokoll], or a non-empty raw
    text is given that contains a configured keyword, letter case
    ignored. *)
Theorem gate_emergency_iff :
  forall (cfg : Gates.GateConfig) (resp : IntentResponse)
         (originalText : option string),
    GatesRest.action (Gates.gate cfg resp originalText) = GatesRest.act_EMERGENCY
    <-> (exists item, In item (items resp) /\ emergency_item item)
        \/ (exists text, originalText = Some text /\ text <> EmptyString
                         /\ mentions_keyword cfg text).
Proof.
  intros cfg resp originalText.
  destruct (checkForEmergency_cases cfg resp originalText)
    as [[N [Hno Hkw]]|[its [reason [u [E [_ Hwhy]]]]]].
  - split.
    + intros H. exfalso.
      exact (proj1 (gate_without_emergency cfg resp originalText N) H).
    + intros [[item [Hin Hem]]|[text [E [Hne Hm]]]].
      * exfalso. exact (Hno item Hin Hem).
      * exfalso. exact (Hkw text E Hne Hm).
  - split; [intros _; exact Hwhy|]. intros _.
    unfold Gates.gate. rewrite E. reflexivity.
Qed.

(** X2: an EMERGENCY decision carries emergency items only (the other
    items of the message are not passed on) and no confidence; every
    other decision carries all items of the response and its declared
    [max_confidence]. *)
Theorem gate_decision_payload :
  forall (cfg : Gates.GateConfig) (resp : IntentResponse)
         (originalText : option string),
    let d := Gates.gate cfg resp originalText in
    (GatesRest.action d = GatesRest.act_EMERGENCY ->
     (forall item, In item (GatesRest.decision_items d) -> emergency_item item)
     /\ GatesRest.decision_items d <> []
     /\ GatesRest.decision_confidence d = None)
    /\ (GatesRest.action d <> GatesRest.act_EMERGENCY ->
        GatesRest.decision_items d = items resp
        /\ GatesRest.decision_confidence d = Some (max_confidence (overall resp))).
Proof.
  intros cfg resp originalText. cbv zeta.
  pose proof (gate_without_emergency cfg resp originalText) as G.
  destruct (checkForEmergency_cases cfg resp originalText)
    as [[N _]|[its [reason [u [E [Hall _]]]]]].
  - specialize (G N). cbv zeta in G. split.
    + intros H. exfalso. exact (proj1 G H).
    + intros _. exact (proj2 G).
  - assert (D : Gates.gate cfg resp originalText = Gates.EMERGENCY its reason u).
    { unfold Gates.gate. now rewrite E. }
    rewrite D. cbn. split.
    + intros _. split; [exact Hall|]. split; [|reflexivity].
      clear D G. unfold Gates.checkForEmergency in E.
      destruct (filter Gates.is_emergency_item (items resp)) as [|x r].
      * cbn in E. destruct originalText as [text|]; [|discriminate].
        destruct (JS.truthy (Some text)); [|discriminate].
        destruct (Gates.found_keywords cfg text); cbn in E; [discriminate|].
        inversion E. discriminate.
      * cbn in E. inversion E. discriminate.
    + intros H. exfalso. now apply H.
Qed.

Lemma gate_decision_payload_witness :
  GatesRest.action
    (Gates.gate Gates.DEFAULT_CONFIG Samples.emergency_among_nine None)
  = GatesRest.act_EMERGENCY
  /\ (forall item,
        In item (GatesRest.decision_items
                   (Gates.gate Gates.DEFAULT_CONFIG
                               Samples.emergency_among_nine None)) ->
        emergency_item item)
  /\ GatesRest.action
       (Gates.gate Gates.DEFAULT_CONFIG (Samples.info_at (9 # 10)) None)
     <> GatesRest.act_EMERGENCY
  /\ GatesRest.decision_items
       (Gates.gate Gates.DEFAULT_CONFIG (Samples.info_at (9 # 10)) None)
     = items (Samples.info_at (9 # 10)).
Proof.
  assert (H1 : GatesRest.action
                 (Gates.gate Gates.DEFAULT_CONFIG Samples.emergency_among_nine
                             None) = GatesRest.act_EMERGENCY) by reflexivity.
  assert (H2 : GatesRest.action
                 (Gates.gate Gates.DEFAULT_CONFIG (Samples.info_at (9 # 10))
                             None) <> GatesRest.act_EMERGENCY) by discriminate.
  split; [exact H1|]. split.
  - exact (proj1 (proj1 (gate_decision_payload Gates.DEFAULT_CONFIG
                           Samples.emergency_among_nine None) H1)).
  - split; [exact H2|].
    exact (proj1 (proj2 (gate_decision_payload Gates.DEFAULT_CONFIG
                           (Samples.info_at (9 # 10)) None) H2)).
Defined.

Lemma all_present_iff (s : IntentSlots) (req : list string) :
  GatesRest.all_present s req = true
  <-> forall slot, In slot req -> Gates.slot_missing (get_slot s slot) = false.
Proof.
  induction req as [|r req IH]; simpl.
  - split; [intros _ slot []|reflexivity].
  - destruct (Gates.slot_missing (get_slot s r)) eqn:E.
    + split; [discriminate|]. intros H.
      specialize (H r (or_introl eq_refl)). congruence.
    + rewrite IH. split.
      * intros H slot [<-|Hin]; auto.
      * intros H slot Hin. apply H. now right.
Qed.

Lemma isItemComplete_iff (cfg : Gates.GateConfig) (item : IntentItem) :
  GatesRest.isItemComplete cfg item = true
  <-> forall slot, ~ missing_required cfg item slot.
Proof.
  unfold GatesRest.isItemComplete, missing_required. rewrite all_present_iff.
  split.
  - intros H slot [Hin Hm]. rewrite (H slot Hin) in Hm. discriminate.
  - intros H slot Hin.
    destruct (Gates.slot_missing (get_slot (slots item) slot)) eqn:E;
      [|reflexivity].
    exfalso. apply (H slot). split; assumption.
Qed.

Lemma findMissingSlots_nil_iff (cfg : Gates.GateConfig) (its : list IntentItem) :
  Gates.findMissingSlots cfg its = []
  <-> forallb (GatesRest.isItemComplete cfg) its = true.
Proof.
  rewrite forallb_forall. split.
  - intros E item Hin. apply isItemComplete_iff. intros slot Hm.
      assert (H : In slot (Gates.findMissingSlots cfg its))
        by (apply findMissingSlots_In; eauto).
      rewrite E in H. destruct H.
  - intros H.
      destruct (Gates.findMissingSlots cfg its) as [|y r] eqn:E; [reflexivity|].
      assert (Hy : In y (Gates.findMissingSlots cfg its))
        by (rewrite E; now left).
      apply findMissingSlots_In in Hy. destruct Hy as [item [Hin Hm]].
      exfalso. exact (proj1 (isItemComplete_iff cfg item) (H item Hin) y Hm).
Qed.

Lemma findMissingSlots_NoDup (cfg : Gates.GateConfig) (its : list IntentItem) :
  NoDup (Gates.findMissingSlots cfg its).
Proof.
  - unfold Gates.findMissingSlots.
    assert (A : forall (x : string) (s : list string),
               NoDup s -> NoDup (Gates.set_add x s)).
    { intros x s N. unfold Gates.set_add.
      destruct (existsb (String.eqb x) s) eqn:E; [exact N|].
      apply NoDup_app; [exact N | repeat constructor; intros [] |].
      intros y Hy [<-|[]].
      assert (T : existsb (String.eqb x) s = true).
      { apply existsb_exists. exists x. split; [exact Hy|apply String.eqb_refl]. }
      congruence. }
    assert (B : forall (s : IntentSlots) (req acc : list string),
               NoDup acc ->
               NoDup (fold_left
                        (fun acc requiredSlot =>
                           if Gates.slot_missing (get_slot s requiredSlot)
                           then Gates.set_add requiredSlot acc else acc)
                        req acc)).
    { intros s req. induction req as [|r req IH]; intros acc N; simpl;
        [exact N|].
      apply IH. destruct (Gates.slot_missing (get_slot s r)); auto. }
    assert (C : forall acc, NoDup acc ->
                            NoDup (fold_left (Gates.missing_of_item cfg) its acc)).
    { induction its as [|a its IH]; intros acc N; simpl; [exact N|].
      apply IH. unfold Gates.missing_of_item. now apply B. }
    apply C. constructor.
Qed.

(** X3: [findMissingSlots] returns the empty list exactly when every
    item passes [isItemComplete]; a slot name it returns is listed once,
    however many items lack it. *)
Theorem findMissingSlots_empty_iff_complete :
  forall (cfg : Gates.GateConfig) (its : list IntentItem),
    (Gates.findMissingSlots cfg its = []
     <-> forallb (GatesRest.isItemComplete cfg) its = true)
    /\ NoDup (Gates.findMissingSlots cfg its).
Proof.
  intros cfg its. split.
  - apply findMissingSlots_nil_iff.
  - apply findMissingSlots_NoDup.
Qed.

(** X4: [gate] answers AUTO_PROCESS only when the response does not ask
    for a human, its declared confidence reaches the configured
    threshold, every item passes [isItemComplete], and neither an
    emergency item nor a keyword hit is present. *)
Theorem gate_auto_process_only_if :
  forall (cfg : Gates.GateConfig) (resp : IntentResponse)
         (originalText : option string)
         (its : list IntentItem) (c : Q) (reason : string),
    Gates.gate cfg resp originalText = Gates.AUTO_PROCESS its c reason ->
    requires_human (overall resp) = false
    /\ (Gates.autoProcessThreshold cfg <= max_confidence (overall resp))%Q
    /\ forallb (GatesRest.isItemComplete cfg) (items resp) = true
    /\ no_emergency_item resp
    /\ (forall text, originalText = Some text -> text <> EmptyString ->
                     ~ mentions_keyword cfg text)
    /\ its = items resp /\ c = max_confidence (overall resp).
Proof.
  intros cfg resp originalText its c reason H.
  destruct (checkForEmergency_cases cfg resp originalText)
    as [[N [Hno Hkw]]|[its' [r' [u [E _]]]]].
  - unfold Gates.gate in H. rewrite N in H.
    destruct (requires_human (overall resp)); [discriminate|].
    destruct (JS.geb _ (Gates.autoProcessThreshold cfg)) eqn:G.
    + destruct (Nat.eqb _ 0) eqn:L; [|discriminate].
      inversion H; subst. apply geb_true_iff in G. apply length_eqb_0 in L.
      repeat split; auto.
      now apply findMissingSlots_nil_iff.
    + destruct (JS.geb _ (Gates.confirmThreshold cfg)); discriminate.
  - unfold Gates.gate in H. rewrite E in H. discriminate.
Qed.

Lemma gate_auto_process_only_if_witness :
  Gates.gate Gates.DEFAULT_CONFIG (Samples.info_at (85 # 100)) None
  = Gates.AUTO_PROCESS (items (Samples.info_at (85 # 100))) (85 # 100)
      ("Hohe Konfidenz und alle Slots verf" ++ JS.uuml ++ "gbar")
  /\ forallb (GatesRest.isItemComplete Gates.DEFAULT_CONFIG)
             (items (Samples.info_at (85 # 100))) = true.
Proof.
  split; [reflexivity|].
  exact (proj1 (proj2 (proj2 (gate_auto_process_only_if Gates.DEFAULT_CONFIG
           (Samples.info_at (85 # 100)) None _ _ _ eq_refl)))).
Defined.

(** X5: on a decision of [gate], [requiresFollowUp] is true exactly for
    ASK_CONFIRM: the reason [gate] gives to AUTO_PROCESS never contains
    the word the second test looks for. *)
Theorem requiresFollowUp_of_gate :
  forall (cfg : Gates.GateConfig) (resp : IntentResponse)
         (originalText : option string),
    GatesRest.requiresFollowUp (Gates.gate cfg resp originalText) = true
    <-> GatesRest.action (Gates.gate cfg resp originalText)
        = GatesRest.act_ASK_CONFIRM.
Proof.
  intros cfg resp originalText. unfold Gates.gate.
  destruct (Gates.checkForEmergency cfg resp originalText) as [d|] eqn:E.
  - destruct (checkForEmergency_cases cfg resp originalText)
      as [[N _]|[its [r [u [E' _]]]]]; [congruence|].
    rewrite E in E'. inversion E'; subst. cbn. split; discriminate.
  - destruct (requires_human (overall resp)); [cbn; split; discriminate|].
    destruct (JS.geb _ (Gates.autoProcessThreshold cfg)).
    + destruct (Nat.eqb _ 0); cbn.
      * split; [|discriminate]. vm_compute. discriminate.
      * split; reflexivity.
    + destruct (JS.geb _ (Gates.confirmThreshold cfg)); cbn;
        split; try reflexivity; discriminate.
Qed.




Lemma intent_urgency_bounds (item : IntentItem) :
  (2 # 10 <= GatesRest.intent_urgency item)%Q
  /\ (GatesRest.intent_urgency item <= 1)%Q.
Proof.
  unfold GatesRest.intent_urgency.
  destruct (intent item); try (split; lra).
  destruct (dringlichkeit (slots item)) as [[]|]; split; lra.
Qed.

Lemma Math_min_spec (a : Q) :
  (GatesRest.Math_min a 1 <= 1)%Q
  /\ (forall lo, (lo <= a)%Q -> (lo <= 1)%Q -> (lo <= GatesRest.Math_min a 1)%Q).
Proof.
  unfold GatesRest.Math_min. destruct (Qle_bool a 1) eqn:E.
  - apply Qle_bool_iff in E. split; [exact E|]. auto.
  - split; [lra|]. auto.
Qed.

(** The score before [Math.min] is at least the part that comes from the
    intent. *)
Lemma assessUrgency_raw (item : IntentItem) (originalText : option string) :
  exists raw : Q,
    GatesRest.assessUrgency item originalText = GatesRest.Math_min raw 1
    /\ (GatesRest.intent_urgency item <= raw)%Q.
Proof.
  unfold GatesRest.assessUrgency.
  set (s1 := (0 + GatesRest.intent_urgency item)%Q).
  assert (H1 : (GatesRest.intent_urgency item <= s1)%Q) by (unfold s1; lra).
  set (s2 := match originalText with
             | Some text =>
               if JS.truthy originalText
               then (s1 + inject_Z (Z.of_nat (List.length
                       (filter (fun keyword =>
                                  JS.includes (JS.toLowerCase text) keyword)
                               GatesRest.urgentKeywords))) * (2 # 10))%Q
               else s1
             | None => s1
             end).
  assert (H2 : (s1 <= s2)%Q).
  { unfold s2. destruct originalText as [text|]; [|lra].
    destruct (JS.truthy (Some text)); [|lra].
    assert (P : (0 <= inject_Z (Z.of_nat (List.length
                   (filter (fun keyword =>
                              JS.includes (JS.toLowerCase text) keyword)
                           GatesRest.urgentKeywords))))%Q).
    { unfold Qle. simpl. lia. }
    nra. }
  eexists. split; [reflexivity|].
  destruct (JS.truthy (datum (slots item)) || JS.truthy (zeit (slots item)));
    [destruct (JS.includes _ "heute" || JS.includes _ "sofort")|]; lra.
Qed.

(** X7: the urgency score of [assessUrgency] always lies between 0.2 and
    1, and it is 1 for every item of intent [notfall], whatever the text
    and the slots are. *)
Theorem assessUrgency_bounds :
  forall (item : IntentItem) (originalText : option string),
    (2 # 10 <= GatesRest.assessUrgency item originalText)%Q
    /\ (GatesRest.assessUrgency item originalText <= 1)%Q
    /\ (intent item = notfall ->
        (GatesRest.assessUrgency item originalText == 1)%Q).
Proof.
  intros item originalText.
  destruct (assessUrgency_raw item originalText) as [raw [E Hraw]].
  rewrite E. destruct (Math_min_spec raw) as [Hle Hge].
  destruct (intent_urgency_bounds item) as [Hlo _].
  split; [apply Hge; lra|]. split; [exact Hle|].
  intros Hn. apply Qle_antisym; [exact Hle|].
  apply Hge; [|lra]. unfold GatesRest.intent_urgency in Hraw.
  rewrite Hn in Hraw. exact Hraw.
Qed.

Lemma assessUrgency_bounds_witness :
  intent (Samples.item_of notfall (1 # 10) Samples.no_slots rueckfrage_senden)
  = notfall
  /\ (GatesRest.assessUrgency
        (Samples.item_of notfall (1 # 10) Samples.no_slots rueckfrage_senden)
        (Some "Bitte sofort und dringend") == 1)%Q.
Proof.
  split; [reflexivity|].
  exact (proj2 (proj2 (assessUrgency_bounds
           (Samples.item_of notfall (1 # 10) Samples.no_slots rueckfrage_senden)
           (Some "Bitte sofort und dringend"))) eq_refl).
Defined.

(** ** validate.ts *)

Lemma z_number_0_1_accepts (path : string) (q : Q) :
  in_unit_interval q ->
  Validate.z_number_0_1 path (Some (Validate.JNum q)) = inr q.
Proof.
  intros [H0 H1]. unfold Validate.z_number_0_1.
  rewrite (proj2 (geb_true_iff q 0) H0), (proj2 (geb_true_iff 1 q) H1).
  reflexivity.
Qed.

Lemma z_number_0_1_rejects (path : string) (q : Q) :
  ~ in_unit_interval q ->
  exists e, Validate.z_number_0_1 path (Some (Validate.JNum q)) = inl e.
Proof.
  intros H. unfold Validate.z_number_0_1.
  destruct (JS.geb q 0) eqn:E0; cbn [negb]; [|eexists; reflexivity].
  destruct (JS.geb 1 q) eqn:E1; cbn [negb]; [|eexists; reflexivity].
  exfalso. apply H. apply geb_true_iff in E0, E1. split; assumption.
Qed.

Lemma Slots_accepts (path : string) (s : IntentSlots) :
  Validate.Slots path (Some (ValidateRest.json_of_slots s)) = inr s.
Proof.
  destruct s as [d z dr g p gb v m sy k f].
  destruct d, z, dr as [[]|], g, p, gb, v as [[]|], m, sy, k, f; reflexivity.
Qed.

Lemma IntentItemSchema_accepts (item : IntentItem) :
  in_unit_interval (confidence item) ->
  Validate.IntentItemSchema (ValidateRest.json_of_item item) = inr item.
Proof.
  intros H. destruct item as [i c s a n]. cbn [confidence] in H.
  unfold Validate.IntentItemSchema, ValidateRest.json_of_item.
  cbn [intent confidence slots next_action notes Validate.z_object Exn.bind
       Exn.ret].
  change (Validate.field "confidence" _) with (Some (Validate.JNum c)).
  change (Validate.field "slots" _) with (Some (ValidateRest.json_of_slots s)).
  rewrite (z_number_0_1_accepts _ c H), Slots_accepts.
  destruct i, a; reflexivity.
Qed.

Lemma IntentItemSchema_rejects (item : IntentItem) :
  ~ in_unit_interval (confidence item) ->
  exists e, Validate.IntentItemSchema (ValidateRest.json_of_item item) = inl e.
Proof.
  intros H. destruct item as [i c s a n]. cbn [confidence] in H.
  unfold Validate.IntentItemSchema, ValidateRest.json_of_item.
  cbn [intent confidence slots next_action notes Validate.z_object Exn.bind
       Exn.ret].
  change (Validate.field "confidence" _) with (Some (Validate.JNum c)).
  destruct (z_number_0_1_rejects "items[].confidence" c H) as [e E].
  rewrite E. destruct i; cbn; eexists; reflexivity.
Qed.

Lemma mapM_items_accepts (its : list IntentItem) :
  (forall item, In item its -> in_unit_interval (confidence item)) ->
  Exn.mapM Validate.IntentItemSchema (map ValidateRest.json_of_item its)
  = inr its.
Proof.
  induction its as [|a its IH]; intros H; [reflexivity|].
  cbn [map Exn.mapM]. rewrite (IntentItemSchema_accepts a (H a (or_introl eq_refl))).
  cbn [Exn.bind]. rewrite IH; [reflexivity|].
  intros item Hin. apply H. now right.
Qed.

(** The schema gives back every well-formed typed response. *)
Lemma IntentResponseSchema_accepts (r : IntentResponse) :
  items r <> [] ->
  (forall item, In item (items r) -> in_unit_interval (confidence item)) ->
  in_unit_interval (max_confidence (overall r)) ->
  Validate.IntentResponseSchema (ValidateRest.json_of_response r) = inr r.
Proof.
  intros Hne Hits Hmax.
  destruct r as [[rec prio] its [top mc multi sent human]].
  cbn [items overall max_confidence] in *.
  unfold Validate.IntentResponseSchema, ValidateRest.json_of_response.
  cbn [email_meta items overall received_at_iso priority_indicator top_intent
       max_confidence multi_intent sentiment requires_human
       Validate.z_object Exn.bind Exn.ret].
  change (Validate.field "email_meta" _)
    with (Some (Validate.JObj
                  [ ("language", Validate.JStr "de");
                    ("received_at_iso", ValidateRest.json_string_or_null rec);
                    ("priority_indicator",
                     ValidateRest.json_enum_or_null Validate.priority_name prio) ])).
  change (Validate.field "items" _)
    with (Some (Validate.JArr (map ValidateRest.json_of_item its))).
  change (Validate.field "overall" _)
    with (Some (Validate.JObj
                  [ ("top_intent", Validate.JStr (intent_name top));
                    ("max_confidence", Validate.JNum mc);
                    ("multi_intent", Validate.JBool multi);
                    ("sentiment",
                     ValidateRest.json_enum_or_null Validate.sentiment_name sent);
                    ("requires_human", Validate.JBool human) ])).
  cbn [Validate.z_object Exn.bind Exn.ret].
  change (Validate.field "max_confidence" _) with (Some (Validate.JNum mc)).
  unfold Validate.z_items. rewrite (mapM_items_accepts its Hits).
  rewrite (z_number_0_1_accepts _ mc Hmax).
  destruct its as [|x xs]; [contradiction|].
  destruct rec, prio as [[]|], top, sent as [[]|]; reflexivity.
Qed.

(** X8: the schema rejects no well-formed response: for a typed
    response with at least one item and all confidences in [0,1], the
    schema applied to its object gives the response back unchanged, and
    so does [parseIntentJSON] on a text that parses to that object, when
    the top intent is among the items. *)
Theorem IntentResponseSchema_round_trip :
  forall r : IntentResponse,
    items r <> [] ->
    (forall item, In item (items r) -> in_unit_interval (confidence item)) ->
    in_unit_interval (max_confidence (overall r)) ->
    Validate.IntentResponseSchema (ValidateRest.json_of_response r) = inr r
    /\ forall (lib : Validate.Lib) (raw : string),
        Validate.parsed_object lib raw = inr (ValidateRest.json_of_response r) ->
        top_intent_in_items r ->
        snd (Validate.parseIntentJSON lib raw) = inr r.
Proof.
  intros r Hne Hits Hmax.
  pose proof (IntentResponseSchema_accepts r Hne Hits Hmax) as A.
  split; [exact A|]. intros lib raw P Ht.
  destruct (parseIntentJSON_stages lib raw) as [_ S2].
  destruct (S2 _ P) as [_ S4]. destruct (S4 r A) as [_ S6].
  destruct (proj2 (validatePlausibility_spec r) Ht) as [ws [W _]].
  exact (proj1 (S6 ws W)).
Qed.

Lemma createEmptyResponse_well_formed (reason : string) :
  items (Validate.createEmptyResponse reason) <> []
  /\ (forall item, In item (items (Validate.createEmptyResponse reason)) ->
                   in_unit_interval (confidence item))
  /\ in_unit_interval (max_confidence (overall (Validate.createEmptyResponse reason)))
  /\ top_intent_in_items (Validate.createEmptyResponse reason).
Proof.
  split; [discriminate|]. split; [|split].
  - intros item [<-|[]]. split; cbn; lra.
  - split; cbn; lra.
  - eexists. split; [left; reflexivity | reflexivity].
Qed.

Lemma IntentResponseSchema_round_trip_witness :
  items (Validate.createEmptyResponse "Timeout") <> []
  /\ Validate.IntentResponseSchema
       (ValidateRest.json_of_response (Validate.createEmptyResponse "Timeout"))
     = inr (Validate.createEmptyResponse "Timeout").
Proof.
  destruct (createEmptyResponse_well_formed "Timeout") as [H1 [H2 [H3 _]]].
  split; [exact H1|].
  exact (proj1 (IntentResponseSchema_round_trip
                  (Validate.createEmptyResponse "Timeout") H1 H2 H3)).
Defined.

(** X9: the fallback response of [createEmptyResponse] satisfies the
    schema, passes [validatePlausibility] without a warning, and is
    never auto-processed or put up for confirmation: [gate] escalates
    it, unless the raw text triggers the keyword scan. *)
Theorem createEmptyResponse_is_escalated :
  forall (reason : string) (cfg : Gates.GateConfig)
         (originalText : option string),
    let r := Validate.createEmptyResponse reason in
    schema_valid r
    /\ Validate.validatePlausibility r = inr []
    /\ (GatesRest.action (Gates.gate cfg r originalText) = GatesRest.act_ESCALATE
        \/ GatesRest.action (Gates.gate cfg r originalText)
           = GatesRest.act_EMERGENCY)
    /\ (no_keyword_hit cfg originalText ->
        Gates.gate cfg r originalText
        = Gates.ESCALATE (items r) "LLM empfiehlt menschliche Bearbeitung"
                         (1 # 10)).
Proof.
  intros reason cfg originalText. cbv zeta.
  destruct (createEmptyResponse_well_formed reason) as [H1 [H2 [[H3 H4] H5]]].
  assert (Hno : no_emergency_item (Validate.createEmptyResponse reason)).
  { intros item [<-|[]] [H|H]; discriminate. }
  split; [|split; [reflexivity|split]].
  - unfold schema_valid. repeat split; auto; apply H2; assumption.
  - destruct (checkForEmergency_cases cfg (Validate.createEmptyResponse reason)
                originalText) as [[N _]|[its [rs [u [E _]]]]].
    + left. unfold Gates.gate. rewrite N. reflexivity.
    + right. unfold Gates.gate. rewrite E. reflexivity.
  - intros Hkw. unfold Gates.gate.
    rewrite (checkForEmergency_none _ _ _ Hno Hkw). reflexivity.
Qed.

Lemma createEmptyResponse_is_escalated_witness :
  no_keyword_hit Gates.DEFAULT_CONFIG (Some "Guten Tag, ich habe eine Frage")
  /\ Gates.gate Gates.DEFAULT_CONFIG (Validate.createEmptyResponse "Timeout")
                (Some "Guten Tag, ich habe eine Frage")
     = Gates.ESCALATE (items (Validate.createEmptyResponse "Timeout"))
                      "LLM empfiehlt menschliche Bearbeitung" (1 # 10).
Proof.
  split; [exact no_default_keyword_in_greeting|].
  exact (proj2 (proj2 (proj2 (createEmptyResponse_is_escalated "Timeout"
           Gates.DEFAULT_CONFIG (Some "Guten Tag, ich habe eine Frage"))))
           no_default_keyword_in_greeting).
Defined.

(** X10: [validateIntentItem] accepts a typed item exactly when its
    confidence lies in [0,1]. *)
Theorem validateIntentItem_iff_confidence_in_range :
  forall item : IntentItem,
    ValidateRest.validateIntentItem item = true
    <-> in_unit_interval (confidence item).
Proof.
  intros item. unfold ValidateRest.validateIntentItem. split.
  - intros H.
    destruct (Validate.IntentItemSchema (ValidateRest.json_of_item item))
      as [e|x] eqn:E; [discriminate|].
    destruct (IntentItemSchema_inr _ _ E) as [R Q].
    rewrite (Q _ (confidence item) eq_refl eq_refl). exact R.
  - intros H. now rewrite (IntentItemSchema_accepts item H).
Qed.

(** *** Cutting the object out of the reply *)

Lemma append_nil_r (s : string) : s ++ EmptyString = s.
Proof. induction s as [|c s IH]; simpl; [reflexivity|now rewrite IH]. Qed.

Lemma append_assoc (a b c : string) : (a ++ b) ++ c = a ++ (b ++ c).
Proof. induction a as [|x a IH]; simpl; [reflexivity|now rewrite IH]. Qed.

Lemma length_append (a b : string) :
  String.length (a ++ b) = String.length a + String.length b.
Proof. induction a as [|x a IH]; simpl; [reflexivity|now rewrite IH]. Qed.

Lemma rev_string_spec (s : string) :
  forall acc, JS.rev_string s acc = JS.rev_string s EmptyString ++ acc.
Proof.
  induction s as [|c s IH]; intros acc; simpl; [reflexivity|].
  rewrite (IH (String c acc)), (IH (String c EmptyString)).
  now rewrite append_assoc.
Qed.

Lemma rev_string_append (a b : string) :
  JS.rev_string (a ++ b) EmptyString
  = JS.rev_string b EmptyString ++ JS.rev_string a EmptyString.
Proof.
  induction a as [|c a IH]; simpl.
  - now rewrite append_nil_r.
  - rewrite (rev_string_spec (a ++ b)), IH, (rev_string_spec a (String c _)).
    now rewrite append_assoc.
Qed.

Lemma rev_string_involutive (s : string) :
  JS.rev_string (JS.rev_string s EmptyString) EmptyString = s.
Proof.
  induction s as [|c s IH]; simpl; [reflexivity|].
  rewrite (rev_string_spec s), rev_string_append, IH. reflexivity.
Qed.

Lemma absent_append (c : ascii) (a b : string) :
  absent c (a ++ b) <-> absent c a /\ absent c b.
Proof. induction a as [|x a IH]; simpl; [tauto|]. rewrite IH. tauto. Qed.

Lemma absent_rev (c : ascii) (s : string) :
  absent c (JS.rev_string s EmptyString) <-> absent c s.
Proof.
  induction s as [|x s IH]; simpl; [tauto|].
  rewrite rev_string_spec, absent_append, IH. simpl. tauto.
Qed.

(** [trimStart] stops at the first character that is no white space:
    what it drops is white space in front of it. *)
Lemma trimStart_before (c c0 : ascii) (p rest : string) :
  JS.is_space c0 = false ->
  absent c p ->
  exists p1,
    JS.trimStart (p ++ String c0 rest) = p1 ++ String c0 rest /\ absent c p1.
Proof.
  intros Hc0. induction p as [|x p IH]; intros Ha.
  - exists EmptyString. simpl. rewrite Hc0. split; [reflexivity|exact I].
  - simpl in Ha. destruct Ha as [Hx Ha]. simpl.
    destruct (JS.is_space x).
    + apply IH. exact Ha.
    + exists (String x p). split; [reflexivity|]. simpl. auto.
Qed.

Lemma trimEnd_after (c c0 : ascii) (front q : string) :
  JS.is_space c0 = false ->
  absent c q ->
  exists q1,
    JS.trimEnd (front ++ String c0 q) = front ++ String c0 q1 /\ absent c q1.
Proof.
  intros Hc0 Ha. unfold JS.trimEnd.
  rewrite rev_string_append. simpl JS.rev_string at 2.
  rewrite (rev_string_spec q (String c0 EmptyString)). rewrite append_assoc.
  simpl append at 2.
  destruct (trimStart_before c c0 (JS.rev_string q EmptyString)
              (JS.rev_string front EmptyString) Hc0
              (proj2 (absent_rev c q) Ha)) as [p1 [E Hp1]].
  rewrite E. exists (JS.rev_string p1 EmptyString). split.
  - rewrite rev_string_append. simpl JS.rev_string at 1.
    rewrite (rev_string_spec (JS.rev_string front EmptyString)),
            rev_string_involutive.
    now rewrite append_assoc.
  - now apply absent_rev.
Qed.

Lemma indexOf_first (c : ascii) (p rest : string) :
  absent c p ->
  Validate.indexOf c (p ++ String c rest) = Some (String.length p).
Proof.
  induction p as [|x p IH]; simpl; intros Ha.
  - now rewrite Ascii.eqb_refl.
  - destruct Ha as [Hx Ha]. rewrite (proj2 (Ascii.eqb_neq x c) Hx).
    now rewrite (IH Ha).
Qed.

Lemma lastIndexOf_absent (c : ascii) (q : string) :
  absent c q -> Validate.lastIndexOf c q = None.
Proof.
  induction q as [|x q IH]; simpl; intros Ha; [reflexivity|].
  destruct Ha as [Hx Ha]. rewrite (IH Ha).
  now rewrite (proj2 (Ascii.eqb_neq x c) Hx).
Qed.

Lemma lastIndexOf_last (c : ascii) (front q : string) :
  absent c q ->
  Validate.lastIndexOf c (front ++ String c q) = Some (String.length front).
Proof.
  intros Ha. induction front as [|x f IH]; simpl.
  - now rewrite (lastIndexOf_absent c q Ha), Ascii.eqb_refl.
  - now rewrite IH.
Qed.

Lemma substring_skip (p s : string) (n : nat) :
  String.substring (String.length p) n (p ++ s) = String.substring 0 n s.
Proof. induction p as [|x p IH]; simpl; [reflexivity|exact IH]. Qed.

Lemma substring_take (t u : string) :
  String.substring 0 (String.length t) (t ++ u) = t.
Proof.
  induction t as [|x t IH]; simpl.
  - destruct u; reflexivity.
  - now rewrite IH.
Qed.

(** X11: explanatory text around the object is cut away: when the reply
    is some text without opening brace, then an object from an opening
    to a closing brace, then some text without closing brace, and the
    trimmed reply does not start with a code fence, the text handed to
    the repair and parse steps is exactly the object. *)
Theorem extract_json_text_drops_surrounding_text :
  forall pre body post : string,
    absent "{"%char pre ->
    absent "}"%char post ->
    JS.startsWith (JS.trim (pre ++ "{" ++ body ++ "}" ++ post)) Validate.fence
    = false ->
    Validate.extract_json_text (pre ++ "{" ++ body ++ "}" ++ post)
    = "{" ++ body ++ "}".
Proof.
  intros pre body post Hpre Hpost Hfence.
  unfold Validate.extract_json_text. rewrite Hfence.
  assert (T : exists pre1 post1,
             JS.trim (pre ++ "{" ++ body ++ "}" ++ post)
             = pre1 ++ "{" ++ body ++ "}" ++ post1
             /\ absent "{"%char pre1 /\ absent "}"%char post1).
  { unfold JS.trim.
    destruct (trimStart_before "{"%char "{"%char pre (body ++ "}" ++ post)
                eq_refl Hpre) as [pre1 [E1 H1]].
    change (pre ++ "{" ++ body ++ "}" ++ post)
      with (pre ++ String "{"%char (body ++ "}" ++ post)).
    rewrite E1.
    destruct (trimEnd_after "}"%char "}"%char (pre1 ++ "{" ++ body) post
                eq_refl Hpost) as [post1 [E2 H2]].
    exists pre1, post1. split; [|split; assumption].
    replace (pre1 ++ String "{"%char (body ++ "}" ++ post))
      with ((pre1 ++ "{" ++ body) ++ String "}"%char post)
      by (now rewrite !append_assoc).
    rewrite E2. now rewrite !append_assoc. }
  destruct T as [pre1 [post1 [E [H1 H2]]]]. rewrite E.
  change (pre1 ++ "{" ++ body ++ "}" ++ post1)
    with (pre1 ++ String "{"%char (body ++ "}" ++ post1)) at 1.
  rewrite (indexOf_first "{"%char pre1 _ H1).
  replace (pre1 ++ "{" ++ body ++ "}" ++ post1)
    with ((pre1 ++ "{" ++ body) ++ String "}"%char post1) at 1
    by (now rewrite !append_assoc).
  rewrite (lastIndexOf_last "}"%char (pre1 ++ "{" ++ body) post1 H2).
  unfold Validate.substring.
  rewrite !length_append. simpl String.length.
  match goal with
  | |- context [Nat.leb ?a ?b] =>
    replace (Nat.leb a b) with true by (symmetry; apply Nat.leb_le; lia)
  end.
  match goal with
  | |- String.substring _ ?k _ = _ =>
    replace k with (String.length ("{" ++ body ++ "}"))
      by (rewrite !length_append; simpl; lia)
  end.
  rewrite substring_skip.
  replace ("{" ++ body ++ "}" ++ post1) with (("{" ++ body ++ "}") ++ post1)
    by (now rewrite !append_assoc).
  apply substring_take.
Qed.

Lemma extract_json_text_drops_surrounding_text_witness :
  absent "{"%char "Hier ist das Ergebnis: "
  /\ absent "}"%char " Ich hoffe, das hilft."
  /\ Validate.extract_json_text
       ("Hier ist das Ergebnis: " ++ "{" ++ "a: 1, b: {c: 2}" ++ "}"
        ++ " Ich hoffe, das hilft.")
     = "{" ++ "a: 1, b: {c: 2}" ++ "}".
Proof.
  assert (H1 : absent "{"%char "Hier ist das Ergebnis: ")
    by (simpl; repeat split; discriminate).
  assert (H2 : absent "}"%char " Ich hoffe, das hilft.")
    by (simpl; repeat split; discriminate).
  split; [exact H1|]. split; [exact H2|].
  exact (extract_json_text_drops_surrounding_text
           "Hier ist das Ergebnis: " "a: 1, b: {c: 2}" " Ich hoffe, das hilft."
           H1 H2 eq_refl).
Defined.

(** ** multi.ts *)

Lemma highest_fold_spec (rest : list IntentItem) :
  forall first : IntentItem,
    let best := fold_left
                  (fun highest current =>
                     if JS.gtb (confidence current) (confidence highest)
                     then current else highest)
                  rest first in
    In best (first :: rest)
    /\ forall y, In y (first :: rest) -> (confidence y <= confidence best)%Q.
Proof.
  induction rest as [|x rest IH]; intros first; cbn [fold_left].
  - cbv zeta. split; [now left|]. intros y [<-|[]]. apply Qle_refl.
  - cbv zeta.
    destruct (JS.gtb (confidence x) (confidence first)) eqn:G.
    + apply gtb_true_iff in G. destruct (IH x) as [Hin Hub]. split.
      * destruct Hin as [<-|Hin]; [right; now left | right; now right].
      * intros y [<-|[<-|Hy]].
        -- apply Qle_trans with (confidence x); [lra|]. apply Hub. now left.
        -- apply Hub. now left.
        -- apply Hub. now right.
    + apply gtb_false_iff in G. destruct (IH first) as [Hin Hub]. split.
      * destruct Hin as [<-|Hin]; [now left | right; now right].
      * intros y [<-|[<-|Hy]].
        -- apply Hub. now left.
        -- apply Qle_trans with (confidence first); [lra|]. apply Hub. now left.
        -- apply Hub. now right.
Qed.

(** X12: [findHighestConfidenceItem] returns nothing exactly on the
    empty list; otherwise it returns one of the items, and no item has a
    higher confidence than the one returned. *)
Theorem findHighestConfidenceItem_spec :
  forall its : list IntentItem,
    (MultiRest.findHighestConfidenceItem its = None <-> its = [])
    /\ forall best,
        MultiRest.findHighestConfidenceItem its = Some best ->
        In best its
        /\ (forall y, In y its -> (confidence y <= confidence best)%Q)
        /\ is_maximum (confidence best) (map confidence its).
Proof.
  intros its. unfold MultiRest.findHighestConfidenceItem.
  destruct its as [|first rest].
  - split; [tauto|]. discriminate.
  - split; [split; discriminate|].
    intros best H. inversion H as [E]; clear H.
    destruct (highest_fold_spec rest first) as [Hin Hub].
    cbv zeta in Hin, Hub. split; [exact Hin|]. split; [exact Hub|].
    split.
    + exists (confidence
                (fold_left
                   (fun highest current =>
                      if JS.gtb (confidence current) (confidence highest)
                      then current else highest) rest first)).
      split; [now apply in_map | reflexivity].
    + intros q Hq. apply in_map_iff in Hq. destruct Hq as [y [<- Hy]].
      now apply Hub.
Qed.

Lemma findHighestConfidenceItem_spec_witness :
  MultiRest.findHighestConfidenceItem (items Samples.emergency_among_nine)
  = Some (Samples.item_of allgemeine_info (99 # 100) Samples.no_slots
                          rueckfrage_senden)
  /\ In (Samples.item_of allgemeine_info (99 # 100) Samples.no_slots
                         rueckfrage_senden)
        (items Samples.emergency_among_nine).
Proof.
  assert (H : MultiRest.findHighestConfidenceItem
                (items Samples.emergency_among_nine)
              = Some (Samples.item_of allgemeine_info (99 # 100)
                                      Samples.no_slots rueckfrage_senden))
    by reflexivity.
  split; [exact H|].
  exact (proj1 (proj2 (findHighestConfidenceItem_spec
                         (items Samples.emergency_among_nine)) _ H)).
Defined.

(** *** The plan keeps every item *)

Lemma flat_items_map_set (k : IntentType) (b b' : Multi.IntentBucket)
      (item : IntentItem) (m : Multi.BucketMap) :
  Multi.map_get k m = Some b ->
  Multi.items b' = (Multi.items b ++ [item])%list ->
  Permutation (flat_map (fun e => Multi.items (snd e)) (Multi.map_set k b' m))
              (flat_map (fun e => Multi.items (snd e)) m ++ [item]).
Proof.
  intros G Hb'. induction m as [|[k0 b0] r IH]; simpl in *; [discriminate|].
  destruct (intent_eqb k0 k).
  - inversion G; subst b0. simpl. rewrite Hb'.
    rewrite <- !app_assoc. apply Permutation_app_head.
    apply Permutation_app_comm.
  - simpl. rewrite <- app_assoc. apply Permutation_app_head. now apply IH.
Qed.

Lemma split_step_keeps_items (m : Multi.BucketMap) (item : IntentItem) :
  Permutation
    (flat_map (fun e => Multi.items (snd e)) (Multi.split_step m item))
    (flat_map (fun e => Multi.items (snd e)) m ++ [item]).
Proof.
  unfold Multi.split_step, Multi.map_has.
  destruct (Multi.map_get (intent item) m) as [b|] eqn:G; cbn [negb].
  - rewrite G. apply (flat_items_map_set _ b); [exact G|reflexivity].
  - rewrite (map_set_absent _ _ _ G), (map_get_appended _ _ _ G),
            (map_set_appended _ _ _ _ G).
    rewrite flat_map_app. simpl. reflexivity.
Qed.

Lemma splitByIntent_keeps_items (its : list IntentItem) :
  Permutation (flat_map (fun e => Multi.items (snd e)) (Multi.splitByIntent its))
              its.
Proof.
  unfold Multi.splitByIntent.
  induction its as [|item its IH] using rev_ind; [reflexivity|].
  rewrite fold_left_app. simpl. rewrite split_step_keeps_items.
  now apply Permutation_app_tail.
Qed.

Lemma plan_buckets_keep_items (its : list IntentItem) :
  Permutation (flat_map Multi.items (Multi.buckets (Multi.createProcessingPlan its)))
              its.
Proof.
  unfold Multi.createProcessingPlan. cbn [Multi.buckets].
  unfold Multi.prioritizeIntents, Multi.map_values.
  rewrite (Permutation_flat_map Multi.items
             (array_sort_perm (map snd (Multi.splitByIntent its)))).
  rewrite flat_map_concat_map, map_map, <- flat_map_concat_map.
  apply splitByIntent_keeps_items.
Qed.

(** X13: the groups of a plan hold every item of the message exactly
    once: joined in processing order they are a rearrangement of the
    input, and the group sizes add up to [totalItems]. *)
Theorem groupByProcessingOrder_partitions_items :
  forall its : list IntentItem,
    let plan := Multi.createProcessingPlan its in
    Permutation (List.concat (MultiRest.groupByProcessingOrder plan)) its
    /\ List.length (List.concat (MultiRest.groupByProcessingOrder plan))
       = Multi.totalItems plan.
Proof.
  intros its. cbv zeta. unfold MultiRest.groupByProcessingOrder.
  rewrite <- flat_map_concat_map.
  pose proof (plan_buckets_keep_items its) as P.
  split; [exact P|]. now rewrite (Permutation_length P).
Qed.

Lemma priority_table_facts (k : IntentType) :
  (1 <= Multi.or_default
          (Gates.lookup (intent_name k) Multi.INTENT_PRIORITIES) 99)%Z
  /\ (Multi.or_default
        (Gates.lookup (intent_name k) Multi.INTENT_PRIORITIES) 99 = 1%Z
      <-> k = notfall).
Proof.
  destruct k; vm_compute; split; try (intros; discriminate);
    split; intros; try reflexivity; discriminate.
Qed.

Lemma bucket_le_trans (a b c : Multi.IntentBucket) :
  bucket_le a b -> bucket_le b c -> bucket_le a c.
Proof.
  unfold bucket_le. intros [H1|[H1 C1]] [H2|[H2 C2]].
  - left; lia.
  - left; lia.
  - left; lia.
  - right. split; [lia|]. lra.
Qed.

Lemma plan_head_precedes (its : list IntentItem) (h : Multi.IntentBucket)
      (t : list Multi.IntentBucket) :
  Multi.buckets (Multi.createProcessingPlan its) = h :: t ->
  forall b, In b t -> bucket_le h b.
Proof.
  intros E b Hb.
  destruct (createProcessingPlan_spec its) as [S _]. cbv zeta in S.
  rewrite E in S. apply Sorted_StronglySorted in S.
  - apply StronglySorted_inv in S. destruct S as [_ F].
    rewrite Forall_forall in F. now apply F.
  - intros x y z. apply bucket_le_trans.
Qed.

(** X14: on the buckets of a plan [findPrimaryIntent] returns the first
    bucket: an emergency bucket, having the lowest rank, already stands
    first, so the special case for [notfall] never changes the answer.
    It returns nothing exactly when there are no items. *)
Theorem findPrimaryIntent_is_first_bucket :
  forall its : list IntentItem,
    let plan := Multi.createProcessingPlan its in
    MultiRest.findPrimaryIntent (Multi.buckets plan)
    = hd_error (Multi.buckets plan)
    /\ (MultiRest.findPrimaryIntent (Multi.buckets plan) = None <-> its = []).
Proof.
  intros its. cbv zeta.
  destruct (createProcessingPlan_spec its) as [_ [_ [B [C _]]]].
  cbv zeta in B, C.
  destruct (Multi.buckets (Multi.createProcessingPlan its)) as [|h t] eqn:E.
  - split; [reflexivity|]. split; [|reflexivity]. intros _.
    destruct its as [|x r]; [reflexivity|].
    destruct (C x (or_introl eq_refl)) as [b [[] _]].
  - assert (F : find (fun bucket => intent_eqb (Multi.intent bucket) notfall)
                     (h :: t) = None
                \/ find (fun bucket => intent_eqb (Multi.intent bucket) notfall)
                        (h :: t) = Some h).
    { cbn [find]. destruct (intent_eqb (Multi.intent h) notfall) eqn:Fh;
        [now right|].
      destruct (find _ t) as [e|] eqn:Ft; [|now left]. exfalso.
      apply find_some in Ft. destruct Ft as [Hin He].
      apply intent_eqb_eq in He.
      pose proof (plan_head_precedes its h t E e Hin) as L.
      destruct (B e (or_intror Hin)) as [_ [_ [_ [_ Pe]]]].
      destruct (B h (or_introl eq_refl)) as [_ [_ [_ [_ Ph]]]].
      rewrite He in Pe.
      destruct (priority_table_facts (Multi.intent h)) as [Lo Iff].
      rewrite <- Ph in Lo, Iff.
      assert (P1 : Multi.priority e = 1%Z) by (rewrite Pe; reflexivity).
      assert (Hh : Multi.priority h = 1%Z)
        by (destruct L as [L|[L _]]; lia).
      apply Iff in Hh. apply intent_eqb_eq in Hh. congruence. }
    unfold MultiRest.findPrimaryIntent. split.
    + destruct F as [-> | ->]; reflexivity.
    + split.
      * destruct F as [-> | ->]; discriminate.
      * intros ->. discriminate.
Qed.

Lemma filter_unique_bucket (k : IntentType) (b : Multi.IntentBucket)
      (bs : list Multi.IntentBucket) :
  NoDup (map Multi.intent bs) -> In b bs -> Multi.intent b = k ->
  filter (fun bucket => intent_eqb (Multi.intent bucket) k) bs = [b].
Proof.
  intros N Hin Hk. induction bs as [|x r IH]; [destruct Hin|].
  simpl in N. inversion N as [|? ? Hnotin N']; subst.
  assert (Hrest : forall y, In y r -> Multi.intent y <> Multi.intent x).
  { intros y Hy E. apply Hnotin. rewrite <- E. now apply in_map. }
  cbn [filter]. destruct Hin as [->|Hin].
  - rewrite (proj2 (intent_eqb_eq _ _) eq_refl). f_equal.
    clear IH N N' Hnotin. induction r as [|y r IH]; [reflexivity|].
    cbn [filter]. destruct (intent_eqb (Multi.intent y) (Multi.intent b)) eqn:E.
    + apply intent_eqb_eq in E. exfalso. apply (Hrest y); [now left|exact E].
    + apply IH. intros z Hz. apply Hrest. now right.
  - destruct (intent_eqb (Multi.intent x) (Multi.intent b)) eqn:E.
    + apply intent_eqb_eq in E. exfalso. apply (Hrest b Hin). now symmetry.
    + now apply IH.
Qed.

(** X15: for the plan of a message, [suggestProcessingStrategy] answers
    [split] with one single group holding the [notfall] items, and no
    other item, as soon as one item has intent [notfall]; without such
    an item its groups together are a rearrangement of all items.  It
    answers [parallel] only for at most three compatible intents and
    [sequential] only for incompatible ones. *)
Theorem suggestProcessingStrategy_of_plan :
  forall its : list IntentItem,
    let plan := Multi.createProcessingPlan its in
    let s := MultiRest.suggestProcessingStrategy plan in
    ((exists item, In item its /\ intent item = notfall) ->
     MultiRest.strategy s = MultiRest.split
     /\ MultiRest.groups s = [items_of_intent notfall its])
    /\ ((forall item, In item its -> intent item <> notfall) ->
        Permutation (List.concat (MultiRest.groups s)) its)
    /\ (MultiRest.strategy s = MultiRest.parallel ->
        Multi.areIntentsCompatible (Multi.processingOrder plan) = true
        /\ List.length (Multi.buckets plan) <= 3)
    /\ (MultiRest.strategy s = MultiRest.sequential ->
        Multi.areIntentsCompatible (Multi.processingOrder plan) = false).
Proof.
  intros its. cbv zeta.
  destruct (createProcessingPlan_spec its) as [_ [N [B [C [_ [_ [O _]]]]]]].
  cbv zeta in N, B, C, O. rewrite O.
  pose proof (plan_buckets_keep_items its) as P.
  unfold MultiRest.suggestProcessingStrategy.
  set (bs := Multi.buckets (Multi.createProcessingPlan its)) in *.
  split; [|split; [|split]].
  - intros [item [Hin Hn]]. destruct (C item Hin) as [b [Hb Eb]].
    rewrite Hn in Eb.
    assert (X : existsb (fun bucket => intent_eqb (Multi.intent bucket) notfall)
                        bs = true).
    { apply existsb_exists. exists b. split; [exact Hb|].
      now apply intent_eqb_eq. }
    rewrite X. cbn [MultiRest.strategy MultiRest.groups]. split; [reflexivity|].
    rewrite (filter_unique_bucket notfall b bs N Hb Eb). cbn [flat_map].
    rewrite app_nil_r. f_equal.
    destruct (B b Hb) as [_ [I _]]. now rewrite I, Eb.
  - intros Hno.
    assert (X : existsb (fun bucket => intent_eqb (Multi.intent bucket) notfall)
                        bs = false).
    { destruct (existsb _ bs) eqn:X; [|reflexivity]. exfalso.
      apply existsb_exists in X. destruct X as [b [Hb Eb]].
      apply intent_eqb_eq in Eb. destruct (B b Hb) as [_ [I [Ne _]]].
      rewrite I, Eb in Ne. unfold items_of_intent in Ne.
      destruct (filter _ its) as [|x r] eqn:F; [congruence|].
      assert (Hx : In x (filter (fun i => intent_eqb (intent i) notfall) its))
        by (rewrite F; now left).
      apply filter_In in Hx. destruct Hx as [Hx Ex].
      apply intent_eqb_eq in Ex. exact (Hno x Hx Ex). }
    rewrite X.
    destruct (Nat.ltb 3 (List.length bs)); cbn [MultiRest.groups].
    + now rewrite <- flat_map_concat_map.
    + destruct (Multi.areIntentsCompatible (map Multi.intent bs));
        cbn [MultiRest.groups List.concat].
      * now rewrite app_nil_r.
      * now rewrite <- flat_map_concat_map.
  - destruct (existsb _ bs); [cbn; discriminate|].
    destruct (Nat.ltb 3 (List.length bs)) eqn:L; [cbn; discriminate|].
    destruct (Multi.areIntentsCompatible (map Multi.intent bs)); cbn;
      [|discriminate].
    intros _. split; [reflexivity|]. apply Nat.ltb_ge in L. exact L.
  - destruct (existsb _ bs); [cbn; discriminate|].
    destruct (Nat.ltb 3 (List.length bs)); [cbn; discriminate|].
    destruct (Multi.areIntentsCompatible (map Multi.intent bs)); cbn;
      [discriminate|reflexivity].
Qed.

Lemma suggestProcessingStrategy_of_plan_witness :
  (exists item, In item (items Samples.emergency_among_nine)
                /\ intent item = notfall)
  /\ MultiRest.groups
       (MultiRest.suggestProcessingStrategy
          (Multi.createProcessingPlan (items Samples.emergency_among_nine)))
     = [items_of_intent notfall (items Samples.emergency_among_nine)].
Proof.
  assert (H : exists item, In item (items Samples.emergency_among_nine)
                           /\ intent item = notfall).
  { eexists. split; [left; reflexivity | reflexivity]. }
  split; [exact H|].
  exact (proj2 (proj1 (suggestProcessingStrategy_of_plan
                         (items Samples.emergency_among_nine)) H)).
Defined.





(** ** businessHours.ts *)



Lemma ensure_initialized_idem (env env' : BusinessHours.Env)
      (st : BusinessHours.State) :
  BusinessHours.ensure_initialized env'
    (BusinessHours.ensure_initialized env st)
  = BusinessHours.ensure_initialized env st.
Proof.
  unfold BusinessHours.ensure_initialized.
  destruct (BusinessHours.initialized st) eqn:E; cbn [negb].
  - now rewrite E.
  - reflexivity.
Qed.

(** The verdict on a valid date when the day has no interval. *)
Lemma closed_day_verdict (env : BusinessHours.Env) (st : BusinessHours.State)
      (dateISO : string) (d : BusinessHours.JsDate) :
  BusinessHours.parseISO env dateISO = Some d ->
  intervals_of_day (BusinessHours.ensure_initialized env st) d = [] ->
  snd (BusinessHours.isWithinBusinessHours env st dateISO) = false.
Proof.
  intros Hp Hi.
  destruct (snd (BusinessHours.isWithinBusinessHours env st dateISO)) eqn:V;
    [|reflexivity].
  apply (isWithinBusinessHours_valid env st dateISO d Hp) in V.
  destruct V as [_ [slot [Hin _]]]. rewrite Hi in Hin. destruct Hin.
Qed.






Lemma sort_insert_perm_Z {A : Type} (cmp : A -> A -> Z) (x : A) (l : list A) :
  Permutation (BusinessHoursRest.sort_insert cmp x l) (x :: l).
Proof.
  induction l as [|y r IH]; simpl; [reflexivity|].
  destruct (Z.ltb 0 (cmp x y)); [|reflexivity].
  rewrite IH. apply perm_swap.
Qed.

Lemma array_sort_perm_Z {A : Type} (cmp : A -> A -> Z) (l : list A) :
  Permutation (BusinessHoursRest.array_sort cmp l) l.
Proof.
  induction l as [|x r IH]; simpl; [reflexivity|].
  rewrite sort_insert_perm_Z. now constructor.
Qed.

Lemma put_holiday_In (h : BusinessHours.Holiday) (hs : list BusinessHours.Holiday) :
  In h (BusinessHoursRest.put_holiday h hs)
  /\ (forall x, In x (BusinessHoursRest.put_holiday h hs) -> x = h \/ In x hs)
  /\ (forall x, In x hs ->
                In x (BusinessHoursRest.put_holiday h hs)
                \/ BusinessHours.date x = BusinessHours.date h).
Proof.
  induction hs as [|h0 r [I1 [I2 I3]]]; simpl.
  - split; [now left|]. split; [intros x [<-|[]]; now left | intros x []].
  - destruct (String.eqb (BusinessHours.date h0) (BusinessHours.date h)) eqn:E.
    + apply String.eqb_eq in E. split; [now left|]. split.
      * intros x [<-|Hx]; [now left | right; now right].
      * intros x [<-|Hx]; [now right | left; now right].
    + split; [right; exact I1|]. split.
      * intros x [<-|Hx]; [right; now left|].
        destruct (I2 x Hx); [now left | right; now right].
      * intros x [<-|Hx]; [left; now left|].
        destruct (I3 x Hx); [left; now right | now right].
Qed.

Lemma put_holiday_NoDup (h : BusinessHours.Holiday)
      (hs : list BusinessHours.Holiday) :
  NoDup (map BusinessHours.date hs) ->
  NoDup (map BusinessHours.date (BusinessHoursRest.put_holiday h hs)).
Proof.
  induction hs as [|h0 r IH]; simpl; intros N.
  - repeat constructor. intros [].
  - inversion N as [|? ? Hnotin N']; subst.
    destruct (String.eqb (BusinessHours.date h0) (BusinessHours.date h)) eqn:E.
    + apply String.eqb_eq in E. simpl. rewrite <- E. exact N.
    + apply String.eqb_neq in E. simpl. constructor; [|now apply IH].
      intros Hin. apply in_map_iff in Hin. destruct Hin as [x [Ex Hx]].
      destruct (put_holiday_In h r) as [_ [I2 _]].
      destruct (I2 x Hx) as [->|Hr]; [congruence|].
      apply Hnotin. rewrite <- Ex. now apply in_map.
Qed.

Lemma same_date_same_holiday (hs : list BusinessHours.Holiday)
      (a b : BusinessHours.Holiday) :
  NoDup (map BusinessHours.date hs) -> In a hs -> In b hs ->
  BusinessHours.date a = BusinessHours.date b -> a = b.
Proof.
  induction hs as [|h r IH]; simpl; intros N Ha Hb E; [destruct Ha|].
  inversion N as [|? ? Hnotin N']; subst.
  destruct Ha as [->|Ha], Hb as [->|Hb]; auto.
  - exfalso. apply Hnotin. rewrite E. now apply in_map.
  - exfalso. apply Hnotin. rewrite <- E. now apply in_map.
Qed.

Lemma ensure_initialized_true (env : BusinessHours.Env)
      (st : BusinessHours.State) :
  BusinessHours.initialized (BusinessHours.ensure_initialized env st) = true.
Proof.
  unfold BusinessHours.ensure_initialized.
  destruct (BusinessHours.initialized st) eqn:E; cbn; [exact E|reflexivity].
Qed.

Lemma initialized_stays (env : BusinessHours.Env) (st : BusinessHours.State) :
  BusinessHours.initialized st = true ->
  BusinessHours.ensure_initialized env st = st.
Proof.
  intros E. unfold BusinessHours.ensure_initialized. now rewrite E.
Qed.

(** X19: after [addHoliday(h)] the configured holidays are those of
    before and the date of [h]; [isHoliday] finds a holiday on that date
    (it is [h] itself when no two holidays shared a date before, and
    then still no two share one); no timestamp on that date is within
    business hours; the opening hours are untouched. *)
Theorem addHoliday_then_isHoliday :
  forall (localeCompare : string -> string -> Z)
         (env env' : BusinessHours.Env) (st : BusinessHours.State)
         (h : BusinessHours.Holiday),
    let st0 := BusinessHours.ensure_initialized env st in
    let st' := BusinessHoursRest.addHoliday localeCompare env st h in
    (forall dateStr,
        configured_holiday st' dateStr
        <-> dateStr = BusinessHours.date h \/ configured_holiday st0 dateStr)
    /\ (exists found,
          snd (BusinessHours.isHoliday env' st' (BusinessHours.date h))
          = Some found
          /\ BusinessHours.date found = BusinessHours.date h)
    /\ (NoDup (map BusinessHours.date (BusinessHours.holidays st0)) ->
        NoDup (map BusinessHours.date (BusinessHours.holidays st'))
        /\ snd (BusinessHours.isHoliday env' st' (BusinessHours.date h))
           = Some h)
    /\ (forall dateISO d,
          BusinessHours.parseISO env' dateISO = Some d ->
          BusinessHours.yyyy_MM_dd d = BusinessHours.date h ->
          snd (BusinessHours.isWithinBusinessHours env' st' dateISO) = false)
    /\ BusinessHours.businessHours st' = BusinessHours.businessHours st0.
Proof.
  intros localeCompare env env' st h. cbv zeta.
  set (st0 := BusinessHours.ensure_initialized env st).
  set (st' := BusinessHoursRest.addHoliday localeCompare env st h).
  assert (I : BusinessHours.ensure_initialized env' st' = st').
  { apply initialized_stays. unfold st', BusinessHoursRest.addHoliday. cbn.
    apply ensure_initialized_true. }
  assert (P : Permutation (BusinessHours.holidays st')
                          (BusinessHoursRest.put_holiday h
                             (BusinessHours.holidays st0))).
  { unfold st', BusinessHoursRest.addHoliday. cbn. apply array_sort_perm_Z. }
  destruct (put_holiday_In h (BusinessHours.holidays st0)) as [I1 [I2 I3]].
  assert (C : forall dateStr,
             configured_holiday st' dateStr
             <-> dateStr = BusinessHours.date h \/ configured_holiday st0 dateStr).
  { intros dateStr. unfold configured_holiday. split.
    - intros [x [Hx Ex]]. apply (Permutation_in _ P) in Hx.
      destruct (I2 x Hx) as [->|Hr]; [left; now symmetry|].
      right. exists x. split; assumption.
    - intros [->|[x [Hx Ex]]].
      + exists h. split; [|reflexivity].
        apply (Permutation_in _ (Permutation_sym P)). exact I1.
      + destruct (I3 x Hx) as [Hp|Ed].
        * exists x. split; [|exact Ex].
          apply (Permutation_in _ (Permutation_sym P)). exact Hp.
        * exists h. split; [|congruence].
          apply (Permutation_in _ (Permutation_sym P)). exact I1. }
  assert (F : exists found,
             BusinessHours.find_holiday st' (BusinessHours.date h) = Some found
             /\ In found (BusinessHours.holidays st')
             /\ BusinessHours.date found = BusinessHours.date h).
  { destruct (BusinessHours.find_holiday st' (BusinessHours.date h))
      as [x|] eqn:E.
    - exists x. split; [reflexivity|].
      unfold BusinessHours.find_holiday in E. apply find_some in E.
      destruct E as [Hx Ex]. apply String.eqb_eq in Ex. auto.
    - exfalso. apply find_holiday_none_iff in E. apply E. apply C. now left. }
  split; [exact C|]. split; [|split; [|split]].
  - destruct F as [found [E [_ Ed]]]. exists found.
    unfold BusinessHours.isHoliday. cbn [snd]. rewrite I. auto.
  - intros N.
    assert (N' : NoDup (map BusinessHours.date (BusinessHours.holidays st'))).
    { apply (Permutation_NoDup
               (l := map BusinessHours.date
                         (BusinessHoursRest.put_holiday h
                            (BusinessHours.holidays st0)))).
      - apply Permutation_map. now symmetry.
      - now apply put_holiday_NoDup. }
    split; [exact N'|].
    destruct F as [found [E [Hin Ed]]].
    unfold BusinessHours.isHoliday. cbn [snd]. rewrite I, E. f_equal.
    apply (same_date_same_holiday (BusinessHours.holidays st') found h N' Hin);
      [|exact Ed].
    apply (Permutation_in _ (Permutation_sym P)). exact I1.
  - intros dateISO d Hp Hd.
    destruct (snd (BusinessHours.isWithinBusinessHours env' st' dateISO)) eqn:V;
      [|reflexivity].
    apply (isWithinBusinessHours_valid env' st' dateISO d Hp) in V.
    destruct V as [Hn _]. rewrite I in Hn. exfalso. apply Hn.
    apply C. left. exact Hd.
  - reflexivity.
Qed.

Lemma addHoliday_then_isHoliday_witness :
  NoDup (map BusinessHours.date
             (BusinessHours.holidays
                (BusinessHours.ensure_initialized Samples.calendar_env
                   BusinessHours.initial_state)))
  /\ BusinessHours.parseISO Samples.calendar_env "2025-03-04T09:00:00"
     = Some Samples.tuesday_0900
  /\ BusinessHours.yyyy_MM_dd Samples.tuesday_0900
     = BusinessHours.date Samples.works_outing
  /\ snd (BusinessHours.isHoliday Samples.calendar_env
            (BusinessHoursRest.addHoliday Samples.code_unit_compare
               Samples.calendar_env BusinessHours.initial_state
               Samples.works_outing)
            "2025-03-04") = Some Samples.works_outing
  /\ snd (BusinessHours.isWithinBusinessHours Samples.calendar_env
            (BusinessHoursRest.addHoliday Samples.code_unit_compare
               Samples.calendar_env BusinessHours.initial_state
               Samples.works_outing)
            "2025-03-04T09:00:00") = false.
Proof.
  assert (N : NoDup (map BusinessHours.date
                         (BusinessHours.holidays
                            (BusinessHours.ensure_initialized
                               Samples.calendar_env
                               BusinessHours.initial_state)))).
  { cbn. repeat (constructor; [simpl; intuition discriminate|]). constructor. }
  split; [exact N|]. split; [reflexivity|]. split; [reflexivity|].
  pose proof (addHoliday_then_isHoliday Samples.code_unit_compare
                Samples.calendar_env Samples.calendar_env
                BusinessHours.initial_state Samples.works_outing) as T.
  cbv zeta in T. destruct T as [_ [_ [T3 [T4 _]]]]. split.
  - exact (proj2 (T3 N)).
  - exact (T4 "2025-03-04T09:00:00" Samples.tuesday_0900 eq_refl eq_refl).
Defined.

Lemma available_loop_spec (cal : BusinessHoursRest.Calendar)
      (st : BusinessHours.State) (count : Q) :
  forall (fuel : nat) (cur : BusinessHours.JsDate)
         (results : list BusinessHoursRest.AvailableDay),
    let out := BusinessHoursRest.available_loop cal st count fuel cur results in
    (List.length out <= List.length results + fuel)%nat
    /\ (forall n : nat,
           (count <= inject_Z (Z.of_nat n))%Q ->
           (List.length results <= n)%nat -> (List.length out <= n)%nat)
    /\ (forall e, In e out -> In e results \/ listed_day st e).
Proof.
  induction fuel as [|fuel IH]; intros cur results; cbv zeta.
  - cbn [BusinessHoursRest.available_loop]. split; [lia|]. split; auto.
  - cbn [BusinessHoursRest.available_loop].
    destruct (JS.ltb (inject_Z (Z.of_nat (List.length results))) count) eqn:L;
      [|split; [lia|split; auto]].
    assert (Lt : (inject_Z (Z.of_nat (List.length results)) < count)%Q).
    { unfold JS.ltb in L. apply negb_true_iff in L. apply Qnot_le_lt.
      intros Hle. apply Qle_bool_iff in Hle. congruence. }
    assert (Bound : forall n : nat,
               (count <= inject_Z (Z.of_nat n))%Q ->
               (S (List.length results) <= n)%nat).
    { intros n Hn.
      assert (H : (inject_Z (Z.of_nat (List.length results))
                   < inject_Z (Z.of_nat n))%Q)
        by (eapply Qlt_le_trans; eassumption).
      rewrite <- Zlt_Qlt in H. lia. }
    cbv zeta.
    destruct (Gates.lookup (BusinessHours.getDayKey cur)
                           (BusinessHours.businessHours st))
      as [[|s r]|] eqn:Eh;
      destruct (BusinessHours.find_holiday st (BusinessHours.yyyy_MM_dd cur))
      as [h|] eqn:Ef;
      match goal with
      | |- context [BusinessHoursRest.available_loop _ _ _ _ ?c ?res] =>
        destruct (IH c res) as [I1 [I2 I3]]
      end;
      try rewrite length_app in I1; try rewrite length_app in I2;
      cbn [List.length] in I1, I2;
      (split; [lia|]);
      (split; [intros n Hn Hr; apply (I2 n Hn); specialize (Bound n Hn); lia|]);
      intros e He; destruct (I3 e He) as [Hin|Hl]; auto;
      try (apply in_app_or in Hin; destruct Hin as [Hin|[<-|[]]]; auto; right;
           unfold listed_day; cbn [BusinessHoursRest.isHolidayDay
                                     BusinessHoursRest.day_date
                                     BusinessHoursRest.slots]).
    + exists h. auto.
    + exists h. auto.
    + split; [now apply find_holiday_none_iff|].
      exists (BusinessHours.getDayKey cur), (s :: r).
      split; [exact Eh|]. split; [discriminate|reflexivity].
    + exists h. auto.
Qed.

(** X20: [getNextAvailableSlots(startDate, count)] returns at most 14
    entries and at most [count] entries (none for a count of zero or
    less); every holiday entry carries the date of a configured holiday
    and the single slot text [Geschlossen (name)], every other entry
    carries a date that is no configured holiday and the intervals of a
    week day that has at least one, each printed as [start-end Uhr]. *)
Theorem getNextAvailableSlots_entries :
  forall (cal : BusinessHoursRest.Calendar) (env : BusinessHours.Env)
         (st : BusinessHours.State) (startDate : BusinessHours.JsDate)
         (count : Q),
    let st0 := BusinessHours.ensure_initialized env st in
    let results :=
        snd (BusinessHoursRest.getNextAvailableSlots cal env st startDate count) in
    (List.length results <= 14)%nat
    /\ (forall n : nat,
           (count <= inject_Z (Z.of_nat n))%Q -> (List.length results <= n)%nat)
    /\ (forall e, In e results -> listed_day st0 e)
    /\ fst (BusinessHoursRest.getNextAvailableSlots cal env st startDate count)
       = st0.
Proof.
  intros cal env st startDate count. cbv zeta.
  unfold BusinessHoursRest.getNextAvailableSlots. cbn [fst snd].
  destruct (available_loop_spec cal (BusinessHours.ensure_initialized env st)
              count 14 startDate []) as [I1 [I2 I3]].
  split; [exact I1|]. split; [|split; [|reflexivity]].
  - intros n Hn. apply (I2 n Hn). cbn. lia.
  - intros e He. destruct (I3 e He) as [[]|Hl]. exact Hl.
Qed.

Lemma getNextAvailableSlots_entries_witness :
  (2 <= inject_Z (Z.of_nat 2))%Q
  /\ (List.length
        (snd (BusinessHoursRest.getNextAvailableSlots Samples.week_calendar
                Samples.calendar_env BusinessHours.initial_state
                Samples.tuesday_0900 2)) <= 2)%nat.
Proof.
  assert (H : (2 <= inject_Z (Z.of_nat 2))%Q) by (cbn; apply Qle_refl).
  split; [exact H|].
  exact (proj1 (proj2 (getNextAvailableSlots_entries Samples.week_calendar
                         Samples.calendar_env BusinessHours.initial_state
                         Samples.tuesday_0900 2)) 2%nat H).
Defined.

(** X21: the lazy initialisation replaces the opening hours as a whole
    by the rows of the settings table when it yields at least one row,
    so that a week day without a row is then closed; it leaves them as
    they are when the table cannot be read or is empty, and also once
    the module is initialised; the holidays are never touched by it. *)
Theorem loadFromConfig_replaces_hours :
  forall (env : BusinessHours.Env) (st : BusinessHours.State),
    let st' := fst (BusinessHoursRest.getAllBusinessHours env st) in
    let hours := snd (BusinessHoursRest.getAllBusinessHours env st) in
    hours = BusinessHours.businessHours st'
    /\ BusinessHours.initialized st' = true
    /\ BusinessHours.holidays st' = BusinessHours.holidays st
    /\ (BusinessHours.initialized st = true ->
        hours = BusinessHours.businessHours st)
    /\ (BusinessHours.initialized st = false ->
        match BusinessHours.settings_rows env with
        | inr (row :: rows) =>
          hours = row :: rows
          /\ forall dateISO d,
              BusinessHours.parseISO env dateISO = Some d ->
              Gates.lookup (BusinessHours.getDayKey d) (row :: rows) = None ->
              snd (BusinessHours.isWithinBusinessHours env st dateISO) = false
        | _ => hours = BusinessHours.businessHours st
        end).
Proof.
  intros env st. cbv zeta. unfold BusinessHoursRest.getAllBusinessHours.
  cbn [fst snd]. split; [reflexivity|]. split; [apply ensure_initialized_true|].
  unfold BusinessHours.ensure_initialized.
  destruct (BusinessHours.initialized st) eqn:Ei; cbn [negb].
  - split; [reflexivity|]. split; [reflexivity|]. discriminate.
  - cbn. split; [reflexivity|]. split; [discriminate|]. intros _.
    destruct (BusinessHours.settings_rows env) as [e|[|row rows]] eqn:Er;
      try reflexivity.
    cbn. split; [reflexivity|]. intros dateISO d Hp Hl.
    apply (closed_day_verdict env st dateISO d Hp).
    unfold intervals_of_day, BusinessHours.ensure_initialized.
    rewrite Ei. cbn. rewrite Er. cbn. rewrite Hl. reflexivity.
Qed.

Lemma loadFromConfig_replaces_hours_witness :
  BusinessHours.initialized BusinessHours.initial_state = false
  /\ BusinessHours.parseISO Samples.monday_only_env "2025-03-04T09:00:00"
     = Some Samples.tuesday_0900
  /\ snd (BusinessHours.isWithinBusinessHours Samples.monday_only_env
            BusinessHours.initial_state "2025-03-04T09:00:00") = false.
Proof.
  split; [reflexivity|]. split; [reflexivity|].
  exact (proj2 (proj2 (proj2 (proj2 (proj2
           (loadFromConfig_replaces_hours Samples.monday_only_env
              BusinessHours.initial_state)))) eq_refl)
           "2025-03-04T09:00:00" Samples.tuesday_0900 eq_refl eq_refl).
Defined.

(** ** classifyExtract.ts *)



Lemma write_back_differs (item : IntentItem)
      (dateTime : Pipeline.NormalizedDateTime) :
  differ_in_date_time_only item (Pipeline.write_back item dateTime).
Proof. unfold differ_in_date_time_only. cbn. repeat split. Qed.

Lemma differ_refl (item : IntentItem) : differ_in_date_time_only item item.
Proof. unfold differ_in_date_time_only. repeat split. Qed.

Lemma normalize_items_spec (env : Pipeline.Env)
      (opts : Pipeline.ClassificationOptions) (its : list IntentItem) :
  forall index : nat,
    Forall2 (normalized_as env opts) its
            (fst (Pipeline.normalize_items env opts index its))
    /\ (List.length (snd (Pipeline.normalize_items env opts index its))
        <= List.length its)%nat.
Proof.
  induction its as [|item r IH]; intros index; cbn [Pipeline.normalize_items].
  - split; [constructor | cbn; lia].
  - destruct (IH (S index)) as [I1 I2].
    destruct (Pipeline.normalize_items env opts (S index) r) as [r' ws].
    cbn [fst snd] in I1, I2.
    destruct (Pipeline.normalizeDateTimeSlots env (datum (slots item))
                (zeit (slots item)) (Pipeline.slotDurationMinutes opts))
      as [e|dateTime] eqn:En; cbn [fst snd List.length]; (split; [|lia]);
      constructor; try exact I1; unfold normalized_as; rewrite En;
      [reflexivity | apply write_back_differs].
Qed.

Lemma normalized_as_differs (env : Pipeline.Env)
      (opts : Pipeline.ClassificationOptions) (a b : IntentItem) :
  normalized_as env opts a b -> differ_in_date_time_only a b.
Proof.
  unfold normalized_as.
  destruct (Pipeline.normalizeDateTimeSlots _ _ _ _); [|auto].
  intros ->. apply differ_refl.
Qed.

Lemma Forall2_differ_facts (its its' : list IntentItem) :
  Forall2 differ_in_date_time_only its its' ->
  List.length its = List.length its'
  /\ (forall item', In item' its' ->
                    exists item, In item its
                                 /\ intent item' = intent item
                                 /\ confidence item' = confidence item
                                 /\ next_action item' = next_action item).
Proof.
  induction 1 as [|a b r r' Hab _ [IH1 IH2]]; cbn.
  - split; [reflexivity | intros ? []].
  - split; [now f_equal|]. intros item' [<-|Hin].
    + exists a. destruct Hab as [H1 [H2 [H3 _]]]. auto.
    + destruct (IH2 item' Hin) as [item [Hi Hr]]. exists item. auto.
Qed.

(** The four ways in which [classifyEmail] ends, with what the result
    then holds. *)
Lemma classifyEmail_cases (env : Pipeline.Env) (email : string)
      (llmProvider : Pipeline.LLMProvider)
      (opts : Pipeline.ClassificationOptions) :
  let result := Pipeline.classifyEmail env email llmProvider opts in
  let outcome :=
      llmProvider (Pipeline.createIntentPrompt env email)
                  (Pipeline.llmModel opts) (Pipeline.timeout opts) in
  (exists e,
      result = Pipeline.failure_result env email e []
      /\ (outcome = Pipeline.Rejected e
          \/ (outcome = Pipeline.TimedOut /\ e = Exn.Error "LLM timeout")
          \/ (exists llmResult,
                 outcome = Pipeline.Fulfilled llmResult
                 /\ snd (Validate.parseIntentJSON (Pipeline.lib env)
                           (Pipeline.response llmResult)) = inl e
                 /\ Pipeline.enableFallback opts = false)))
  \/ (exists llmResult,
         outcome = Pipeline.Fulfilled llmResult
         /\ Pipeline.success result = true
         /\ Pipeline.error result = None
         /\ Pipeline.originalEmail result = email
         /\ (snd (Validate.parseIntentJSON (Pipeline.lib env)
                    (Pipeline.response llmResult))
             = inr (Pipeline.parsed result)
             /\ Pipeline.parsingError result = None
             \/ exists e,
                 snd (Validate.parseIntentJSON (Pipeline.lib env)
                        (Pipeline.response llmResult)) = inl e
                 /\ Pipeline.enableFallback opts = true
                 /\ Pipeline.parsed result
                    = Validate.createEmptyResponse
                        ("Parsing-Fehler: " ++ Exn.message_of e)
                 /\ Pipeline.parsingError result = Some (Exn.message_of e))
         /\ email_meta (Pipeline.normalized result)
            = email_meta (Pipeline.parsed result)
         /\ overall (Pipeline.normalized result)
            = overall (Pipeline.parsed result)
         /\ (if Pipeline.normalizeSlots opts
             then Forall2 (normalized_as env opts)
                          (items (Pipeline.parsed result))
                          (items (Pipeline.normalized result))
             else items (Pipeline.normalized result)
                  = items (Pipeline.parsed result))
         /\ Pipeline.decision result
            = Gates.gate (Pipeline.gateConfig env) (Pipeline.normalized result)
                         (Some email)
         /\ Pipeline.processingPlan result
            = Multi.createProcessingPlan (items (Pipeline.normalized result))
         /\ Pipeline.complexity result
            = Multi.analyzeComplexity (Pipeline.processingPlan result)).
Proof.
  cbv zeta. unfold Pipeline.classifyEmail.
  destruct (llmProvider _ _ _) as [llmResult|e|].
  - destruct (snd (Validate.parseIntentJSON _ _)) as [e|p] eqn:P.
    + destruct (Pipeline.enableFallback opts) eqn:Fb.
      * right. exists llmResult. cbn [Exn.ret].
        destruct (Pipeline.normalizeSlots opts) eqn:Ns.
        -- pose proof (normalize_items_spec env opts
                         (items (Validate.createEmptyResponse
                                   ("Parsing-Fehler: " ++ Exn.message_of e))) 0)
            as [N _].
           destruct (Pipeline.normalize_items _ _ _ _) as [ni ws].
           cbn. repeat split; try reflexivity; [|exact N].
           right. exists e. auto.
        -- cbn. repeat split; try reflexivity. right. exists e. auto.
      * left. exists e. split; [reflexivity|]. right. right.
        exists llmResult. auto.
    + right. exists llmResult. cbn [Exn.ret].
      destruct (Pipeline.normalizeSlots opts) eqn:Ns.
      * pose proof (normalize_items_spec env opts (items p) 0) as [N _].
        destruct (Pipeline.normalize_items _ _ _ _) as [ni ws].
        cbn. repeat split; try reflexivity; [|exact N]. left. auto.
      * cbn. repeat split; try reflexivity. left. auto.
  - left. exists e. auto.
  - left. exists (Exn.Error "LLM timeout"). auto.
Qed.

Lemma map_get_sim (k : IntentType) (m m' : Multi.BucketMap) :
  map_sim m m' ->
  (Multi.map_get k m = None /\ Multi.map_get k m' = None)
  \/ (exists b b', Multi.map_get k m = Some b /\ Multi.map_get k m' = Some b'
                   /\ bucket_sim b b').
Proof.
  induction 1 as [|[k1 b1] [k2 b2] r r' [Hk Hb] _ IH]; cbn; [now left|].
  cbn in Hk, Hb. subst k2.
  destruct (intent_eqb k1 k); [|exact IH].
  right. exists b1, b2. auto.
Qed.

Lemma map_set_sim (k : IntentType) (b b' : Multi.IntentBucket)
      (m m' : Multi.BucketMap) :
  map_sim m m' -> bucket_sim b b' ->
  map_sim (Multi.map_set k b m) (Multi.map_set k b' m').
Proof.
  intros H Hb.
  induction H as [|[k1 b1] [k2 b2] r r' [Hk Hb12] Hr IH]; cbn.
  - constructor; [split; [reflexivity|exact Hb] | constructor].
  - cbn in Hk, Hb12. subst k2. destruct (intent_eqb k1 k).
    + constructor; [split; [reflexivity|exact Hb] | exact Hr].
    + constructor; [split; [reflexivity|exact Hb12] | exact IH].
Qed.

Lemma sum_confidence_sim (l l' : list IntentItem) :
  Forall2 differ_in_date_time_only l l' ->
  forall acc : Q,
    fold_left (fun sum item => (sum + confidence item)%Q) l' acc
    = fold_left (fun sum item => (sum + confidence item)%Q) l acc.
Proof.
  induction 1 as [|a b r r' Hab _ IH]; intros acc; cbn; [reflexivity|].
  destruct Hab as [_ [Hc _]]. rewrite Hc. apply IH.
Qed.

Lemma split_step_sim (m m' : Multi.BucketMap) (a a' : IntentItem) :
  map_sim m m' -> differ_in_date_time_only a a' ->
  map_sim (Multi.split_step m a) (Multi.split_step m' a').
Proof.
  intros Hm Ha. unfold Multi.split_step. cbv zeta.
  pose proof Ha as [Hi _]. rewrite Hi.
  set (fresh := {| Multi.intent := intent a; Multi.items := [];
                   Multi.confidence := 0%Q;
                   Multi.priority :=
                     Multi.or_default
                       (Gates.lookup (intent_name (intent a))
                                     Multi.INTENT_PRIORITIES) 99%Z |}).
  assert (Hf : bucket_sim fresh fresh).
  { unfold bucket_sim. repeat split. constructor. }
  assert (Hm2 : map_sim
                  (if negb (Multi.map_has (intent a) m)
                   then Multi.map_set (intent a) fresh m else m)
                  (if negb (Multi.map_has (intent a) m')
                   then Multi.map_set (intent a) fresh m' else m')).
  { unfold Multi.map_has.
    destruct (map_get_sim (intent a) m m' Hm)
      as [[E1 E2]|[b [b' [E1 [E2 _]]]]]; rewrite E1, E2; cbn [negb].
    - now apply map_set_sim.
    - exact Hm. }
  destruct (map_get_sim (intent a) _ _ Hm2)
    as [[E1 E2]|[b [b' [E1 [E2 [B1 [B2 [B3 B4]]]]]]]]; rewrite E1, E2.
  - exact Hm2.
  - apply map_set_sim; [exact Hm2|].
    assert (P : Forall2 differ_in_date_time_only
                        (Multi.items b ++ [a])%list
                        (Multi.items b' ++ [a'])%list).
    { apply Forall2_app; [exact B4|]. constructor; [exact Ha|constructor]. }
    unfold bucket_sim. cbn [Multi.intent Multi.priority Multi.confidence
                            Multi.items].
    split; [exact B1|]. split; [exact B2|]. split; [|exact P].
    unfold Multi.sum_confidence, Multi.count.
    rewrite (sum_confidence_sim _ _ P), (Forall2_length P). reflexivity.
Qed.

Lemma fold_split_step_sim (its its' : list IntentItem) :
  Forall2 differ_in_date_time_only its its' ->
  forall m m', map_sim m m' ->
               map_sim (fold_left Multi.split_step its m)
                       (fold_left Multi.split_step its' m').
Proof.
  induction 1 as [|a b r r' Hab _ IH]; intros m m' Hm; cbn; [exact Hm|].
  apply IH. now apply split_step_sim.
Qed.

Lemma compare_buckets_sim (x x' y y' : Multi.IntentBucket) :
  bucket_sim x x' -> bucket_sim y y' ->
  Multi.compare_buckets x' y' = Multi.compare_buckets x y.
Proof.
  intros [_ [Px [Cx _]]] [_ [Py [Cy _]]]. unfold Multi.compare_buckets.
  now rewrite Px, Py, Cx, Cy.
Qed.

Lemma sort_insert_sim (x x' : Multi.IntentBucket)
      (l l' : list Multi.IntentBucket) :
  bucket_sim x x' -> Forall2 bucket_sim l l' ->
  Forall2 bucket_sim (Multi.sort_insert Multi.compare_buckets x l)
          (Multi.sort_insert Multi.compare_buckets x' l').
Proof.
  intros Hx. induction 1 as [|y y' r r' Hy Hr IH]; cbn.
  - constructor; [exact Hx|constructor].
  - rewrite (compare_buckets_sim x x' y y' Hx Hy).
    destruct (JS.gtb (Multi.compare_buckets x y) 0).
    + constructor; [exact Hy|exact IH].
    + constructor; [exact Hx|]. constructor; [exact Hy|exact Hr].
Qed.

Lemma array_sort_sim (l l' : list Multi.IntentBucket) :
  Forall2 bucket_sim l l' ->
  Forall2 bucket_sim (Multi.array_sort Multi.compare_buckets l)
          (Multi.array_sort Multi.compare_buckets l').
Proof.
  induction 1 as [|y y' r r' Hy _ IH]; cbn; [constructor|].
  now apply sort_insert_sim.
Qed.

Lemma fold_duration_sim (l l' : list Multi.IntentBucket) :
  Forall2 bucket_sim l l' ->
  forall acc : Z,
    fold_left (fun total bucket => (total + Multi.duration_of bucket)%Z) l' acc
    = fold_left (fun total bucket => (total + Multi.duration_of bucket)%Z) l acc.
Proof.
  induction 1 as [|y y' r r' [Hi [_ [_ Hit]]] _ IH]; intros acc; cbn;
    [reflexivity|].
  rewrite IH. f_equal. f_equal. unfold Multi.duration_of.
  now rewrite Hi, (Forall2_length Hit).
Qed.

Lemma fold_confidence_sim (l l' : list Multi.IntentBucket) :
  Forall2 bucket_sim l l' ->
  forall acc : Q,
    fold_left (fun sum bucket => (sum + Multi.confidence bucket)%Q) l' acc
    = fold_left (fun sum bucket => (sum + Multi.confidence bucket)%Q) l acc.
Proof.
  induction 1 as [|y y' r r' [_ [_ [Hc _]]] _ IH]; intros acc; cbn;
    [reflexivity|].
  rewrite Hc. apply IH.
Qed.

Lemma map_intent_sim (l l' : list Multi.IntentBucket) :
  Forall2 bucket_sim l l' -> map Multi.intent l' = map Multi.intent l.
Proof.
  induction 1 as [|y y' r r' [Hi _] _ IH]; cbn; [reflexivity|].
  now rewrite Hi, IH.
Qed.

Lemma existsb_intent_sim (k : IntentType) (l l' : list Multi.IntentBucket) :
  Forall2 bucket_sim l l' ->
  existsb (fun bucket => intent_eqb (Multi.intent bucket) k) l'
  = existsb (fun bucket => intent_eqb (Multi.intent bucket) k) l.
Proof.
  induction 1 as [|y y' r r' [Hi _] _ IH]; cbn; [reflexivity|].
  now rewrite Hi, IH.
Qed.

(** The plans of two lists of items that agree up to date and time. *)
Lemma createProcessingPlan_sim (its its' : list IntentItem) :
  Forall2 differ_in_date_time_only its its' ->
  let plan := Multi.createProcessingPlan its in
  let plan' := Multi.createProcessingPlan its' in
  Forall2 bucket_sim (Multi.buckets plan) (Multi.buckets plan')
  /\ Multi.totalItems plan' = Multi.totalItems plan
  /\ Multi.multiIntent plan' = Multi.multiIntent plan
  /\ Multi.processingOrder plan' = Multi.processingOrder plan
  /\ Multi.estimatedDuration plan' = Multi.estimatedDuration plan
  /\ Multi.analyzeComplexity plan' = Multi.analyzeComplexity plan.
Proof.
  intros D. cbv zeta.
  assert (M : map_sim (Multi.splitByIntent its) (Multi.splitByIntent its')).
  { unfold Multi.splitByIntent. apply fold_split_step_sim; [exact D|].
    constructor. }
  assert (V : Forall2 bucket_sim
                      (Multi.map_values (Multi.splitByIntent its))
                      (Multi.map_values (Multi.splitByIntent its'))).
  { unfold Multi.map_values. clear - M.
    induction M as [|p p' r r' [_ Hb] _ IH]; cbn; constructor; auto. }
  assert (B : Forall2 bucket_sim
                      (Multi.buckets (Multi.createProcessingPlan its))
                      (Multi.buckets (Multi.createProcessingPlan its'))).
  { cbn. unfold Multi.prioritizeIntents. now apply array_sort_sim. }
  assert (E : Multi.estimatedDuration (Multi.createProcessingPlan its')
              = Multi.estimatedDuration (Multi.createProcessingPlan its)).
  { cbn. apply fold_duration_sim. exact B. }
  split; [exact B|]. split; [cbn; symmetry; exact (Forall2_length D)|].
  split; [cbn; now rewrite (Forall2_length M)|].
  split; [cbn; apply map_intent_sim; exact B|]. split; [exact E|].
  unfold Multi.analyzeComplexity. rewrite E.
  rewrite (map_intent_sim _ _ B), (existsb_intent_sim notfall _ _ B).
  rewrite <- (Forall2_length B).
  assert (L : Multi.low_average
                (Multi.buckets (Multi.createProcessingPlan its'))
              = Multi.low_average
                  (Multi.buckets (Multi.createProcessingPlan its))).
  { unfold Multi.low_average. pose proof (Forall2_length B) as Len.
    pose proof (fold_confidence_sim _ _ B 0%Q) as F.
    destruct (Multi.buckets (Multi.createProcessingPlan its)) as [|b1 r1];
      destruct (Multi.buckets (Multi.createProcessingPlan its')) as [|b2 r2];
      try discriminate; [reflexivity|].
    cbv zeta. rewrite F, Len. reflexivity. }
  rewrite L. reflexivity.
Qed.

Lemma is_EMERGENCY_action (d : Gates.GateDecision) :
  Pipeline.is_EMERGENCY d = true <-> GatesRest.action d = GatesRest.act_EMERGENCY.
Proof. destruct d; cbn; split; congruence. Qed.

Lemma is_EMERGENCY_gate (cfg : Gates.GateConfig) (resp : IntentResponse)
      (originalText : option string) :
  Pipeline.is_EMERGENCY (Gates.gate cfg resp originalText) = true
  <-> (exists item, In item (items resp) /\ emergency_item item)
      \/ (exists text, originalText = Some text /\ text <> EmptyString
                       /\ mentions_keyword cfg text).
Proof.
  rewrite is_EMERGENCY_action.
  destruct (checkForEmergency_cases cfg resp originalText)
    as [[N [Hno Hkw]]|[its [reason [u [E [_ Hwhy]]]]]].
  - split.
    + intros H. exfalso.
      exact (proj1 (gate_without_emergency cfg resp originalText N) H).
    + intros [[item [Hin Hem]]|[text [E [Hne Hm]]]].
      * exfalso. exact (Hno item Hin Hem).
      * exfalso. exact (Hkw text E Hne Hm).
  - split; [intros _; exact Hwhy|]. intros _.
    unfold Gates.gate. rewrite E. reflexivity.
Qed.

Lemma flat_map_nil {A B : Type} (f : A -> list B) (l : list A) :
  (forall x, In x l -> f x = []) -> flat_map f l = [].
Proof.
  induction l as [|a r IH]; intros H; cbn; [reflexivity|].
  rewrite (H a (or_introl eq_refl)). cbn. apply IH. intros x Hx. apply H.
  now right.
Qed.

Lemma ltb_zero_false (c : Q) : (0 <= c)%Q -> JS.ltb c 0 = false.
Proof.
  intros H. unfold JS.ltb. apply negb_false_iff. now apply Qle_bool_iff.
Qed.

Lemma gtb_one_false (c : Q) : (c <= 1)%Q -> JS.gtb c 1 = false.
Proof.
  intros H. apply gtb_false_iff. intros L. exact (Qlt_not_le _ _ L H).
Qed.

(** What a successful result of [classifyEmail] holds. *)
Lemma classifyEmail_success_facts (env : Pipeline.Env) (email : string)
      (llmProvider : Pipeline.LLMProvider)
      (opts : Pipeline.ClassificationOptions) :
  let result := Pipeline.classifyEmail env email llmProvider opts in
  Pipeline.success result = true ->
  items (Pipeline.parsed result) <> []
  /\ (forall item, In item (items (Pipeline.parsed result)) ->
                   in_unit_interval (confidence item))
  /\ Forall2 differ_in_date_time_only (items (Pipeline.parsed result))
             (items (Pipeline.normalized result))
  /\ (if Pipeline.normalizeSlots opts
      then Forall2 (normalized_as env opts) (items (Pipeline.parsed result))
                   (items (Pipeline.normalized result))
      else Pipeline.normalized result = Pipeline.parsed result)
  /\ email_meta (Pipeline.normalized result)
     = email_meta (Pipeline.parsed result)
  /\ overall (Pipeline.normalized result) = overall (Pipeline.parsed result)
  /\ Pipeline.decision result
     = Gates.gate (Pipeline.gateConfig env) (Pipeline.normalized result)
                  (Some email)
  /\ Pipeline.processingPlan result
     = Multi.createProcessingPlan (items (Pipeline.normalized result))
  /\ Pipeline.complexity result
     = Multi.analyzeComplexity (Pipeline.processingPlan result).
Proof.
  cbv zeta. intros S.
  destruct (classifyEmail_cases env email llmProvider opts)
    as [[e [E _]]|[llmResult [_ [_ [_ [_ [Hp [Hm [Ho [Hn [Hd [Hpl Hcx]]]]]]]]]]]].
  - rewrite E in S. discriminate.
  - assert (W : items (Pipeline.parsed
                         (Pipeline.classifyEmail env email llmProvider opts))
                <> []
                /\ forall item,
                    In item (items (Pipeline.parsed
                               (Pipeline.classifyEmail env email llmProvider
                                  opts))) ->
                    in_unit_interval (confidence item)).
    { destruct Hp as [[P _]|[e [_ [_ [P _]]]]].
      - apply parseIntentJSON_inr in P. destruct P as [obj [ws [_ [V _]]]].
        apply IntentResponseSchema_inr in V. destruct V as [V1 [V2 _]]. auto.
      - rewrite P.
        destruct (createEmptyResponse_well_formed
                    ("Parsing-Fehler: " ++ Exn.message_of e)) as [V1 [V2 _]].
        auto. }
    destruct W as [W1 W2]. split; [exact W1|]. split; [exact W2|].
    destruct (Pipeline.normalizeSlots opts).
    + split; [|auto 8].
      eapply Forall2_impl; [|exact Hn]. apply normalized_as_differs.
    + split.
      * rewrite Hn. clear. induction (items _); constructor; auto.
        apply differ_refl.
      * split; [|auto 8].
        destruct (Pipeline.normalized _), (Pipeline.parsed _).
        cbn in Hm, Ho, Hn. congruence.
Qed.

(** X23: every successful result of [classifyEmail] passes
    [validateClassificationResult] without a complaint; a failed result
    draws exactly one complaint, and only when its error text is
    empty. *)
Theorem classifyEmail_result_validates :
  forall (env : Pipeline.Env) (email : string)
         (llmProvider : Pipeline.LLMProvider)
         (opts : Pipeline.ClassificationOptions),
    let result := Pipeline.classifyEmail env email llmProvider opts in
    (Pipeline.success result = true ->
     Pipeline.validateClassificationResult result = [])
    /\ (Pipeline.success result = false ->
        Pipeline.validateClassificationResult result
        = if JS.truthy (Pipeline.error result) then []
          else [Pipeline.Fehlgeschlagen_ohne_Fehler]).
Proof.
  intros env email llmProvider opts. cbv zeta. split.
  - intros S.
    destruct (classifyEmail_success_facts env email llmProvider opts S)
      as [W1 [W2 [D [_ [_ [_ [Hd _]]]]]]].
    destruct (Forall2_differ_facts _ _ D) as [L F].
    unfold Pipeline.validateClassificationResult. rewrite S, <- L.
    rewrite Nat.eqb_refl. cbn [negb andb app].
    destruct (items (Pipeline.parsed _)) as [|p0 pr] eqn:Ep; [congruence|].
    cbn [List.length Nat.eqb andb app]. rewrite app_nil_r.
    apply flat_map_nil. intros item' Hin.
    destruct (F item' Hin) as [item [Hi [Ei [Ec _]]]].
    destruct (W2 item Hi) as [C0 C1]. rewrite <- Ec in C0, C1.
    rewrite (ltb_zero_false _ C0), (gtb_one_false _ C1). cbn [orb app].
    destruct (intent_eqb (intent item') notfall) eqn:En; [|reflexivity].
    apply intent_eqb_eq in En.
    assert (Em : Pipeline.is_EMERGENCY
                   (Pipeline.decision
                      (Pipeline.classifyEmail env email llmProvider opts))
                 = true).
    { rewrite Hd. apply is_EMERGENCY_gate. left. exists item'.
      split; [exact Hin | now left]. }
    rewrite Em. reflexivity.
  - intros S.
    destruct (classifyEmail_cases env email llmProvider opts)
      as [[e [E _]]|[llmResult [_ [S' _]]]]; [|congruence].
    rewrite E. unfold Pipeline.validateClassificationResult. cbn.
    destruct (String.eqb (Exn.message_of e) EmptyString); reflexivity.
Qed.

Lemma classifyEmail_result_validates_witness :
  Pipeline.success
    (Pipeline.classifyEmail Samples.pipeline_env "Ich brauche einen Termin."
       Samples.prose_provider Pipeline.DEFAULT_OPTIONS) = true
  /\ Pipeline.validateClassificationResult
       (Pipeline.classifyEmail Samples.pipeline_env "Ich brauche einen Termin."
          Samples.prose_provider Pipeline.DEFAULT_OPTIONS) = [].
Proof.
  assert (S : Pipeline.success
                (Pipeline.classifyEmail Samples.pipeline_env
                   "Ich brauche einen Termin." Samples.prose_provider
                   Pipeline.DEFAULT_OPTIONS) = true) by (vm_compute; reflexivity).
  split; [exact S|].
  exact (proj1 (classifyEmail_result_validates Samples.pipeline_env
                  "Ich brauche einen Termin." Samples.prose_provider
                  Pipeline.DEFAULT_OPTIONS) S).
Defined.

(** X24: in a successful result the normalised response is the parsed
    one up to the slots [datum] and [zeit] of its items: same number of
    items, each with its intent, confidence, next action, notes and
    other slots, same [email_meta] and [overall]; an item whose
    normalisation throws is left as it was, and with [normalizeSlots]
    off the two responses are equal.  The plan counts the parsed items,
    and its order, its estimated duration and the complexity of the
    result are those of the parsed items: the normalisation has no part
    in them. *)
Theorem classifyEmail_normalisation_keeps_items :
  forall (env : Pipeline.Env) (email : string)
         (llmProvider : Pipeline.LLMProvider)
         (opts : Pipeline.ClassificationOptions),
    let result := Pipeline.classifyEmail env email llmProvider opts in
    Pipeline.success result = true ->
    Forall2 differ_in_date_time_only (items (Pipeline.parsed result))
            (items (Pipeline.normalized result))
    /\ email_meta (Pipeline.normalized result)
       = email_meta (Pipeline.parsed result)
    /\ overall (Pipeline.normalized result) = overall (Pipeline.parsed result)
    /\ (Pipeline.normalizeSlots opts = true ->
        Forall2 (normalized_as env opts) (items (Pipeline.parsed result))
                (items (Pipeline.normalized result)))
    /\ (Pipeline.normalizeSlots opts = false ->
        Pipeline.normalized result = Pipeline.parsed result)
    /\ Multi.totalItems (Pipeline.processingPlan result)
       = List.length (items (Pipeline.parsed result))
    /\ Multi.processingOrder (Pipeline.processingPlan result)
       = Multi.processingOrder
           (Multi.createProcessingPlan (items (Pipeline.parsed result)))
    /\ Multi.estimatedDuration (Pipeline.processingPlan result)
       = Multi.estimatedDuration
           (Multi.createProcessingPlan (items (Pipeline.parsed result)))
    /\ Pipeline.complexity result
       = Multi.analyzeComplexity
           (Multi.createProcessingPlan (items (Pipeline.parsed result))).
Proof.
  intros env email llmProvider opts. cbv zeta. intros S.
  destruct (classifyEmail_success_facts env email llmProvider opts S)
    as [_ [_ [D [N [Hm [Ho [_ [Hpl Hcx]]]]]]]].
  destruct (createProcessingPlan_sim _ _ D) as [_ [T [_ [O [Du Cx]]]]].
  split; [exact D|]. split; [exact Hm|]. split; [exact Ho|].
  split; [|split; [|split; [|split; [|split]]]].
  - intros E. now rewrite E in N.
  - intros E. now rewrite E in N.
  - rewrite Hpl, T. reflexivity.
  - rewrite Hpl. exact O.
  - rewrite Hpl. exact Du.
  - rewrite Hcx, Hpl. exact Cx.
Qed.

Lemma classifyEmail_normalisation_keeps_items_witness :
  Pipeline.success
    (Pipeline.classifyEmail Samples.pipeline_env "Ich brauche einen Termin."
       Samples.prose_provider Pipeline.DEFAULT_OPTIONS) = true
  /\ Pipeline.complexity
       (Pipeline.classifyEmail Samples.pipeline_env "Ich brauche einen Termin."
          Samples.prose_provider Pipeline.DEFAULT_OPTIONS)
     = Multi.analyzeComplexity
         (Multi.createProcessingPlan
            (items (Pipeline.parsed
                      (Pipeline.classifyEmail Samples.pipeline_env
                         "Ich brauche einen Termin." Samples.prose_provider
                         Pipeline.DEFAULT_OPTIONS)))).
Proof.
  assert (S : Pipeline.success
                (Pipeline.classifyEmail Samples.pipeline_env
                   "Ich brauche einen Termin." Samples.prose_provider
                   Pipeline.DEFAULT_OPTIONS) = true) by (vm_compute; reflexivity).
  split; [exact S|].
  exact (proj2 (proj2 (proj2 (proj2 (proj2 (proj2 (proj2 (proj2
           (classifyEmail_normalisation_keeps_items Samples.pipeline_env
              "Ich brauche einen Termin." Samples.prose_provider
              Pipeline.DEFAULT_OPTIONS S))))))))).
Defined.

Lemma Forall2_differ_emergency (its its' : list IntentItem) :
  Forall2 differ_in_date_time_only its its' ->
  (exists item, In item its /\ emergency_item item)
  <-> (exists item', In item' its' /\ emergency_item item').
Proof.
  induction 1 as [|a b r r' Hab _ IH].
  - split; intros [x [[] _]].
  - assert (Hem : emergency_item a <-> emergency_item b).
    { destruct Hab as [Hi [_ [Hn _]]]. unfold emergency_item.
      now rewrite Hi, Hn. }
    split.
    + intros [x [[<-|Hin] Hx]].
      * exists b. split; [now left | now apply Hem].
      * destruct (proj1 IH (ex_intro _ x (conj Hin Hx))) as [y [Hy1 Hy2]].
        exists y. split; [now right | exact Hy2].
    + intros [x [[<-|Hin] Hx]].
      * exists a. split; [now left | now apply Hem].
      * destruct (proj2 IH (ex_intro _ x (conj Hin Hx))) as [y [Hy1 Hy2]].
        exists y. split; [now right | exact Hy2].
Qed.

(** X25: a classification succeeds exactly when the provider answers in
    time and the answer either parses or the fallback is enabled.  A
    successful result is decided EMERGENCY exactly when a parsed item is
    an emergency item or the non-empty e-mail mentions a configured
    keyword, whatever the model answered otherwise.  A failed result is
    always the fixed ESCALATE decision without items: the keyword scan
    of the e-mail does not run then. *)
Theorem classifyEmail_emergency_routing :
  forall (env : Pipeline.Env) (email : string)
         (llmProvider : Pipeline.LLMProvider)
         (opts : Pipeline.ClassificationOptions),
    let result := Pipeline.classifyEmail env email llmProvider opts in
    let outcome :=
        llmProvider (Pipeline.createIntentPrompt env email)
                    (Pipeline.llmModel opts) (Pipeline.timeout opts) in
    (Pipeline.success result = true
     <-> exists llmResult,
        outcome = Pipeline.Fulfilled llmResult
        /\ (Pipeline.enableFallback opts = true
            \/ exists p, snd (Validate.parseIntentJSON (Pipeline.lib env)
                                (Pipeline.response llmResult)) = inr p))
    /\ (Pipeline.success result = true ->
        (GatesRest.action (Pipeline.decision result) = GatesRest.act_EMERGENCY
         <-> (exists item, In item (items (Pipeline.parsed result))
                           /\ emergency_item item)
             \/ (email <> EmptyString
                 /\ mentions_keyword (Pipeline.gateConfig env) email)))
    /\ (Pipeline.success result = false ->
        Pipeline.decision result
        = Gates.ESCALATE [] "Kritischer Fehler bei der Klassifikation" 0).
Proof.
  intros env email llmProvider opts. cbv zeta. split; [|split].
  - destruct (classifyEmail_cases env email llmProvider opts)
      as [[e [E Why]]|[llmResult [O [S [_ [_ [Hp _]]]]]]].
    + rewrite E. cbn [Pipeline.success Pipeline.failure_result]. split;
        [discriminate|].
      intros [llmResult [O Ok]]. exfalso.
      destruct Why as [R|[[T _]|[l2 [O2 [P2 F2]]]]]; try congruence.
      rewrite O in O2. inversion O2; subst l2.
      destruct Ok as [F|[p P]]; congruence.
    + split; [|intros _; exact S]. intros _. exists llmResult.
      split; [exact O|].
      destruct Hp as [[P _]|[e [_ [F _]]]]; [right; eauto | now left].
  - intros S.
    destruct (classifyEmail_success_facts env email llmProvider opts S)
      as [_ [_ [D [_ [_ [_ [Hd _]]]]]]].
    rewrite Hd, <- is_EMERGENCY_action, is_EMERGENCY_gate.
    rewrite (Forall2_differ_emergency _ _ D). split.
    + intros [H|[text [E [Hne Hm]]]]; [now left|].
      inversion E; subst text. right. auto.
    + intros [H|[Hne Hm]]; [now left|]. right. exists email. auto.
  - intros S.
    destruct (classifyEmail_cases env email llmProvider opts)
      as [[e [E _]]|[llmResult [_ [S' _]]]]; [|congruence].
    rewrite E. reflexivity.
Qed.

Lemma classifyEmail_emergency_routing_witness :
  Pipeline.success
    (Pipeline.classifyEmail Samples.pipeline_env "Ich habe starke Atemnot"
       Samples.silent_provider Pipeline.DEFAULT_OPTIONS) = false
  /\ Pipeline.decision
       (Pipeline.classifyEmail Samples.pipeline_env "Ich habe starke Atemnot"
          Samples.silent_provider Pipeline.DEFAULT_OPTIONS)
     = Gates.ESCALATE [] "Kritischer Fehler bei der Klassifikation" 0.
Proof.
  split; [reflexivity|].
  exact (proj2 (proj2 (classifyEmail_emergency_routing Samples.pipeline_env
                         "Ich habe starke Atemnot" Samples.silent_provider
                         Pipeline.DEFAULT_OPTIONS)) eq_refl).
Defined.

(** ** The Duckling client *)

Lemma map_delete_length (k : string) (m : Duckling.Cache) :
  (List.length (Duckling.map_delete k m) <= List.length m)%nat.
Proof. unfold Duckling.map_delete. apply filter_length_le. Qed.


Lemma map_get_delete_other (k k' : string) (m : Duckling.Cache) :
  k' <> k ->
  Duckling.map_get k (Duckling.map_delete k' m) = Duckling.map_get k m.
Proof.
  intros Hne. induction m as [|[k1 e] r IH]; cbn; [reflexivity|].
  destruct (String.eqb k1 k') eqn:E1; cbn.
  - apply String.eqb_eq in E1. subst k1.
    destruct (String.eqb k' k) eqn:E2; [|exact IH].
    apply String.eqb_eq in E2. contradiction.
  - destruct (String.eqb k1 k); [reflexivity|exact IH].
Qed.

Lemma map_set_length (k : string) (e : Duckling.Entry) (m : Duckling.Cache) :
  (List.length (Duckling.map_set k e m) <= S (List.length m))%nat.
Proof.
  induction m as [|[k' e'] r IH]; cbn; [lia|].
  destruct (String.eqb k' k); cbn; lia.
Qed.

Lemma map_get_set_same (k : string) (e : Duckling.Entry) (m : Duckling.Cache) :
  Duckling.map_get k (Duckling.map_set k e m) = Some e.
Proof.
  induction m as [|[k' e'] r IH]; cbn.
  - now rewrite String.eqb_refl.
  - destruct (String.eqb k' k) eqn:E; cbn.
    + now rewrite String.eqb_refl.
    + now rewrite E.
Qed.

Lemma map_set_head (k : string) (e : Duckling.Entry) (m : Duckling.Cache) :
  Duckling.map_get k m = None ->
  m <> [] ->
  exists k' e' r, Duckling.map_set k e m = (k', e') :: r /\ k' <> k.
Proof.
  destruct m as [|[k' e'] r]; [congruence|]. cbn. intros G _.
  destruct (String.eqb k' k) eqn:E; [discriminate|].
  exists k', e', (Duckling.map_set k e r). split; [reflexivity|].
  now apply String.eqb_neq.
Qed.

(** The request on a cache without entry for the key. *)
Lemma request_spec (w : Duckling.World) (cache : Duckling.Cache)
      (text : string) (opts : Duckling.DucklingOptions) :
  let out := Duckling.request w cache text opts in
  ((List.length cache <= 1000)%nat -> (List.length (fst out) <= 1000)%nat)
  /\ (Duckling.useCache opts = false -> fst out = cache)
  /\ (forall answer,
         Duckling.fetch w (Duckling.ducklingUrl opts) text
                        (Duckling.locale opts) (Duckling.timezone opts)
                        (match Duckling.referenceTime opts with
                         | Some r => r
                         | None => Duckling.now_iso w
                         end) (Duckling.timeout opts) = inr answer ->
         Duckling.useCache opts = true ->
         Duckling.map_get (Duckling.cache_key w text opts) cache = None ->
         Duckling.map_get (Duckling.cache_key w text opts) (fst out)
         = Some {| Duckling.data := snd out;
                   Duckling.timestamp := Duckling.now_store w |}).
Proof.
  cbv zeta. unfold Duckling.request. cbv zeta.
  destruct (Duckling.fetch w _ _ _ _ _ _) as [e|answer]; cbn [fst snd].
  - split; [auto|]. split; [auto|]. discriminate.
  - set (result := if Nat.ltb 0 _ then _ else _).
    set (entry := {| Duckling.data := result;
                     Duckling.timestamp := Duckling.now_store w |}).
    split; [|split].
    + intros L. destruct (Duckling.useCache opts); [|exact L].
      pose proof (map_set_length (Duckling.cache_key w text opts) entry cache)
        as Ls.
      destruct (Nat.ltb 1000 _) eqn:Big; [|apply Nat.ltb_ge in Big; exact Big].
      destruct (Duckling.map_set _ entry cache) as [|[k0 e0] r0] eqn:Es;
        [cbn; lia|].
      unfold Duckling.map_delete. cbn [filter fst].
      rewrite String.eqb_refl. cbn [negb].
      pose proof (filter_length_le
                    (fun p => negb (String.eqb (fst p) k0)) r0) as Lf.
      cbn [List.length] in Ls. lia.
    + intros U. now rewrite U.
    + intros answer' Ha U G. inversion Ha; subst answer'. rewrite U.
      destruct (Nat.ltb 1000 _) eqn:Big; [|apply map_get_set_same].
      destruct cache as [|p0 c0] eqn:Ec.
      { cbn in Big. discriminate. }
      rewrite <- Ec in *.
      destruct (map_set_head (Duckling.cache_key w text opts) entry cache G)
        as [k' [e' [r [Es Hne]]]]; [rewrite Ec; discriminate|].
      pose proof (map_get_set_same (Duckling.cache_key w text opts) entry cache)
        as Gs.
      rewrite Es in *. rewrite (map_get_delete_other _ _ _ Hne). exact Gs.
Qed.

(** X26: [parseTimesDe] keeps a cache of at most 1000 entries within
    1000 entries and leaves the cache alone when [useCache] is off;
    [getCacheStats] on the cache it leaves reports between zero and all
    entries as valid, and the others as expired. *)
Theorem parseTimesDe_cache_bounded :
  forall (w : Duckling.World) (cache : Duckling.Cache) (text : string)
         (opts : Duckling.DucklingOptions) (now : Z),
    let cache' := fst (Duckling.parseTimesDe w cache text opts) in
    let stats := Duckling.getCacheStats now cache' in
    ((List.length cache <= 1000)%nat ->
     (List.length cache' <= 1000)%nat
     /\ (Duckling.totalEntries stats <= 1000)%Z)
    /\ (Duckling.useCache opts = false -> cache' = cache)
    /\ (0 <= Duckling.validEntries stats <= Duckling.totalEntries stats)%Z
    /\ (0 <= Duckling.expiredEntries stats <= Duckling.totalEntries stats)%Z.
Proof.
  intros w cache text opts now. cbv zeta.
  assert (B : (List.length cache <= 1000)%nat ->
              (List.length (fst (Duckling.parseTimesDe w cache text opts))
               <= 1000)%nat).
  { intros L. unfold Duckling.parseTimesDe. cbv zeta.
    destruct (if Duckling.useCache opts then _ else None) as [cached|].
    - destruct (Z.ltb _ Duckling.CACHE_TTL); [exact L|].
      apply (proj1 (request_spec w _ text opts)).
      pose proof (map_delete_length (Duckling.cache_key w text opts) cache).
      lia.
    - apply (proj1 (request_spec w _ text opts)). exact L. }
  split; [|split].
  - intros L. specialize (B L). split; [exact B|]. cbn. lia.
  - intros U. unfold Duckling.parseTimesDe. cbv zeta. rewrite U.
    apply (proj1 (proj2 (request_spec w cache text opts)) U).
  - unfold Duckling.getCacheStats.
    cbn [Duckling.validEntries Duckling.totalEntries Duckling.expiredEntries].
    match goal with
    | |- context [filter ?f (map snd ?c)] =>
      pose proof (filter_length_le f (map snd c)) as Lf;
        rewrite length_map in Lf
    end.
    lia.
Qed.

Lemma parseTimesDe_cache_bounded_witness :
  (List.length (@nil (string * Duckling.Entry)) <= 1000)%nat
  /\ (List.length
        (fst (Duckling.parseTimesDe (Samples.duckling_world 100000) []
                "morgen um 10" Duckling.DEFAULT_OPTIONS)) <= 1000)%nat.
Proof.
  assert (L : (List.length (@nil (string * Duckling.Entry)) <= 1000)%nat)
    by (cbn; lia).
  split; [exact L|].
  exact (proj1 (proj1 (parseTimesDe_cache_bounded
                         (Samples.duckling_world 100000) [] "morgen um 10"
                         Duckling.DEFAULT_OPTIONS 0%Z) L)).
Defined.



Lemma request_result (w : Duckling.World) (cache : Duckling.Cache)
      (text : string) (opts : Duckling.DucklingOptions) :
  snd (Duckling.request w cache text opts)
  = match Duckling.fetch w (Duckling.ducklingUrl opts) text
                         (Duckling.locale opts) (Duckling.timezone opts)
                         (match Duckling.referenceTime opts with
                          | Some r => r
                          | None => Duckling.now_iso w
                          end) (Duckling.timeout opts) with
    | inl _ => []
    | inr answer =>
      let timeData :=
          filter (fun d => String.eqb (Duckling.dim d) "time") answer in
      let withTime :=
          filter (fun d => Duckling.has_clock (Duckling.value_value d))
                 timeData in
      if Nat.ltb 0 (List.length withTime) then withTime else timeData
    end.
Proof.
  unfold Duckling.request. cbv zeta.
  destruct (Duckling.fetch w _ _ _ _ _ _); reflexivity.
Qed.

(** X28: when no fresh cache entry answers the call, [parseTimesDe]
    returns the empty list if the request fails in any way, and
    otherwise entities of the answer with dimension [time] only: those
    whose value holds a clock time if there is one, and all of them if
    there is none. *)
Theorem parseTimesDe_fetched_result :
  forall (w : Duckling.World) (cache : Duckling.Cache) (text : string)
         (opts : Duckling.DucklingOptions),
    no_fresh_entry w cache text opts ->
    let result := snd (Duckling.parseTimesDe w cache text opts) in
    match Duckling.fetch w (Duckling.ducklingUrl opts) text
                         (Duckling.locale opts) (Duckling.timezone opts)
                         (match Duckling.referenceTime opts with
                          | Some r => r
                          | None => Duckling.now_iso w
                          end) (Duckling.timeout opts) with
    | inl _ => result = []
    | inr answer =>
      (forall d, In d result -> In d answer /\ Duckling.dim d = "time")
      /\ ((exists d, In d answer /\ Duckling.dim d = "time"
                     /\ Duckling.has_clock (Duckling.value_value d) = true) ->
          forall d, In d result ->
                    Duckling.has_clock (Duckling.value_value d) = true)
      /\ (forall d, In d answer -> Duckling.dim d = "time" ->
                    Duckling.has_clock (Duckling.value_value d) = true
                    \/ (forall d', In d' result ->
                                   Duckling.has_clock (Duckling.value_value d')
                                   = false) ->
                    In d result)
    end.
Proof.
  intros w cache text opts Hno. cbv zeta.
  assert (R : snd (Duckling.parseTimesDe w cache text opts)
              = snd (Duckling.request w cache text opts)).
  { unfold Duckling.parseTimesDe. cbv zeta.
    destruct (Duckling.useCache opts) eqn:U; [|reflexivity].
    destruct (Duckling.map_get (Duckling.cache_key w text opts) cache)
      as [e|] eqn:E; [|reflexivity].
    specialize (Hno e E).
    destruct (Z.ltb_spec (Duckling.now_check w - Duckling.timestamp e)
                         Duckling.CACHE_TTL) as [Lt|Ge]; [lia|].
    now rewrite !request_result. }
  rewrite R, request_result.
  destruct (Duckling.fetch w _ _ _ _ _ _) as [e|answer]; [reflexivity|].
  cbv zeta.
  set (timeData := filter (fun d => String.eqb (Duckling.dim d) "time") answer).
  set (withTime := filter (fun d => Duckling.has_clock (Duckling.value_value d))
                          timeData).
  assert (TD : forall d, In d timeData
                         <-> In d answer /\ Duckling.dim d = "time").
  { intros d. unfold timeData. rewrite filter_In, String.eqb_eq. tauto. }
  assert (WT : forall d, In d withTime
                         <-> In d timeData
                             /\ Duckling.has_clock (Duckling.value_value d)
                                = true).
  { intros d. unfold withTime. now rewrite filter_In. }
  destruct withTime as [|x r] eqn:Ew; cbn [List.length Nat.ltb Nat.leb].
  - split; [|split].
    + intros d Hd. now apply TD.
    + intros [d [Hin [Hdim Hc]]]. exfalso.
      assert (H : In d (@nil Duckling.DucklingTime)); [|destruct H].
      apply WT. split; [apply TD; auto | exact Hc].
    + intros d Hin Hdim _. apply TD. auto.
  - split; [|split].
    + intros d Hd. apply TD. now apply WT.
    + intros _ d Hd. now apply WT.
    + intros d Hin Hdim [Hc|Hnone].
      * apply WT. split; [apply TD; auto | exact Hc].
      * exfalso. pose proof (Hnone x (or_introl eq_refl)) as Hx.
        assert (Hx' : In x (x :: r)) by now left.
        apply WT in Hx'. destruct Hx' as [_ Hx']. congruence.
Qed.

Lemma parseTimesDe_fetched_result_witness :
  no_fresh_entry (Samples.duckling_world 100000) [] "morgen um 10"
                 Duckling.DEFAULT_OPTIONS
  /\ forall d,
      In d (snd (Duckling.parseTimesDe (Samples.duckling_world 100000) []
                   "morgen um 10" Duckling.DEFAULT_OPTIONS)) ->
      In d [Samples.tomorrow_at_ten] /\ Duckling.dim d = "time".
Proof.
  assert (N : no_fresh_entry (Samples.duckling_world 100000) [] "morgen um 10"
                             Duckling.DEFAULT_OPTIONS)
    by (intros e E; discriminate E).
  split; [exact N|].
  exact (proj1 (parseTimesDe_fetched_result (Samples.duckling_world 100000) []
                  "morgen um 10" Duckling.DEFAULT_OPTIONS N)).
Defined.
